(** * Akahu to Actual Budget / YNAB synchronisation: a shallow embedding

    The Python scripts of the repository are embedded as Rocq functions:

    - [akahu_budget_mapping]  : account directory merge, removal
      reconciliation and match suggestions (akahu_budget_mapping.py);
    - [akahu_actual_mapping]  : the single-backend predecessor of the above
      (akahu_actual_mapping.py);
    - [akahu_to_budget]       : paginated fetch, import, balance
      reconciliation, durable state and webhook (akahu_to_budget.py);
    - [akahu_to_actual]       : the single-backend predecessor
      (akahu_to_actual.py);
    - [akahu_api]             : the [AkahuAPI] client class (akahu_api.py).

    Python dictionaries used as maps are [gmap]s, account dictionaries are
    records, exceptions are an explicit [result] type, Python numbers are
    unbounded integers and binary64 floats, and every external collaborator
    (HTTP provider, budgeting backend, clock, language model, fuzzy scorer,
    cryptography) is an explicit argument of the function that uses it. *)

From Stdlib Require Import ZArith QArith String Ascii List.
From Stdlib Require Import SpecFloat.
From stdpp Require Import base gmap strings list fin_maps pretty.

Local Open Scope Z_scope.

(** ** Python values and exceptions *)

Global Instance Q_eq_dec : EqDecision Q.
Proof. solve_decision. Defined.

(** A Python [float] is an IEEE 754 binary64: the specification floats of
    the Standard Library at precision 53 and maximal exponent 1024. *)
Abbreviation float64 := spec_float.

Global Instance float64_eq_dec : EqDecision float64.
Proof. solve_decision. Defined.

(** A Python number: an [int] of any size or a [float]. [json.load] reads a
    number written without fraction and exponent as an [int], any other as
    the nearest [float]. *)
Inductive number :=
  | PyInt (z : Z)
  | PyFloat (f : float64).

Global Instance number_eq_dec : EqDecision number.
Proof. solve_decision. Defined.

(** Scalars found in the JSON documents: [null], strings and numbers. *)
Inductive atom :=
  | ANone
  | AStr (s : string)
  | ANum (x : number).

Global Instance atom_eq_dec : EqDecision atom.
Proof. solve_decision. Defined.

(** A dictionary value is a scalar or a nested dictionary of scalars (the
    ["actual"] / ["ynab"] sub-dictionaries probed by the removal scan). *)
Inductive value :=
  | VAtom (a : atom)
  | VDict (d : gmap string atom).

Global Instance value_eq_dec : EqDecision value.
Proof. solve_decision. Defined.

Abbreviation VNone := (VAtom ANone).
Abbreviation VStr s := (VAtom (AStr s)).
Abbreviation VNum x := (VAtom (ANum x)).

(** A mapping entry is a Python [dict] with string keys. *)
Abbreviation entry := (gmap string value).

(** The exceptions the embedded code can meet. [RequestException] stands for
    the whole [requests.exceptions] hierarchy, [BinasciiError] for
    [binascii.Error] (a [ValueError] subclass that is not
    [InvalidSignature]). *)
Inductive exn :=
  | KeyError (k : string)
  | IndexError
  | TypeError
  | ValueError
  | AttributeError
  | NameError (v : string)
  | RuntimeError
  | InvalidSignature
  | BinasciiError
  | RequestException
  | OtherException (what : string).

Global Instance exn_eq_dec : EqDecision exn.
Proof. solve_decision. Defined.

Inductive result (A : Type) :=
  | Ok (a : A)
  | Raise (e : exn).
Arguments Ok {A} a.
Arguments Raise {A} e.

Global Instance result_ret : MRet result := λ A a, Ok a.
Global Instance result_bind : MBind result := λ A B f r,
  match r with
  | Ok a => f a
  | Raise e => Raise e
  end.

(** *** Numbers *)

(** Float multiplication and division, to nearest with ties to even. *)
Definition fmul : float64 → float64 → float64 := SFmul 53 1024.
Definition fdiv : float64 → float64 → float64 := SFdiv 53 1024.

(** [float(z)] for an [int] that converts: the nearest float. An [int] too
    large for a float gives an infinity here, where Python raises
    [OverflowError]; the literals of the scripts (-1, 100, 1000) convert
    exactly. *)
Definition float_of_int (z : Z) : float64 := binary_normalize 53 1024 z 0 false.

(** The float that Python reads from a decimal literal: [m] followed by
    [digits] fraction digits, as in 2.01 for 201 and 2. The quotient of two
    integers that floats hold exactly is rounded once, to the nearest
    float, which is what reading the literal gives. *)
Definition float_literal (m : Z) (digits : nat) : float64 :=
  fdiv (float_of_int m) (float_of_int (10 ^ Z.of_nat digits)).

(** A float in the canonical form that every float of a program has. *)
Definition valid_float (f : float64) : Prop := valid_binary 53 1024 f = true.

Global Instance valid_float_dec f : Decision (valid_float f).
Proof. unfold valid_float. apply _. Defined.

(** The exact value of a finite float; [None] for infinities and NaN. *)
Definition float_value (f : float64) : option Q :=
  match f with
  | S754_zero _ => Some 0%Q
  | S754_finite s m e =>
      let n := if s then Z.neg m else Z.pos m in
      Some (match e with
            | Z.neg k => n # (2 ^ k)%positive
            | _ => (n * 2 ^ e) # 1
            end)
  | _ => None
  end.

Definition number_value (x : number) : option Q :=
  match x with
  | PyInt z => Some (inject_Z z)
  | PyFloat f => float_value f
  end.

(** [x * k] where [k] is an [int] literal: exact on an [int], and on a
    [float] the float product with [float(k)]. *)
Definition times (x : number) (k : Z) : number :=
  match x with
  | PyInt z => PyInt (z * k)
  | PyFloat f => PyFloat (fmul f (float_of_int k))
  end.

(** Python 3 [round] of an exact value: to nearest, ties to even. *)
Definition py_round (q : Q) : Z :=
  let n := Qnum q in
  let d := Z.pos (Qden q) in
  let f := n / d in
  let r2 := 2 * (n - f * d) in
  if r2 <? d then f
  else if d <? r2 then f + 1
  else if Z.even f then f else f + 1.

(** [int] of an exact value: truncation towards zero. *)
Definition py_int_of (q : Q) : Z := Z.quot (Qnum q) (Z.pos (Qden q)).

(** [OverflowError] *)
Definition OverflowError : exn := OtherException "OverflowError".

(** [f(x)] for [f] one of [int] and [round], given what it does to an exact
    value: an [int] is returned as it is, a finite float goes by its exact
    value, an infinity raises [OverflowError] and a NaN [ValueError]. *)
Definition to_int (f : Q → Z) (x : number) : result Z :=
  match x with
  | PyInt z => Ok z
  | PyFloat S754_nan => Raise ValueError
  | PyFloat (S754_infinity _) => Raise OverflowError
  | PyFloat y => Ok (f (default 0%Q (float_value y)))
  end.

(** [int(x)] and [round(x)] *)
Definition int_of_number : number → result Z := to_int py_int_of.
Definition round_number : number → result Z := to_int py_round.

(** [decimal.Decimal(x)]: the conversion is exact, whatever the context.
    A finite decimal is held by its value. *)
Inductive decimal :=
  | DecFinite (q : Q)
  | DecInfinity (negative : bool)
  | DecNaN.

Definition Decimal (x : number) : decimal :=
  match x with
  | PyInt z => DecFinite (inject_Z z)
  | PyFloat S754_nan => DecNaN
  | PyFloat (S754_infinity s) => DecInfinity s
  | PyFloat y => DecFinite (default 0%Q (float_value y))
  end.

(** The least power [10 ^ k] of [step] and above with
    [n < 10 ^ 28 * 10 ^ k], searched through at most [fuel] powers. *)
Fixpoint excess (fuel : nat) (n step : Z) : Z :=
  match fuel with
  | O => step
  | S fuel' => if n <? 10 ^ 28 * step then step else excess fuel' n (10 * step)
  end.

(** [decimal.Decimal(d) / 100] for an [int] [d], in the default context:
    28 significant digits, ties to even. The quotient of an [int] of at most
    28 digits is exact; a longer one is rounded to its 28 leading digits. *)
Definition decimal_div100 (d : Z) : Q :=
  if Z.abs d <? 10 ^ 28 then d # 100
  else
    let step := excess (Z.to_nat (Z.log2 (Z.abs d))) (Z.abs d) 10 in
    let coefficient := py_round (Z.abs d # Z.to_pos step) in
    (Z.sgn d * coefficient * step) # 100.

(** Python [==] between two numbers: by exact value; a NaN equals
    nothing. *)
Definition number_eqb (x y : number) : bool :=
  match x, y with
  | PyInt a, PyInt b => a =? b
  | PyFloat f, PyFloat g => SFeqb f g
  | PyInt a, PyFloat f | PyFloat f, PyInt a =>
      match float_value f with
      | Some q => Qeq_bool q (inject_Z a)
      | None => false
      end
  end.

(** Truthiness of a scalar, as in [if actual_id and ...]. *)
Definition truthy (a : atom) : bool :=
  match a with
  | ANone => false
  | AStr s => negb (bool_decide (s = ""))
  | ANum (PyInt z) => negb (z =? 0)
  | ANum (PyFloat (S754_zero _)) => false
  | ANum (PyFloat _) => true
  end.

(** Python [==] between two scalars. *)
Definition atom_eqb (a b : atom) : bool :=
  match a, b with
  | ANone, ANone => true
  | AStr s, AStr t => bool_decide (s = t)
  | ANum x, ANum y => number_eqb x y
  | _, _ => false
  end.

(** [d.get(k) == a] for an entry [d]: a missing key reads as [None], and a
    nested dictionary never equals a scalar. *)
Definition get_eqb (d : entry) (k : string) (a : atom) : bool :=
  match d !! k with
  | None => atom_eqb ANone a
  | Some (VAtom b) => atom_eqb b a
  | Some (VDict _) => false
  end.

Definition nl : string := String (ascii_of_nat 10) EmptyString.

(** ** Accounts *)

(** An account dictionary. ['id'] and ['name'] are written by every fetch
    function; ['connection'] exists on Akahu accounts, ['date_first_loaded']
    is added by the directory merge and ['seq'] by [match_accounts]. The
    remaining keys (budget id, type, balance, ...) are carried in
    [acc_other]. *)
Record account := mk_account {
  acc_id : string;
  acc_name : string;
  acc_connection : option string;
  acc_date_first_loaded : option string;
  acc_seq : option Z;
  acc_other : gmap string atom;
}.

Global Instance account_eq_dec : EqDecision account.
Proof. solve_decision. Defined.

Definition set_date_first_loaded (d : string) (a : account) : account :=
  {| acc_id := acc_id a; acc_name := acc_name a;
     acc_connection := acc_connection a;
     acc_date_first_loaded := Some d;
     acc_seq := acc_seq a; acc_other := acc_other a |}.

Definition set_seq (n : Z) (a : account) : account :=
  {| acc_id := acc_id a; acc_name := acc_name a;
     acc_connection := acc_connection a;
     acc_date_first_loaded := acc_date_first_loaded a;
     acc_seq := Some n; acc_other := acc_other a |}.

(** A plain account as the fetch functions build it. *)
Definition plain_account (i n : string) : account :=
  mk_account i n None None None ∅.

(** [x in [acc['id'] for acc in accounts]] *)
Definition id_in (x : string) (accounts : list account) : bool :=
  bool_decide (x ∈ acc_id <$> accounts).

(** The keys of [{a['id']: a for a in accounts}] in insertion order: a key
    keeps the position of its first occurrence. *)
Fixpoint dict_keys (seen : list string) (accounts : list account) : list string :=
  match accounts with
  | [] => []
  | a :: rest =>
      if bool_decide (acc_id a ∈ seen) then dict_keys seen rest
      else acc_id a :: dict_keys (acc_id a :: seen) rest
  end.

(** [{a['id']: a for a in accounts}]: a later account with the same id
    replaces the earlier one. *)
Definition index_by_id (accounts : list account) : gmap string account :=
  foldl (λ d a, <[acc_id a := a]> d) ∅ accounts.

(** ** Durable state *)

(** The ['mapping'] member of the state file, and the mapping global of the
    sync scripts: a JSON array of entries or a JSON object keyed by Akahu
    account id. *)
Inductive mapping_store :=
  | MappingList (entries : list entry)
  | MappingDict (entries : gmap string entry).

Global Instance mapping_store_eq_dec : EqDecision mapping_store.
Proof. solve_decision. Defined.

(** The state file as a JSON document ([json.dump] and [json.load] are taken
    to be inverse on documents); a member absent from the document is
    [None]. *)
Record document := mk_document {
  doc_akahu_accounts : option (list account);
  doc_actual_accounts : option (list account);
  doc_ynab_accounts : option (list account);
  doc_mapping : option mapping_store;
}.

(** [{entry['akahu_id']: entry for entry in entries}]. Account ids are
    strings; an entry whose ['akahu_id'] is another scalar is outside this
    model, and a dictionary is not hashable. *)
Fixpoint key_by_akahu_id (acc : gmap string entry) (entries : list entry)
    : result (gmap string entry) :=
  match entries with
  | [] => Ok acc
  | e :: rest =>
      match e !! "akahu_id" with
      | None => Raise (KeyError "akahu_id")
      | Some (VAtom (AStr k)) => key_by_akahu_id (<[k := e]> acc) rest
      | Some (VAtom _) => Raise (OtherException "akahu_id is not a string")
      | Some (VDict _) => Raise TypeError
      end
  end.

(** The comprehension over [data.get('mapping', [])]: iterating a JSON
    object yields its keys, which are strings and cannot be indexed by
    ['akahu_id']. *)
Definition mapping_of_document (m : option mapping_store)
    : result (gmap string entry) :=
  match m with
  | None => Ok ∅
  | Some (MappingList l) => key_by_akahu_id ∅ l
  | Some (MappingDict d) =>
      if bool_decide (d = ∅) then Ok ∅ else Raise TypeError
  end.

(** ** akahu_budget_mapping.py *)
Module akahu_budget_mapping.

(** [combine_accounts(latest_accounts, existing_accounts)]; [current_date]
    is the value of [datetime.now().isoformat()] read on entry. *)
Definition stamp (current_date : string) (existing_ids : gmap string account)
    (account_data : account) : account :=
  match existing_ids !! acc_id account_data with
  | Some old =>
      set_date_first_loaded
        (default current_date (acc_date_first_loaded old)) account_data
  | None => set_date_first_loaded current_date account_data
  end.

Definition combine_accounts (current_date : string)
    (latest_accounts existing_accounts : list account)
    : list account * list string :=
  let existing_ids := index_by_id existing_accounts in
  let combined_accounts := stamp current_date existing_ids <$> latest_accounts in
  let deleted_accounts :=
    filter (λ account_id, ¬ id_in account_id latest_accounts)
           (dict_keys [] existing_accounts) in
  (combined_accounts, deleted_accounts).

(** *** Removal reconciliation *)

(** [updated_mapping[akahu_id].get(backend, {}).get("id")]: a value stored
    under [backend] that is not a dictionary has no [get] method. *)
Definition nested_id (e : entry) (backend : string) : result atom :=
  match e !! backend with
  | None => Ok ANone
  | Some (VDict d) => Ok (default ANone (d !! "id"))
  | Some (VAtom _) => Raise AttributeError
  end.

(** [x not in [acc['id'] for acc in accounts]] for a scalar [x]. *)
Definition atom_not_in (x : atom) (accounts : list account) : bool :=
  match x with
  | AStr s => negb (id_in s accounts)
  | _ => true
  end.

Record removal_scan := mk_scan {
  akahu_to_delete : list string;
  actual_to_delete : list (atom * string);
  ynab_to_delete : list (atom * string);
}.

(** One iteration of the loop of step 5. *)
Definition scan_entry
    (combined_akahu combined_actual combined_ynab : list account)
    (acc : removal_scan) (akahu_id : string) (e : entry) : result removal_scan :=
  if negb (id_in akahu_id combined_akahu) then
    Ok (mk_scan (akahu_to_delete acc ++ [akahu_id])
                (actual_to_delete acc) (ynab_to_delete acc))
  else
    actual_id ← nested_id e "actual";
    let actual' :=
      if truthy actual_id && atom_not_in actual_id combined_actual
      then actual_to_delete acc ++ [(actual_id, akahu_id)]
      else actual_to_delete acc in
    ynab_id ← nested_id e "ynab";
    let ynab' :=
      if truthy ynab_id && atom_not_in ynab_id combined_ynab
      then ynab_to_delete acc ++ [(ynab_id, akahu_id)]
      else ynab_to_delete acc in
    Ok (mk_scan (akahu_to_delete acc) actual' ynab').

Fixpoint scan_entries
    (combined_akahu combined_actual combined_ynab : list account)
    (acc : removal_scan) (items : list (string * entry)) : result removal_scan :=
  match items with
  | [] => Ok acc
  | (akahu_id, e) :: rest =>
      acc' ← scan_entry combined_akahu combined_actual combined_ynab acc akahu_id e;
      scan_entries combined_akahu combined_actual combined_ynab acc' rest
  end.

Definition actual_fields : list string :=
  ["actual_account_id"; "actual_budget_id"; "actual_budget_name";
   "actual_account_name"].

Definition ynab_fields : list string :=
  ["ynab_account_id"; "ynab_budget_id"; "ynab_budget_name";
   "ynab_account_name"].

(** The four assignments [updated_mapping[akahu_id][f] = None]. *)
Definition null_fields (fields : list string) (e : entry) : entry :=
  foldl (λ e f, <[f := VNone]> e) e fields.

(** One iteration of a target loop of step 7. *)
Definition clear_target (id_key : string) (fields : list string)
    (m : gmap string entry) (p : atom * string) : result (gmap string entry) :=
  match m !! p.2 with
  | None => Raise (KeyError p.2)
  | Some e =>
      if get_eqb e id_key p.1 then Ok (<[p.2 := null_fields fields e]> m)
      else Ok m
  end.

Fixpoint clear_targets (id_key : string) (fields : list string)
    (m : gmap string entry) (ps : list (atom * string)) : result (gmap string entry) :=
  match ps with
  | [] => Ok m
  | p :: rest =>
      m' ← clear_target id_key fields m p;
      clear_targets id_key fields m' rest
  end.

(** [confirmation.lower() == 'y'] *)
Definition confirmed (confirmation : string) : bool :=
  bool_decide (confirmation = "y" ∨ confirmation = "Y").

(** [merge_and_update_mapping]. The three clock readings are those of the
    three [combine_accounts] calls; [confirmation] is the operator's answer
    to the prompt of step 6, read only when something is to be deleted. The
    loop of step 5 visits the keys in the order of [map_to_list]; the result
    does not depend on that order. *)
Definition merge_and_update_mapping
    (now_akahu now_actual now_ynab : string) (confirmation : string)
    (existing_mapping : gmap string entry)
    (latest_akahu_accounts latest_actual_accounts latest_ynab_accounts
     existing_akahu_accounts existing_actual_accounts existing_ynab_accounts
       : list account)
    : result (gmap string entry * list account * list account * list account) :=
  let '(combined_akahu_accounts, deleted_akahu_accounts) :=
    combine_accounts now_akahu latest_akahu_accounts existing_akahu_accounts in
  let '(combined_actual_accounts, deleted_actual_accounts) :=
    combine_accounts now_actual latest_actual_accounts existing_actual_accounts in
  let '(combined_ynab_accounts, deleted_ynab_accounts) :=
    combine_accounts now_ynab latest_ynab_accounts existing_ynab_accounts in
  let updated_mapping := existing_mapping in
  sc ← scan_entries combined_akahu_accounts combined_actual_accounts
         combined_ynab_accounts (mk_scan [] [] []) (map_to_list updated_mapping);
  updated_mapping ←
    (if bool_decide (akahu_to_delete sc = [] ∧ actual_to_delete sc = []
                     ∧ ynab_to_delete sc = [])
     then Ok updated_mapping
     else if confirmed confirmation then
       let m1 := foldl (λ m akahu_id, delete akahu_id m) updated_mapping
                       (akahu_to_delete sc) in
       m2 ← clear_targets "actual_account_id" actual_fields m1 (actual_to_delete sc);
       clear_targets "ynab_account_id" ynab_fields m2 (ynab_to_delete sc)
     else Ok updated_mapping);
  Ok (updated_mapping, combined_akahu_accounts, combined_actual_accounts,
      combined_ynab_accounts).

(** *** Match suggestions *)

(** [any(account_id == mapping.get(target_account_key)
         for mapping in akahu_to_account_mapping.values())] *)
Definition any_mapped (account_id target_account_key : string)
    (akahu_to_account_mapping : gmap string entry) : bool :=
  existsb (λ mapping, get_eqb mapping target_account_key (AStr account_id))
          (map_to_list akahu_to_account_mapping).*2.

(** [account['seq']] *)
Definition seq_of (a : account) : result Z :=
  match acc_seq a with
  | Some n => Ok n
  | None => Raise (KeyError "seq")
  end.

(** [account['connection']] *)
Definition connection_of (a : account) : result string :=
  match acc_connection a with
  | Some c => Ok c
  | None => Raise (KeyError "connection")
  end.

(** [next((account for account in target_accounts
           if account['seq'] == chosen_seq), None)] *)
Fixpoint find_seq (chosen_seq : Z) (target_accounts : list account)
    : result (option account) :=
  match target_accounts with
  | [] => Ok None
  | a :: rest =>
      n ← seq_of a;
      if n =? chosen_seq then Ok (Some a) else find_seq chosen_seq rest
  end.

(** The numbering loop at the head of [match_accounts]:
    [for idx, target_account in enumerate(target_accounts, start=1):
         target_account['seq'] = idx] *)
Fixpoint number_from (idx : Z) (target_accounts : list account) : list account :=
  match target_accounts with
  | [] => []
  | a :: rest => set_seq idx a :: number_from (idx + 1) rest
  end.

Definition number_targets (target_accounts : list account) : list account :=
  number_from 1 target_accounts.

Section suggestions.

(** The builtin [int] on strings ([None] is [ValueError]) and [str.strip]. *)
Variable py_int : string → option Z.
Variable py_strip : string → string.
(** The chat completion: the content of the first choice for a prompt, or
    the exception raised on the way to it. *)
Variable chat_completion : string → result string.
(** The similarity score that [process.extractOne] maximises. *)
Variable fuzz_score : string → string → Z.

Definition validate_user_input (response_content : string)
    (target_accounts : list account)
    (akahu_to_account_mapping : gmap string entry)
    (target_account_key : string) : result (option Z) :=
  match py_int response_content with
  | None => Ok None
  | Some chosen_seq =>
      account ← find_seq chosen_seq target_accounts;
      match account with
      | Some a =>
          if negb (any_mapped (acc_id a) target_account_key
                     akahu_to_account_mapping)
          then Ok (Some chosen_seq)
          else Ok None
      | None => Ok None
      end
  end.

(** The loop of [get_fuzzy_match_suggestion]: the names of the unmapped
    targets with their 1-based positions ([unmapped_accounts] and
    [unmapped_indices] zipped). *)
Fixpoint unmapped_from (idx : Z) (target_accounts : list account)
    (akahu_to_account_mapping : gmap string entry)
    (target_account_key : string) : result (list (string * Z)) :=
  match target_accounts with
  | [] => Ok []
  | a :: rest =>
      _ ← seq_of a;
      tail ← unmapped_from (idx + 1) rest akahu_to_account_mapping
               target_account_key;
      if any_mapped (acc_id a) target_account_key akahu_to_account_mapping
      then Ok tail
      else Ok ((acc_name a, idx) :: tail)
  end.

(** [max(..., key=score)] keeps the first of the best-scoring choices. *)
Fixpoint best_choice (query : string) (best : string * Z)
    (choices : list string) : string * Z :=
  match choices with
  | [] => best
  | c :: rest =>
      if best.2 <? fuzz_score query c
      then best_choice query (c, fuzz_score query c) rest
      else best_choice query best rest
  end.

(** [process.extractOne(query, choices)] on a list of choices. *)
Definition extractOne (query : string) (choices : list string)
    : option (string * Z) :=
  match choices with
  | [] => None
  | c :: rest => Some (best_choice query (c, fuzz_score query c) rest)
  end.

(** [choices.index(x)] *)
Fixpoint index_of (x : string) (choices : list string) : option nat :=
  match choices with
  | [] => None
  | c :: rest =>
      if bool_decide (c = x) then Some 0%nat else S <$> index_of x rest
  end.

Definition get_fuzzy_match_suggestion (akahu_account : account)
    (target_accounts : list account)
    (akahu_to_account_mapping : gmap string entry)
    (target_account_key : string) : result (option Z) :=
  unmapped ← unmapped_from 1 target_accounts akahu_to_account_mapping
               target_account_key;
  let unmapped_accounts := unmapped.*1 in
  let unmapped_indices := unmapped.*2 in
  match extractOne (acc_name akahu_account) unmapped_accounts with
  | None => Ok None
  | Some (best_match_name, confidence) =>
      if 50 <=? confidence then
        match index_of best_match_name unmapped_accounts with
        | None => Raise ValueError
        | Some best_match_index =>
            match unmapped_indices !! best_match_index with
            | None => Raise IndexError
            | Some original_index => Ok (Some original_index)
            end
        end
      else Ok None
  end.

(** The lines of the prompt that list the unmapped targets. *)
Fixpoint prompt_lines (target_accounts : list account)
    (akahu_to_account_mapping : gmap string entry)
    (target_account_key : string) : result string :=
  match target_accounts with
  | [] => Ok ""
  | a :: rest =>
      account_seq ← seq_of a;
      tail ← prompt_lines rest akahu_to_account_mapping target_account_key;
      if any_mapped (acc_id a) target_account_key akahu_to_account_mapping
      then Ok tail
      else Ok (pretty account_seq +:+ ". " +:+ acc_name a +:+ nl +:+ tail)
  end.

Definition prompt_preamble (akahu_name connection : string) : string :=
  "You are an expert in financial account mapping. Your task is to match the given Akahu account with one of the provided target accounts. "
  +:+ "Please provide the number corresponding to the best match. Even if you are not completely certain, make the best choice you can based on the information provided."
  +:+ nl +:+ nl +:+ "Akahu Account:" +:+ nl
  +:+ "Name: " +:+ akahu_name +:+ nl
  +:+ "Connection: " +:+ connection +:+ nl +:+ nl
  +:+ "Here is a list of target accounts:" +:+ nl.

Definition get_openai_match_suggestion (akahu_account : account)
    (target_accounts : list account)
    (akahu_to_account_mapping : gmap string entry)
    (target_account_key : string) : result (option Z) :=
  connection ← connection_of akahu_account;
  lines ← prompt_lines target_accounts akahu_to_account_mapping
            target_account_key;
  let prompt :=
    prompt_preamble (acc_name akahu_account) connection +:+ lines
    +:+ nl +:+ "Please type the number corresponding to the best match:" in
  let attempt :=
    response_content ← chat_completion prompt;
    validate_user_input (py_strip response_content) target_accounts
      akahu_to_account_mapping target_account_key in
  match attempt with
  | Ok (Some chosen_index) => Ok (Some chosen_index)
  | Ok None | Raise _ =>
      get_fuzzy_match_suggestion akahu_account target_accounts
        akahu_to_account_mapping target_account_key
  end.

(** *** Interactive matching *)

(** The two keys that [match_accounts] derives from [account_type]. *)
Definition target_keys (account_type : string) : result (string * string) :=
  if bool_decide (account_type = "actual")
  then Ok ("actual_account_id", "actual_account_name")
  else if bool_decide (account_type = "ynab")
  then Ok ("ynab_account_id", "ynab_account_name")
  else Raise ValueError.

(** [seq_to_acct(suggested_index, target_accounts)] *)
Definition seq_to_acct (suggested_index : Z) (target_accounts : list account)
    : result (option account) :=
  find_seq suggested_index target_accounts.

(** The dictionary that [match_accounts] stores for a match. *)
Definition new_entry (target_account_key target_account_name : string)
    (selected : account) (akahu_id akahu_name matched_date : string) : entry :=
  <[target_account_key := VStr (acc_id selected)]>
  (<[target_account_name := VStr (acc_name selected)]>
  (<["akahu_id" := VStr akahu_id]>
  (<["akahu_name" := VStr akahu_name]>
  (<["matched_date" := VStr matched_date]> ∅)))).

(** [akahu_id in mapping and target_account_key in mapping[akahu_id]] *)
Definition already_matched (akahu_id target_account_key : string)
    (akahu_to_account_mapping : gmap string entry) : bool :=
  match akahu_to_account_mapping !! akahu_id with
  | Some e => bool_decide (is_Some (e !! target_account_key))
  | None => false
  end.

(** The display loop reads ['seq'] of every target. *)
Fixpoint display_targets (target_accounts : list account) : result () :=
  match target_accounts with
  | [] => Ok ()
  | a :: rest => _ ← seq_of a; display_targets rest
  end.

(** One iteration of the loop over the Akahu accounts. [answers] holds, for
    each prompt still to come, what the operator types and the clock
    reading taken if that answer is recorded; [input] on an exhausted
    console raises [EOFError]. *)
Definition match_one (use_openai : bool) (target_accounts : list account)
    (target_account_key target_account_name : string)
    (akahu_to_account_mapping : gmap string entry) (akahu_account : account)
    (answers : list (string * string))
    : result (gmap string entry * list (string * string)) :=
  let akahu_id := acc_id akahu_account in
  let akahu_name := acc_name akahu_account in
  if already_matched akahu_id target_account_key akahu_to_account_mapping
  then Ok (akahu_to_account_mapping, answers)
  else
    suggested_index ←
      (if use_openai
       then get_openai_match_suggestion akahu_account target_accounts
              akahu_to_account_mapping target_account_key
       else get_fuzzy_match_suggestion akahu_account target_accounts
              akahu_to_account_mapping target_account_key);
    _ ← connection_of akahu_account;
    _ ← display_targets target_accounts;
    _ ← match suggested_index with
        | None => Ok ()
        | Some i =>
            suggested ← seq_to_acct i target_accounts;
            match suggested with
            | Some _ => Ok ()
            | None => Raise TypeError
            end
        end;
    match answers with
    | [] => Raise (OtherException "EOFError")
    | (user_input, matched_date) :: answers =>
        validated_index ← validate_user_input user_input target_accounts
                            akahu_to_account_mapping target_account_key;
        match validated_index with
        | None => Ok (akahu_to_account_mapping, answers)
        | Some validated_index =>
            selected_account ← seq_to_acct validated_index target_accounts;
            match selected_account with
            | None => Raise TypeError
            | Some selected =>
                Ok (<[akahu_id :=
                        new_entry target_account_key target_account_name
                          selected akahu_id akahu_name matched_date]>
                      akahu_to_account_mapping,
                    answers)
            end
        end
    end.

Fixpoint match_loop (use_openai : bool) (target_accounts : list account)
    (target_account_key target_account_name : string)
    (akahu_to_account_mapping : gmap string entry)
    (akahu_accounts : list account) (answers : list (string * string))
    : result (gmap string entry) :=
  match akahu_accounts with
  | [] => Ok akahu_to_account_mapping
  | akahu_account :: rest =>
      step ← match_one use_openai target_accounts target_account_key
               target_account_name akahu_to_account_mapping akahu_account
               answers;
      match_loop use_openai target_accounts target_account_key
        target_account_name step.1 rest step.2
  end.

(** [match_accounts(akahu_to_account_mapping, akahu_accounts,
    target_accounts, account_type, use_openai)]: the mapping returned. The
    targets keep the ['seq'] written into them. *)
Definition match_accounts (akahu_to_account_mapping : gmap string entry)
    (akahu_accounts target_accounts : list account) (account_type : string)
    (use_openai : bool) (answers : list (string * string))
    : result (gmap string entry) :=
  keys ← target_keys account_type;
  match_loop use_openai (number_targets target_accounts) keys.1 keys.2
    akahu_to_account_mapping akahu_accounts answers.

End suggestions.

(** *** The mapping file of the mapper *)

(** The files on disk, by name. *)
Abbreviation files := (gmap string document).

(** The comprehension of [load_existing_mapping] over a mapping in the old
    list format: [{entry['akahu_id']: entry for entry in mapping
    if 'akahu_id' in entry}]. *)
Fixpoint key_present_by_akahu_id (acc : gmap string entry) (entries : list entry)
    : result (gmap string entry) :=
  match entries with
  | [] => Ok acc
  | e :: rest =>
      match e !! "akahu_id" with
      | None => key_present_by_akahu_id acc rest
      | Some (VAtom (AStr k)) => key_present_by_akahu_id (<[k := e]> acc) rest
      | Some (VAtom _) => Raise (OtherException "akahu_id is not a string")
      | Some (VDict _) => Raise TypeError
      end
  end.

(** [load_existing_mapping(mapping_file)]; the empty dictionaries that
    stand for missing account lists, and for everything when there is no
    file, are the empty list and the empty mapping here. *)
Definition load_existing_mapping (disk : files) (mapping_file : string)
    : result (list account * list account * list account * gmap string entry) :=
  match disk !! mapping_file with
  | Some data =>
      mapping ←
        match doc_mapping data with
        | None => Ok ∅
        | Some (MappingDict d) => Ok d
        | Some (MappingList l) => key_present_by_akahu_id ∅ l
        end;
      Ok (default [] (doc_akahu_accounts data),
          default [] (doc_actual_accounts data),
          default [] (doc_ynab_accounts data), mapping)
  | None => Ok ([], [], [], ∅)
  end.

Definition load_default_file : string := "akahu_to_budget_mapping.json".
Definition save_default_file : string := "akahu_budget_mapping.json".

(** The document that [save_mapping] dumps. *)
Definition data_to_save (mapping : gmap string entry)
    (akahu_accounts actual_accounts ynab_accounts : list account) : document :=
  mk_document (Some akahu_accounts) (Some actual_accounts)
              (Some ynab_accounts) (Some (MappingDict mapping)).

(** [save_mapping(mapping, akahu_accounts, actual_accounts, ynab_accounts,
    mapping_file)]: the files after the call. *)
Definition save_mapping (disk : files) (mapping : gmap string entry)
    (akahu_accounts actual_accounts ynab_accounts : list account)
    (mapping_file : string) : files :=
  <[mapping_file :=
      data_to_save mapping akahu_accounts actual_accounts ynab_accounts]> disk.

End akahu_budget_mapping.

(** ** akahu_actual_mapping.py *)
Module akahu_actual_mapping.

(** [if 'date_first_loaded' not in acc: acc['date_first_loaded'] = now] *)
Definition ensure_date (now : string) (a : account) : account :=
  match acc_date_first_loaded a with
  | Some _ => a
  | None => set_date_first_loaded now a
  end.

(** [v not in [acc['id'] for acc in accounts]] for a stored value [v]. *)
Definition value_not_in (v : value) (accounts : list account) : bool :=
  match v with
  | VAtom (AStr s) => negb (id_in s accounts)
  | _ => true
  end.

(** The second validation loop: the keys whose ["actual_account_id"] is not
    a latest Actual account. *)
Fixpoint actual_accounts_to_remove (latest_actual_accounts : list account)
    (items : list (string * entry)) : result (list string) :=
  match items with
  | [] => Ok []
  | (akahu_id, mapping_entry) :: rest =>
      match mapping_entry !! "actual_account_id" with
      | None => Raise (KeyError "actual_account_id")
      | Some actual_account_id =>
          tail ← actual_accounts_to_remove latest_actual_accounts rest;
          if value_not_in actual_account_id latest_actual_accounts
          then Ok (akahu_id :: tail)
          else Ok tail
      end
  end.

(** [merge_and_update_mapping]; the clock readings of one loop are taken to
    be one reading. The two [existing_*_accounts] arguments are ignored by
    the source. *)
Definition merge_and_update_mapping (now_akahu now_actual : string)
    (existing_mapping : gmap string entry)
    (latest_akahu_accounts latest_actual_accounts
     existing_akahu_accounts existing_actual_accounts : list account)
    : result (gmap string entry * list account * list account) :=
  let latest_akahu_accounts := ensure_date now_akahu <$> latest_akahu_accounts in
  let latest_actual_accounts := ensure_date now_actual <$> latest_actual_accounts in
  let akahu_accounts_to_remove :=
    filter (λ akahu_id, ¬ id_in akahu_id latest_akahu_accounts)
           (map_to_list existing_mapping).*1 in
  let existing_mapping :=
    foldl (λ m akahu_id, delete akahu_id m) existing_mapping
          akahu_accounts_to_remove in
  to_remove ← actual_accounts_to_remove latest_actual_accounts
                (map_to_list existing_mapping);
  let existing_mapping :=
    foldl (λ m akahu_id, delete akahu_id m) existing_mapping to_remove in
  let updated_akahu_accounts :=
    filter (λ acc, acc_id acc ∉ akahu_accounts_to_remove) latest_akahu_accounts in
  let updated_actual_accounts :=
    filter (λ acc, acc_id acc ∉ to_remove) latest_actual_accounts in
  Ok (existing_mapping, updated_akahu_accounts, updated_actual_accounts).

End akahu_actual_mapping.

(** ** Dates and times *)

Record date := mk_date { d_year : Z; d_month : Z; d_day : Z }.

Global Instance date_eq_dec : EqDecision date.
Proof. solve_decision. Defined.

Record datetime := mk_datetime {
  dt_date : date;
  dt_hour : Z;
  dt_minute : Z;
  dt_second : Z;
  dt_microsecond : Z;
}.

Global Instance datetime_eq_dec : EqDecision datetime.
Proof. solve_decision. Defined.

(** Days since 1970-01-01 of a proleptic Gregorian date, and back. *)
Definition days_from_civil (d : date) : Z :=
  let y := if d_month d <=? 2 then d_year d - 1 else d_year d in
  let era := y / 400 in
  let yoe := y - era * 400 in
  let mp := (d_month d + 9) mod 12 in
  let doy := (153 * mp + 2) / 5 + d_day d - 1 in
  let doe := yoe * 365 + yoe / 4 - yoe / 100 + doy in
  era * 146097 + doe - 719468.

Definition civil_from_days (z : Z) : date :=
  let z := z + 719468 in
  let era := z / 146097 in
  let doe := z - era * 146097 in
  let yoe := (doe - doe / 1460 + doe / 36524 - doe / 146096) / 365 in
  let doy := doe - (365 * yoe + yoe / 4 - yoe / 100) in
  let mp := (5 * doy + 2) / 153 in
  let m := if mp <? 10 then mp + 3 else mp - 9 in
  mk_date (if m <=? 2 then yoe + era * 400 + 1 else yoe + era * 400)
          m (doy - (153 * mp + 2) / 5 + 1).

(** [t + timedelta(days=days, hours=hours)]; [OverflowError] outside the
    years 1..9999. *)
Definition add_timedelta (t : datetime) (days hours : Z) : result datetime :=
  let h := dt_hour t + hours in
  let d := civil_from_days (days_from_civil (dt_date t) + days + h / 24) in
  if (1 <=? d_year d) && (d_year d <=? 9999) then
    Ok (mk_datetime d (h mod 24) (dt_minute t) (dt_second t) (dt_microsecond t))
  else Raise (OtherException "OverflowError").

(** The [datetime] library functions the scripts call. They are arguments
    of the embedded functions; the reference versions below read and write
    the fixed-width forms that [strftime] itself produces. *)
Definition digit_value (c : ascii) : option Z :=
  let n := Z.of_nat (nat_of_ascii c) in
  if (48 <=? n) && (n <=? 57) then Some (n - 48) else None.

Fixpoint number_of (acc : Z) (cs : list ascii) : option Z :=
  match cs with
  | [] => Some acc
  | c :: rest => d ← digit_value c; number_of (10 * acc + d) rest
  end.

Definition field (s : string) (start len : nat) : option Z :=
  let cs := take len (drop start (list_ascii_of_string s)) in
  if bool_decide (length cs = len) then number_of 0 cs else None.

Definition days_in_month (y m : Z) : Z :=
  if m =? 2 then
    if ((y mod 4 =? 0) && negb (y mod 100 =? 0)) || (y mod 400 =? 0)
    then 29 else 28
  else if (m =? 4) || (m =? 6) || (m =? 9) || (m =? 11) then 30 else 31.

Definition valid_date (d : date) : bool :=
  (1 <=? d_year d) && (d_year d <=? 9999)
  && (1 <=? d_month d) && (d_month d <=? 12)
  && (1 <=? d_day d) && (d_day d <=? days_in_month (d_year d) (d_month d)).

Definition char_at (s : string) (i : nat) : option ascii :=
  list_ascii_of_string s !! i.

Definition ref_parse_date (s : string) : option date :=
  y ← field s 0 4; m ← field s 5 2; d ← field s 8 2;
  if bool_decide (char_at s 4 = Some "-"%char ∧ char_at s 7 = Some "-"%char)
     && valid_date (mk_date y m d)
  then Some (mk_date y m d) else None.

(** [datetime.strptime(s, fmt)] for the two formats of the scripts. *)
Definition ref_strptime (s fmt : string) : option datetime :=
  if bool_decide (fmt = "%Y-%m-%d") then
    if bool_decide (String.length s = 10%nat) then
      d ← ref_parse_date s; Some (mk_datetime d 0 0 0 0)
    else None
  else if bool_decide (fmt = "%Y-%m-%dT%H:%M:%SZ") then
    if bool_decide (String.length s = 20%nat ∧ char_at s 10 = Some "T"%char
                    ∧ char_at s 13 = Some ":"%char ∧ char_at s 16 = Some ":"%char
                    ∧ char_at s 19 = Some "Z"%char) then
      d ← ref_parse_date s;
      h ← field s 11 2; mi ← field s 14 2; sec ← field s 17 2;
      if (h <=? 23) && (mi <=? 59) && (sec <=? 59)
      then Some (mk_datetime d h mi sec 0) else None
    else None
  else None.

Definition pad (width : nat) (n : Z) : string :=
  let s := pretty n in
  String.concat "" (replicate (width - String.length s) "0") +:+ s.

Definition fmt_date (d : date) : string :=
  pad 4 (d_year d) +:+ "-" +:+ pad 2 (d_month d) +:+ "-" +:+ pad 2 (d_day d).

Definition fmt_time (t : datetime) : string :=
  pad 2 (dt_hour t) +:+ ":" +:+ pad 2 (dt_minute t) +:+ ":" +:+ pad 2 (dt_second t).

(** [t.strftime(fmt)] for the two formats of the scripts. *)
Definition ref_strftime (t : datetime) (fmt : string) : string :=
  if bool_decide (fmt = "%Y-%m-%d") then fmt_date (dt_date t)
  else if bool_decide (fmt = "%Y-%m-%dT%H:%M:%SZ")
  then fmt_date (dt_date t) +:+ "T" +:+ fmt_time t +:+ "Z"
  else fmt.

(** [t.isoformat()] *)
Definition ref_isoformat (t : datetime) : string :=
  fmt_date (dt_date t) +:+ "T" +:+ fmt_time t
  +:+ (if dt_microsecond t =? 0 then "" else "." +:+ pad 6 (dt_microsecond t)).

(** ** Akahu transactions and the HTTP provider *)

(** A row of the transactions frame. [txn_merchant] is the merchant
    sub-dictionary when there is one, with its ['name'] when it has one. *)
Record txn_row := mk_txn {
  txn_id : string;
  txn_date : string;
  txn_description : string;
  txn_amount : number;
  txn_merchant : option (option string);
}.

(** The query parameters of one [GET .../accounts/<id>/transactions]. *)
Record request := mk_request {
  req_account : string;
  req_start : string;
  req_cursor : option string;
}.

Global Instance request_eq_dec : EqDecision request.
Proof. solve_decision. Defined.

(** The ['cursor'] member of a response body: absent, [null], or an object
    whose ['next'] is absent ([None]), [null] ([Some None]) or a string. *)
Inductive cursor_field :=
  | CursorMissing
  | CursorNull
  | CursorDict (next : option (option string)).

(** A JSON response body; [page_items = None] when ['items'] is absent. *)
Record page := mk_page {
  page_items : option (list txn_row);
  page_cursor : cursor_field;
}.

(** What [requests.get] does: it raises, or it returns a response with a
    status code and a JSON body. *)
Inductive reply :=
  | ConnectionFailed
  | Response (status : Z) (body : page).

(** The provider answers the [n]-th request of a fetch. *)
Abbreviation provider := (nat → request → reply).

(** ** akahu_to_budget.py *)
Module akahu_to_budget.

(** The module globals written by [load_existing_mapping]. *)
Record globals := mk_globals {
  g_akahu_accounts : list account;
  g_actual_accounts : list account;
  g_ynab_accounts : list account;
  g_mapping_list : mapping_store;
}.

Global Instance globals_eq_dec : EqDecision globals.
Proof. solve_decision. Defined.

(** [load_existing_mapping()]; the argument is the content of the mapping
    file, [None] when the file does not exist. *)
Definition load_existing_mapping (file : option document) : result globals :=
  match file with
  | Some data =>
      mapping ← mapping_of_document (doc_mapping data);
      Ok (mk_globals (default [] (doc_akahu_accounts data))
                     (default [] (doc_actual_accounts data))
                     (default [] (doc_ynab_accounts data))
                     (MappingDict mapping))
  | None => Ok (mk_globals [] [] [] (MappingList []))
  end.

(** [save_updated_mapping()]: the document written to the mapping file.
    [list(g_mapping_list.values())] needs a dictionary. The values are
    listed in the order of [map_to_list]. *)
Definition save_updated_mapping (g : globals) : result document :=
  match g_mapping_list g with
  | MappingDict d =>
      Ok (mk_document (Some (g_akahu_accounts g)) (Some (g_actual_accounts g))
                      (Some (g_ynab_accounts g))
                      (Some (MappingList (map_to_list d).*2)))
  | MappingList _ => Raise AttributeError
  end.

(** *** Paginated fetch *)

(** The [try] block of the loop: [requests.get], [raise_for_status] and
    [response.json()]; [None] is a [RequestException]. *)
Definition try_get (r : reply) : option page :=
  match r with
  | ConnectionFailed => None
  | Response status body =>
      if (400 <=? status) && (status <? 600) then None else Some body
  end.

(** The pagination test at the end of the loop body. *)
Definition next_cursor_of (num_txn : nat) (body : page) : result (option string) :=
  if bool_decide (num_txn = 0%nat) then Ok None
  else match page_cursor body with
       | CursorMissing => Ok None
       | CursorNull => Raise TypeError
       | CursorDict None => Ok None
       | CursorDict (Some next) => Ok next
       end.

(** The frame [res] after one more page: a copy of the page, or the
    concatenation with what was fetched before. *)
Definition accumulate (res : option (list txn_row)) (akahu_txn : list txn_row)
    : option (list txn_row) :=
  match res with
  | None => Some akahu_txn
  | Some r => Some (r ++ akahu_txn)
  end.

(** The [while next_cursor is not None] loop, entered with a cursor that is
    not [None]. [n] counts the requests already sent, [sent] lists them.
    The result is [None] when [fuel] iterations did not end the loop. *)
Fixpoint paginate (serve : provider) (fuel : nat) (n : nat)
    (query_params : request) (next_cursor : string)
    (res : option (list txn_row)) (sent : list request)
    : option (list request * result (option (list txn_row))) :=
  match fuel with
  | O => None
  | S fuel' =>
      let query_params :=
        if bool_decide (next_cursor ≠ "first time")
        then mk_request (req_account query_params) (req_start query_params)
                        (Some next_cursor)
        else query_params in
      let sent := sent ++ [query_params] in
      match try_get (serve n query_params) with
      | None => Some (sent, Ok res)
      | Some akahu_txn_json =>
          let akahu_txn := default [] (page_items akahu_txn_json) in
          let res := accumulate res akahu_txn in
          match next_cursor_of (length akahu_txn) akahu_txn_json with
          | Raise e => Some (sent, Raise e)
          | Ok None => Some (sent, Ok res)
          | Ok (Some next) =>
              paginate serve fuel' (S n) query_params next res sent
          end
      end
  end.

(** [if last_reconciled_at:] *)
Definition start_param (last_reconciled_at : option string) : string :=
  match last_reconciled_at with
  | Some t => if bool_decide (t = "") then "2024-01-01T00:00:00Z" else t
  | None => "2024-01-01T00:00:00Z"
  end.

(** [get_all_akahu(akahu_account_id, last_reconciled_at)]: the requests sent
    and the frame returned ([None] for Python's [None]). *)
Definition get_all_akahu (serve : provider) (fuel : nat)
    (akahu_account_id : string) (last_reconciled_at : option string)
    : option (list request * result (option (list txn_row))) :=
  paginate serve fuel 0
    (mk_request akahu_account_id (start_param last_reconciled_at) None)
    "first time" None [].

(** *** Import into Actual Budget *)

(** The keyword arguments of one [reconcile_transaction] call. *)
Record reconcile_call (reconciled : Type) := mk_reconcile_call {
  rc_date : date;
  rc_account : value;
  rc_payee : string;
  rc_notes : string;
  rc_amount : decimal;
  rc_imported_id : string;
  rc_cleared : bool;
  rc_imported_payee : string;
  rc_already_matched : list reconciled;
}.
Arguments mk_reconcile_call {reconciled}.
Arguments rc_date {reconciled}.
Arguments rc_account {reconciled}.
Arguments rc_payee {reconciled}.
Arguments rc_notes {reconciled}.
Arguments rc_amount {reconciled}.
Arguments rc_imported_id {reconciled}.
Arguments rc_cleared {reconciled}.
Arguments rc_imported_payee {reconciled}.
Arguments rc_already_matched {reconciled}.

(** The keyword arguments of one [create_transaction] call; the amount is
    a finite [Decimal], held by its value. *)
Record create_call := mk_create_call {
  cc_date : date;
  cc_account : value;
  cc_payee : string;
  cc_notes : string;
  cc_amount : Q;
  cc_imported_id : string;
  cc_cleared : bool;
  cc_imported_payee : string;
}.

Section actual_budget.

(** The Actual Budget collaborator, the [actual] library. [session] is the
    expression [actual.session()], which raises when what [actual.session]
    holds cannot be called; [enter] is the entry of a [with] block on what
    it returned. [get_account], [reconcile_transaction] and
    [create_transaction] are the queries of [actual.queries], and
    [balance_current] reads the attribute of an account, [None] when it
    holds none. A query that raises may still have changed the ledger.
    [changed] is the [changed()] flag of a reconciled transaction. *)
Context {ledger session_t account_t reconciled : Type}.
Variable session : ledger → result session_t.
Variable enter : session_t → result session_t.
Variable get_account : session_t → value → result (option account_t).
Variable balance_current : account_t → option Z.
Variable changed : reconciled → bool.
Variable reconcile_transaction :
  ledger → session_t → reconcile_call reconciled → ledger * result reconciled.
Variable create_transaction :
  ledger → session_t → create_call → ledger * result ().
(** [datetime.strptime], [strftime], [isoformat], and [str(n / 100)] for
    an [int] [n], which raises [OverflowError] when the quotient is too
    large for a float. *)
Variable strptime : string → string → option datetime.
Variable strftime : datetime → string → string.
Variable isoformat : datetime → string.
Variable str_div100 : Z → result string.

(** [get_actual_balance(actual, actual_account_id)]: every exception is
    logged and gives [None]. *)
Definition get_actual_balance (actual : ledger) (actual_account_id : value)
    : option Z :=
  let attempt :=
    opened ← session actual;
    session ← enter opened;
    account ← get_account session actual_account_id;
    match account with
    | None => Ok None
    | Some account => Ok (balance_current account)
    end in
  match attempt with
  | Ok balance => balance
  | Raise _ => None
  end.

(** The body of the loop of [load_transactions_into_actual]; the state is
    the ledger, [imported_transactions] and the calls issued so far. The
    amount is computed before the [try]. Inside it the arguments of the
    call are evaluated in order: [actual.session()] first, then the date,
    which raises [ValueError] when it does not parse. An exception there,
    or in the call, is logged and the loop goes on to the next row. *)
Definition reconcile_row (actual_account_id : value)
    (st : ledger * list reconciled * list (reconcile_call reconciled))
    (txn : txn_row)
    : ledger * list reconciled * list (reconcile_call reconciled) :=
  let '(l, imported_transactions, calls) := st in
  let transaction_date := txn_date txn in
  let payee_name := txn_description txn in
  let notes := "Akahu transaction: " +:+ txn_description txn in
  let amount := Decimal (times (txn_amount txn) (-1)) in
  let imported_id := txn_id txn in
  match session l with
  | Raise _ => st
  | Ok opened =>
      match strptime transaction_date "%Y-%m-%d" with
      | None => st
      | Some t =>
          let call :=
            mk_reconcile_call (dt_date t) actual_account_id payee_name notes
              amount imported_id true payee_name imported_transactions in
          match reconcile_transaction l opened call with
          | (l', Ok reconciled_transaction) =>
              (l',
               if changed reconciled_transaction
               then imported_transactions ++ [reconciled_transaction]
               else imported_transactions,
               calls ++ [call])
          | (l', Raise _) => (l', imported_transactions, calls ++ [call])
          end
      end
  end.

(** [load_transactions_into_actual(transactions, mapping_entry, actual)];
    [now] is the reading of [datetime.utcnow()] after the loop. Returns the
    mapping entry as mutated, the ledger and the calls issued. *)
Definition load_transactions_into_actual (transactions : option (list txn_row))
    (mapping_entry : entry) (actual : ledger) (now : datetime)
    : result (entry * ledger * list (reconcile_call reconciled)) :=
  match transactions with
  | None | Some [] => Ok (mapping_entry, actual, [])
  | Some rows =>
      match mapping_entry !! "actual_account_id" with
      | None => Raise (KeyError "actual_account_id")
      | Some actual_account_id =>
          let '(l, _, calls) :=
            foldl (reconcile_row actual_account_id) (actual, [], []) rows in
          Ok (<["actual_synced_datetime" :=
                  VStr (strftime now "%Y-%m-%dT%H:%M:%SZ")]> mapping_entry,
              l, calls)
      end
  end.

(** *** Balance reconciliation of a tracking account *)

(** [mapping_entry[k]] *)
Definition item (mapping_entry : entry) (k : string) : result value :=
  match mapping_entry !! k with
  | Some v => Ok v
  | None => Raise (KeyError k)
  end.

(** [round(mapping_entry['akahu_balance'] * 100)]: a missing key is a
    [KeyError]; [None] and a dictionary cannot be multiplied, and a string
    multiplied is a string, which cannot be rounded: [TypeError]. *)
Definition akahu_balance_of (mapping_entry : entry) : result Z :=
  balance ← item mapping_entry "akahu_balance";
  match balance with
  | VNum x => round_number (times x 100)
  | _ => Raise TypeError
  end.

(** The [try] block of [handle_tracking_account_actual]: the ledger and
    the [create_transaction] calls issued. Every exception inside it is
    logged and ends the function: a balance that cannot be rounded; no
    balance read, where [akahu_balance != actual_balance] holds and the
    subtraction raises [TypeError]; a quotient too large for the note; a
    session that cannot be opened. The arguments of [create_transaction]
    are evaluated in order, [actual.session()] first. *)
Definition adjust_balance (mapping_entry : entry) (actual_account_id : value)
    (actual : ledger) (now_date now_id : datetime)
    : ledger * list create_call :=
  match akahu_balance_of mapping_entry with
  | Raise _ => (actual, [])
  | Ok akahu_balance =>
      match get_actual_balance actual actual_account_id with
      | None => (actual, [])
      | Some actual_balance =>
          if bool_decide (akahu_balance ≠ actual_balance) then
            let adjustment_amount :=
              decimal_div100 (akahu_balance - actual_balance) in
            let transaction_date := dt_date now_date in
            let payee_name := "Balance Adjustment" in
            match str_div100 actual_balance, str_div100 akahu_balance with
            | Ok old, Ok new =>
                let notes :=
                  "Adjusted from " +:+ old +:+ " to " +:+ new
                  +:+ " to reconcile tracking account." in
                match session actual with
                | Raise _ => (actual, [])
                | Ok opened =>
                    let call :=
                      mk_create_call transaction_date actual_account_id
                        payee_name notes adjustment_amount
                        ("adjustment_" +:+ isoformat now_id) true payee_name in
                    ((create_transaction actual opened call).1, [call])
                end
            | _, _ => (actual, [])
            end
          else (actual, [])
      end
  end.

(** [handle_tracking_account_actual(mapping_entry, actual)]; [now_date] and
    [now_id] are the two readings of [datetime.utcnow()]. The four lookups
    before the [try] raise [KeyError]. Returns the ledger and the
    [create_transaction] calls. *)
Definition handle_tracking_account_actual (mapping_entry : entry)
    (actual : ledger) (now_date now_id : datetime)
    : result (ledger * list create_call) :=
  _ ← item mapping_entry "akahu_id";
  actual_account_id ← item mapping_entry "actual_account_id";
  _ ← item mapping_entry "akahu_name";
  _ ← item mapping_entry "actual_account_name";
  Ok (adjust_balance mapping_entry actual_account_id actual now_date now_id).

(** *** Import into YNAB *)

(** One [POST budgets/<id>/transactions]: the budget id of the URL and the
    rows of the payload, which are the rows of the frame as fetched. *)
Record ynab_post := mk_ynab_post {
  yp_budget_id : value;
  yp_transactions : list txn_row;
}.

(** A member that the function measures with [len]: absent, [null], or a
    list of that length. *)
Inductive sized :=
  | Absent
  | Null
  | Listed (n : nat).

(** The body of a YNAB response, a JSON object: its ['data'] is absent,
    [null], or an object with its ['duplicate_import_ids'] and
    ['transactions']. *)
Inductive ynab_json :=
  | NoData
  | NullData
  | Data (duplicate_import_ids transactions : sized).

(** What [requests.post] does: it raises a [RequestException], or it
    returns a response with a status code, whose [json()] gives the body or
    raises. *)
Inductive ynab_reply :=
  | PostFailed
  | PostResponse (status : Z) (body : result ynab_json).

(** [load_transactions_into_ynab(akahu_txn, ynab_budget_id,
    ynab_account_id)]: the request sent and what is returned. Only a
    [RequestException] is handled; when [requests.post] itself raised, the
    handler reads [response], which was never bound. *)
Definition load_transactions_into_ynab (post : ynab_post → ynab_reply)
    (akahu_txn : list txn_row) (ynab_budget_id ynab_account_id : value)
    : ynab_post * result (option ynab_json) :=
  let sent := mk_ynab_post ynab_budget_id akahu_txn in
  (sent,
   match post sent with
   | PostFailed => Raise (OtherException "UnboundLocalError")
   | PostResponse status body =>
       if (400 <=? status) && (status <? 600) then Ok None
       else
         match body with
         | Raise RequestException => Ok None
         | Raise e => Raise e
         | Ok NoData => Raise (KeyError "data")
         | Ok NullData => Raise TypeError
         | Ok (Data Null _) => Raise TypeError
         | Ok (Data _ Absent) => Raise (KeyError "transactions")
         | Ok (Data _ Null) => Raise TypeError
         | Ok (Data _ (Listed _) as ynab_response) => Ok (Some ynab_response)
         end
   end).

(** *** Preparation for YNAB *)

(** A row of the frame returned by [clean_txn_for_ynab]. *)
Record ynab_txn := mk_ynab_txn {
  y_id : string;
  y_date : option string;
  y_amount : string;
  y_memo : string;
  y_payee_name : string;
  y_cleared : string;
  y_import_id : string;
  y_flag_color : string;
  y_account_id : string;
}.

Definition get_payee_name (row : txn_row) : string :=
  match txn_merchant row with
  | Some (Some merchant_name) => merchant_name
  | _ => txn_description row
  end.

(** [convert_to_nzt(date_str)]: only [ValueError] is caught. *)
Definition convert_to_nzt (date_str : string) : result (option string) :=
  match strptime date_str "%Y-%m-%dT%H:%M:%SZ" with
  | None => Ok None
  | Some utc_time =>
      nzt_time ← add_timedelta utc_time 0 13;
      Ok (Some (strftime nzt_time "%Y-%m-%d"))
  end.

(** A column computed row by row with [apply]: the first exception ends
    it. *)
Fixpoint column {A B : Type} (f : A → result B) (rows : list A)
    : result (list B) :=
  match rows with
  | [] => Ok []
  | row :: rest =>
      b ← f row;
      bs ← column f rest;
      Ok (b :: bs)
  end.

(** [lambda x: str(int(x * 1000))] *)
Definition thousandths (x : number) : result string :=
  n ← int_of_number (times x 1000);
  Ok (pretty n).

(** [clean_txn_for_ynab(akahu_txn, ynab_account_id)], on a frame that has
    the columns of the Akahu rows. The columns are computed one after the
    other: the payee names, the amounts, then the dates. *)
Definition clean_txn_for_ynab (akahu_txn : list txn_row) (ynab_account_id : string)
    : result (list ynab_txn) :=
  let payee_name := get_payee_name <$> akahu_txn in
  amount ← column (λ row, thousandths (txn_amount row)) akahu_txn;
  date ← column (λ row, convert_to_nzt (txn_date row)) akahu_txn;
  Ok (zip_with
        (λ row cols,
           mk_ynab_txn (txn_id row) cols.2 cols.1.2 (txn_description row)
             cols.1.1 "cleared" (txn_id row) "red" ynab_account_id)
        akahu_txn (zip (zip payee_name amount) date)).

(** *** The synchronisation loop *)

(** [SYNC_TO_AB] and [SYNC_TO_YNAB] *)
Definition SYNC_TO_AB : bool := true.
Definition SYNC_TO_YNAB : bool := true.

(** Truthiness of a value: a dictionary is true unless empty. *)
Definition value_truthy (v : value) : bool :=
  match v with
  | VAtom a => truthy a
  | VDict d => negb (bool_decide (d = ∅))
  end.

(** [mapping_entry.get(k)], tested as a condition: a missing key reads as
    [None]. *)
Definition get_truthy (mapping_entry : entry) (k : string) : bool :=
  match mapping_entry !! k with
  | Some v => value_truthy v
  | None => false
  end.

(** What the loop has done so far: the requests of each fetch, the
    [create_transaction] calls, and the requests sent to YNAB. *)
Record effects := mk_effects {
  fx_fetches : list (list request);
  fx_adjustments : list create_call;
  fx_posts : list ynab_post;
}.

Definition no_effects : effects := mk_effects [] [] [].

(** The environment of a run: the Akahu provider and the YNAB server met
    by the [i]-th entry, its two clock readings, how an account id that is
    not a string is written in the URL, and how [requests] writes a start
    parameter that is not a string. [tries] bounds the pages of one
    fetch. *)
Variable serve : nat → provider.
Variable post : nat → ynab_post → ynab_reply.
Variable clock : nat → datetime * datetime.
Variable format_id : value → string.
Variable encode_param : value → string.
Variable tries : nat.

(** The account id in the URL of [get_all_akahu]. *)
Definition url_id (akahu_account_id : value) : string :=
  match akahu_account_id with
  | VStr s => s
  | v => format_id v
  end.

(** The second argument of [get_all_akahu]: what it tests with [if
    last_reconciled_at:] and sends as the start of the window. *)
Definition checkpoint (last_reconciled_at : value) : option string :=
  match last_reconciled_at with
  | VStr s => Some s
  | v => if value_truthy v then Some (encode_param v) else None
  end.

(** The body of the loop of [main_loop] for the [i]-th element, a
    dictionary. [load_transactions_into_actual(akahu_df, mapping_entry)]
    leaves out the third argument of the function: the call raises
    [TypeError] and the function is not entered. The result is [None] when
    the fetch did not end within [tries] pages. *)
Definition sync_entry (i : nat) (mapping_entry : entry) (actual : ledger)
    (fx : effects) : option (ledger * effects * result ()) :=
  match item mapping_entry "akahu_id" with
  | Raise e => Some (actual, fx, Raise e)
  | Ok akahu_account_id =>
  match item mapping_entry "actual_account_id" with
  | Raise e => Some (actual, fx, Raise e)
  | Ok actual_account_id =>
      let account_type :=
        default (VStr "On Budget") (mapping_entry !! "account_type") in
      if bool_decide (account_type = VStr "Tracking") then
        match handle_tracking_account_actual mapping_entry actual
                (clock i).1 (clock i).2 with
        | Raise e => Some (actual, fx, Raise e)
        | Ok (l, calls) =>
            Some (l,
                  mk_effects (fx_fetches fx) (fx_adjustments fx ++ calls)
                    (fx_posts fx),
                  Ok ())
        end
      else if bool_decide (account_type = VStr "On Budget") then
        let last_reconciled_at :=
          default (VStr "2024-01-01T00:00:00Z")
                  (mapping_entry !! "actual_synced_datetime") in
        match get_all_akahu (serve i) tries (url_id akahu_account_id)
                (checkpoint last_reconciled_at) with
        | None => None
        | Some (sent, fetched) =>
            let fx :=
              mk_effects (fx_fetches fx ++ [sent]) (fx_adjustments fx)
                (fx_posts fx) in
            match fetched with
            | Raise e => Some (actual, fx, Raise e)
            | Ok None | Ok (Some []) => Some (actual, fx, Ok ())
            | Ok (Some akahu_df) =>
                if SYNC_TO_AB
                   && get_truthy mapping_entry "actual_budget_id"
                   && get_truthy mapping_entry "actual_account_id"
                then Some (actual, fx, Raise TypeError)
                else if SYNC_TO_YNAB
                        && get_truthy mapping_entry "ynab_budget_id"
                        && get_truthy mapping_entry "ynab_account_id"
                then
                  match item mapping_entry "ynab_budget_id",
                        item mapping_entry "ynab_account_id" with
                  | Ok ynab_budget_id, Ok ynab_account_id =>
                      let posted :=
                        load_transactions_into_ynab (post i) akahu_df
                          ynab_budget_id ynab_account_id in
                      let fx :=
                        mk_effects (fx_fetches fx) (fx_adjustments fx)
                          (fx_posts fx ++ [posted.1]) in
                      match posted.2 with
                      | Raise e => Some (actual, fx, Raise e)
                      | Ok _ => Some (actual, fx, Ok ())
                      end
                  | Raise e, _ | _, Raise e => Some (actual, fx, Raise e)
                  end
                else Some (actual, fx, Ok ())
            end
        end
      else Some (actual, fx, Ok ())
  end
  end.

Fixpoint sync_entries (i : nat) (entries : list entry) (actual : ledger)
    (fx : effects) : option (ledger * effects * result ()) :=
  match entries with
  | [] => Some (actual, fx, Ok ())
  | mapping_entry :: rest =>
      match sync_entry i mapping_entry actual fx with
      | Some (l, fx, Ok _) => sync_entries (S i) rest l fx
      | stopped => stopped
      end
  end.

(** [main_loop(actual)] on the globals [g]: the ledger, what was done, and
    the document written by [save_updated_mapping()] at the end, or the
    exception that left the function. Iterating over a dictionary gives its
    keys: [mapping_entry['akahu_id']] on the first key, a string, raises
    [TypeError]. *)
Definition main_loop (g : globals) (actual : ledger)
    : option (ledger * effects * result document) :=
  match g_mapping_list g with
  | MappingDict d =>
      if bool_decide (d = ∅)
      then Some (actual, no_effects, save_updated_mapping g)
      else Some (actual, no_effects, Raise TypeError)
  | MappingList entries =>
      match sync_entries 0 entries actual no_effects with
      | Some (l, fx, Ok _) => Some (l, fx, save_updated_mapping g)
      | Some (l, fx, Raise e) => Some (l, fx, Raise e)
      | None => None
      end
  end.

End actual_budget.

(** *** Webhook *)

(** What the Flask view does with a request: it returns a response (status
    code and the ["status"] member of its JSON body), or an exception leaves
    the view. *)
Inductive view_result :=
  | Responded (code : Z) (status : string)
  | Unhandled (e : exn).

Global Instance view_result_eq_dec : EqDecision view_result.
Proof. solve_decision. Defined.

(** The JSON body of a webhook: its ["type"] member, when it has one. *)
Record webhook_body := mk_webhook_body {
  wh_type : option atom;
  wh_item : option txn_row;
}.

Section webhook.

(** The [cryptography] and [base64] collaborators:
    [serialization.load_pem_public_key], [base64.b64decode] on a string, and
    [public_key.verify] with PKCS1v15 and SHA-256, which raises
    [InvalidSignature] on a mismatch. *)
Context {public_key_t : Type}.
Variable load_pem_public_key : string → result public_key_t.
Variable b64decode_str : string → result string.
Variable verify : public_key_t → string → string → result ().
(** [request.get_json()] on the raw body, and entering
    [with Actual(...) as actual] followed by [download_budget()]. *)
Variable get_json : string → result (option webhook_body).
Variable open_budget : result ().

(** [base64.b64decode(signature)]: the argument is [None] when the header
    is missing, which is a [TypeError]. *)
Definition b64decode (signature : option string) : result string :=
  match signature with
  | None => Raise TypeError
  | Some s => b64decode_str s
  end.

(** [verify_signature(public_key, signature, request_body)]: the handler
    re-raises [InvalidSignature]; any other exception passes through. *)
Definition verify_signature (public_key : string) (signature : option string)
    (request_body : string) : result () :=
  let attempt :=
    key ← load_pem_public_key public_key;
    sig ← b64decode signature;
    verify key sig request_body in
  match attempt with
  | Raise InvalidSignature => Raise InvalidSignature
  | other => other
  end.

(** [receive_transaction()]: [signature] is the [X-Akahu-Signature] header,
    [public_key] the configured key. The second component tells whether
    [load_transactions_into_actual] was invoked: its call names the
    undefined global [mapping], so evaluating the arguments raises
    [NameError] before the call. *)
Definition receive_transaction (public_key : string)
    (signature : option string) (request_body : string)
    : view_result * bool :=
  match verify_signature public_key signature request_body with
  | Raise InvalidSignature => (Responded 400 "invalid signature", false)
  | Raise e => (Unhandled e, false)
  | Ok _ =>
      match get_json request_body with
      | Raise e => (Unhandled e, false)
      | Ok (Some data) =>
          if bool_decide (wh_type data = Some (AStr "TRANSACTION_CREATED")) then
            match open_budget with
            | Raise e => (Unhandled e, false)
            | Ok _ => (Unhandled (NameError "mapping"), false)
            end
          else (Responded 200 "ignored", false)
      | Ok None => (Responded 200 "ignored", false)
      end
  end.

End webhook.

End akahu_to_budget.

(** ** akahu_to_actual.py *)
Module akahu_to_actual.

(** [load_existing_mapping()] *)
Definition load_existing_mapping (file : option document)
    : result (list account * list account * mapping_store) :=
  match file with
  | Some data =>
      mapping ← mapping_of_document (doc_mapping data);
      Ok (default [] (doc_akahu_accounts data),
          default [] (doc_actual_accounts data), MappingDict mapping)
  | None => Ok ([], [], MappingList [])
  end.

(** [save_updated_mapping()]: [json.dump({"mapping": g_mapping_list}, ...)] *)
Definition save_updated_mapping
    (g : list account * list account * mapping_store) : document :=
  mk_document None None None (Some g.2).

Section fetch.

Variable strptime : string → string → option datetime.
Variable strftime : datetime → string → string.

(** The [try] block of the loop; [None] is the early [return None] on a
    status other than 200 or on any exception. *)
Definition try_page (r : reply) : option (list txn_row * option string) :=
  match r with
  | ConnectionFailed => None
  | Response status akahu_txn_json =>
      if bool_decide (status ≠ 200) then None
      else
        match page_items akahu_txn_json with
        | None => None
        | Some items =>
            match page_cursor akahu_txn_json with
            | CursorMissing => Some (items, None)
            | CursorNull => None
            | CursorDict None => Some (items, None)
            | CursorDict (Some next) => Some (items, next)
            end
        end
  end.

Fixpoint paginate (serve : provider) (fuel : nat) (n : nat)
    (query_params : request) (next_cursor : string)
    (res : option (list txn_row)) (sent : list request)
    : option (list request * option (list txn_row)) :=
  match fuel with
  | O => None
  | S fuel' =>
      let query_params :=
        if bool_decide (next_cursor ≠ "first_time")
        then mk_request (req_account query_params) (req_start query_params)
                        (Some next_cursor)
        else query_params in
      let sent := sent ++ [query_params] in
      match try_page (serve n query_params) with
      | None => Some (sent, None)
      | Some (akahu_txn, next) =>
          let res := akahu_to_budget.accumulate res akahu_txn in
          match next with
          | None => Some (sent, res)
          | Some c => paginate serve fuel' (S n) query_params c res sent
          end
      end
  end.

(** The start of the fetch window: the checkpoint, parsed, less seven days.
    When the checkpoint was given and does not parse, the handler reads
    [start_of_time], which is bound only on the other branch. *)
Definition week_before (last_reconciled_at : option string) : result string :=
  let fmt := "%Y-%m-%dT%H:%M:%SZ" in
  let start_of_time := "2024-01-01T00:00:00Z" in
  date_obj ←
    match last_reconciled_at with
    | None =>
        match strptime start_of_time fmt with
        | Some t => Ok t
        | None => Raise ValueError
        end
    | Some t =>
        match strptime t fmt with
        | Some t => Ok t
        | None => Raise (NameError "start_of_time")
        end
    end;
  week_before_date_obj ← add_timedelta date_obj (-7) 0;
  Ok (strftime week_before_date_obj fmt).

(** [get_all_akahu(akahu_account_id, last_reconciled_at)] *)
Definition get_all_akahu (serve : provider) (fuel : nat)
    (akahu_account_id : string) (last_reconciled_at : option string)
    : result (option (list request * option (list txn_row))) :=
  start ← week_before last_reconciled_at;
  Ok (paginate serve fuel 0 (mk_request akahu_account_id start None)
        "first_time" None []).

End fetch.

End akahu_to_actual.

(** ** akahu_api.py *)
Module akahu_api.

(** The loop of [AkahuAPI.fetch_transactions_paginated]. [requests] drops a
    parameter whose value is [None], so the first request carries no cursor.
    A [RequestException] becomes [RuntimeError]. *)
Fixpoint fetch_loop (serve : provider) (fuel : nat) (n : nat)
    (account_id start_date : string) (next_cursor : option string)
    (all_transactions : list txn_row) (sent : list request)
    : option (list request * result (list txn_row)) :=
  match fuel with
  | O => None
  | S fuel' =>
      let params := mk_request account_id start_date next_cursor in
      let sent := sent ++ [params] in
      match akahu_to_budget.try_get (serve n params) with
      | None => Some (sent, Raise RuntimeError)
      | Some data =>
          let all_transactions :=
            all_transactions ++ default [] (page_items data) in
          match page_cursor data with
          | CursorNull => Some (sent, Raise AttributeError)
          | CursorDict (Some (Some c)) =>
              if bool_decide (c = "") then Some (sent, Ok all_transactions)
              else fetch_loop serve fuel' (S n) account_id start_date (Some c)
                     all_transactions sent
          | _ => Some (sent, Ok all_transactions)
          end
      end
  end.

Definition fetch_transactions_paginated (serve : provider) (fuel : nat)
    (account_id start_date : string)
    : option (list request * result (list txn_row)) :=
  fetch_loop serve fuel 0 account_id start_date None [] [].

End akahu_api.

(** * Properties *)

(** ** Account directory merge *)

Section directory.
Import akahu_budget_mapping.

Lemma index_by_id_snoc (l : list account) (a : account) :
  index_by_id (l ++ [a]) = <[acc_id a := a]> (index_by_id l).
Proof. unfold index_by_id. by rewrite foldl_app. Qed.

(** The dictionary built from the existing accounts maps an id to the last
    account that carries it. *)
Lemma index_by_id_last (l1 l2 : list account) (old : account) :
  acc_id old ∉ acc_id <$> l2 →
  index_by_id (l1 ++ old :: l2) !! acc_id old = Some old.
Proof.
  induction l2 as [|b l2 IH] using rev_ind; intros Hnot.
  - by rewrite index_by_id_snoc, lookup_insert_eq.
  - rewrite fmap_app, not_elem_of_app in Hnot. destruct Hnot as [Hl2 Hb].
    rewrite app_comm_cons, app_assoc, index_by_id_snoc.
    rewrite lookup_insert_ne; [by apply IH|].
    intros Heq. apply Hb. simpl. rewrite Heq. set_solver.
Qed.

Lemma index_by_id_None (l : list account) (k : string) :
  k ∉ acc_id <$> l → index_by_id l !! k = None.
Proof.
  induction l as [|b l IH] using rev_ind; intros Hnot; [done|].
  rewrite fmap_app, not_elem_of_app in Hnot. destruct Hnot as [Hl Hb].
  rewrite index_by_id_snoc, lookup_insert_ne; [by apply IH|].
  intros Heq. apply Hb. simpl. rewrite Heq. set_solver.
Qed.

Lemma dict_keys_elem (seen : list string) (l : list account) (k : string) :
  k ∈ dict_keys seen l ↔ k ∈ acc_id <$> l ∧ k ∉ seen.
Proof.
  revert seen. induction l as [|a l IH]; intros seen; simpl.
  - set_solver.
  - case_bool_decide as Hin.
    + rewrite IH. set_solver.
    + rewrite elem_of_cons, IH. split.
      * intros [->|[? ?]]; set_solver.
      * intros [Hk Hs]. destruct (decide (k = acc_id a)); set_solver.
Qed.

Lemma dict_keys_NoDup (seen : list string) (l : list account) :
  NoDup (dict_keys seen l).
Proof.
  revert seen. induction l as [|a l IH]; intros seen; simpl; [constructor|].
  case_bool_decide; [apply IH|].
  constructor; [|apply IH].
  rewrite dict_keys_elem. set_solver.
Qed.

Lemma stamp_id now ex a : acc_id (stamp now ex a) = acc_id a.
Proof. unfold stamp. by destruct (ex !! acc_id a). Qed.

Lemma combine_accounts_ids now latest existing :
  acc_id <$> (combine_accounts now latest existing).1 = acc_id <$> latest.
Proof.
  simpl. rewrite <- list_fmap_compose. apply list_fmap_ext.
  intros ? a _. apply stamp_id.
Qed.

Lemma id_in_combined x now latest existing :
  id_in x (combine_accounts now latest existing).1 = id_in x latest.
Proof. unfold id_in. by rewrite combine_accounts_ids. Qed.

(** C4, as amended. The merged list carries exactly the ids of [latest], in
    order; an id whose last existing record has a first-seen timestamp keeps
    it; an id absent from [existing] gets the clock reading; the removed ids
    are exactly those of [existing] absent from [latest], each once; and the
    removed ids do not depend on the clock reading. *)
Theorem combine_accounts_merge (now : string) (latest existing : list account) :
  let merged := (combine_accounts now latest existing).1 in
  let removed := (combine_accounts now latest existing).2 in
  acc_id <$> merged = acc_id <$> latest
  ∧ (∀ i a l1 old l2 d,
        latest !! i = Some a →
        existing = l1 ++ old :: l2 →
        acc_id old = acc_id a → acc_id a ∉ acc_id <$> l2 →
        acc_date_first_loaded old = Some d →
        merged !! i = Some (set_date_first_loaded d a))
  ∧ (∀ i a,
        latest !! i = Some a → acc_id a ∉ acc_id <$> existing →
        merged !! i = Some (set_date_first_loaded now a))
  ∧ (∀ k, k ∈ removed ↔ k ∈ acc_id <$> existing ∧ k ∉ acc_id <$> latest)
  ∧ NoDup removed
  ∧ (∀ now', (combine_accounts now' latest existing).2 = removed).
Proof.
  simpl. split_and!.
  - apply (combine_accounts_ids now latest existing).
  - intros i a l1 old l2 d Hi -> Hid Hnot Hd.
    rewrite list_lookup_fmap, Hi. simpl. f_equal. unfold stamp.
    rewrite <- Hid in *. rewrite index_by_id_last by done. by rewrite Hd.
  - intros i a Hi Hnot.
    rewrite list_lookup_fmap, Hi. simpl. f_equal. unfold stamp.
    by rewrite index_by_id_None.
  - intros k. rewrite list_elem_of_filter, dict_keys_elem. unfold id_in.
    rewrite bool_decide_spec. set_solver.
  - apply NoDup_filter, dict_keys_NoDup.
  - done.
Qed.

End directory.

(** C4 as stated fails: with the same two lists, two runs at different
    times give different first-seen timestamps to a new account. *)
Lemma combine_accounts_reads_clock :
  akahu_budget_mapping.combine_accounts "2024-05-01T09:00:00"
    [plain_account "a1" "Everyday"] []
  ≠ akahu_budget_mapping.combine_accounts "2024-05-02T09:00:00"
      [plain_account "a1" "Everyday"] [].
Proof. by vm_compute. Qed.

(** An existing record without a first-seen timestamp has none to keep:
    the merged record gets the clock reading. *)
Example combine_accounts_undated :
  (akahu_budget_mapping.combine_accounts "2024-05-01T09:00:00"
     [plain_account "a1" "Everyday"] [plain_account "a1" "Everyday"]).1
  = [set_date_first_loaded "2024-05-01T09:00:00" (plain_account "a1" "Everyday")].
Proof. by vm_compute. Qed.

Lemma combine_accounts_merge_witness :
  let latest := [plain_account "a1" "Everyday"; plain_account "a2" "Savings"] in
  let existing :=
    [set_date_first_loaded "2023-11-30T08:00:00" (plain_account "a1" "Everyday");
     set_date_first_loaded "2023-12-01T08:00:00" (plain_account "a3" "Closed")] in
  let r := akahu_budget_mapping.combine_accounts "2024-05-01T09:00:00" latest existing in
  r.1 !! 0%nat
    = Some (set_date_first_loaded "2023-11-30T08:00:00" (plain_account "a1" "Everyday"))
  ∧ r.1 !! 1%nat
    = Some (set_date_first_loaded "2024-05-01T09:00:00" (plain_account "a2" "Savings"))
  ∧ "a3" ∈ r.2.
Proof.
  intros latest existing r.
  pose proof (combine_accounts_merge "2024-05-01T09:00:00" latest existing)
    as (_ & Hkeep & Hnew & Hrem & _ & _).
  split_and!.
  - apply (Hkeep 0%nat _ []
             (set_date_first_loaded "2023-11-30T08:00:00" (plain_account "a1" "Everyday"))
             [set_date_first_loaded "2023-12-01T08:00:00" (plain_account "a3" "Closed")]);
      [reflexivity|reflexivity|reflexivity| |reflexivity].
    simpl. rewrite list_elem_of_singleton. discriminate.
  - apply Hnew; [reflexivity|].
    simpl. rewrite !elem_of_cons, elem_of_nil. intros [?|[?|[]]]; discriminate.
  - apply Hrem. split.
    + simpl. rewrite !elem_of_cons. by right; left.
    + simpl. rewrite !elem_of_cons, elem_of_nil. intros [?|[?|[]]]; discriminate.
Defined.

(** ** Removal reconciliation *)

Section removals.
Import akahu_budget_mapping.

Lemma lookup_null_fields (fields : list string) (e : entry) (f : string) :
  null_fields fields e !! f = if decide (f ∈ fields) then Some VNone else e !! f.
Proof.
  unfold null_fields. revert e.
  induction fields as [|f0 fields IH]; intros e.
  - destruct (decide (f ∈ [])) as [Hin|]; [by apply elem_of_nil in Hin|done].
  - change (foldl (λ e f, <[f:=VNone]> e) e (f0 :: fields))
      with (foldl (λ e f, <[f:=VNone]> e) (<[f0:=VNone]> e) fields).
    rewrite IH.
    destruct (decide (f ∈ fields)) as [Hin|Hnin],
             (decide (f ∈ f0 :: fields)) as [Hin'|Hnin']; try done.
    + exfalso. apply Hnin'. by right.
    + apply elem_of_cons in Hin' as [->|?]; [|done]. by rewrite lookup_insert_eq.
    + rewrite lookup_insert_ne; [done|]. intros ->. apply Hnin'. by left.
Qed.

Lemma null_fields_idemp (fields : list string) (e : entry) :
  null_fields fields (null_fields fields e) = null_fields fields e.
Proof.
  apply map_eq. intros f. rewrite !lookup_null_fields. by case_decide.
Qed.

Lemma foldl_delete_lookup (ks : list string) (m : gmap string entry) (k : string) :
  foldl (λ m akahu_id, delete akahu_id m) m ks !! k
  = if decide (k ∈ ks) then None else m !! k.
Proof.
  revert m. induction ks as [|k0 ks IH]; intros m.
  - destruct (decide (k ∈ [])) as [Hin|]; [by apply elem_of_nil in Hin|done].
  - change (foldl (λ m akahu_id, delete akahu_id m) m (k0 :: ks))
      with (foldl (λ m akahu_id, delete akahu_id m) (delete k0 m) ks).
    rewrite IH.
    destruct (decide (k ∈ ks)) as [Hin|Hnin],
             (decide (k ∈ k0 :: ks)) as [Hin'|Hnin']; try done.
    + exfalso. apply Hnin'. by right.
    + apply elem_of_cons in Hin' as [->|?]; [|done]. by rewrite lookup_delete_eq.
    + rewrite lookup_delete_ne; [done|]. intros ->. apply Hnin'. by left.
Qed.

(** The nested reads of step 5 do not raise on this entry. *)
Definition nested_ok (e : entry) : Prop :=
  ∀ a, e !! "actual" ≠ Some (VAtom a) ∧ e !! "ynab" ≠ Some (VAtom a).

Lemma nested_id_ok (e : entry) (b : string) :
  nested_ok e → b = "actual" ∨ b = "ynab" → ∃ a, nested_id e b = Ok a.
Proof.
  intros Hok Hb. unfold nested_id.
  destruct (e !! b) as [[a|d]|] eqn:He; eauto.
  destruct (Hok a) as [H1 H2]. destruct Hb as [->| ->]; congruence.
Qed.

(** The scan of step 5 succeeds; it lists for deletion exactly the keys
    that are not latest Akahu accounts, and every target it lists belongs to
    a key that is one. *)
Lemma scan_entries_ok ca cc cy (items : list (string * entry)) (acc : removal_scan) :
  Forall (λ kv, nested_ok kv.2) items →
  ∃ sc, scan_entries ca cc cy acc items = Ok sc
    ∧ akahu_to_delete sc
      = akahu_to_delete acc ++ filter (λ k, ¬ id_in k ca) items.*1
    ∧ (∀ p, p ∈ actual_to_delete sc →
            p ∈ actual_to_delete acc ∨ (p.2 ∈ items.*1 ∧ id_in p.2 ca))
    ∧ (∀ p, p ∈ ynab_to_delete sc →
            p ∈ ynab_to_delete acc ∨ (p.2 ∈ items.*1 ∧ id_in p.2 ca)).
Proof.
  intros Hok. revert acc.
  induction Hok as [|[k e] items Hke Hitems IH]; intros acc.
  - exists acc. simpl. rewrite app_nil_r. naive_solver.
  - simpl. unfold scan_entry.
    destruct (id_in k ca) eqn:Hin; simpl.
    + destruct (nested_id_ok e "actual" Hke) as [a ->]; [by left|].
      destruct (nested_id_ok e "ynab" Hke) as [y ->]; [by right|]. simpl.
      match goal with |- context [scan_entries _ _ _ ?acc' items] =>
        destruct (IH acc') as (sc & Hsc & Hak & Hac & Hyn) end.
      exists sc. split; [done|]. simpl in *. split_and!.
      * rewrite Hak. f_equal. rewrite filter_cons_False; [done|].
        rewrite Hin. naive_solver.
      * intros p Hp. destruct (Hac p Hp) as [Hp'|[? ?]]; [|set_solver].
        destruct (truthy a && atom_not_in a cc); [|by left].
        apply elem_of_app in Hp' as [?|Hp']; [by left|].
        apply list_elem_of_singleton in Hp' as ->. right. simpl.
        split; [set_solver|]. by rewrite Hin.
      * intros p Hp. destruct (Hyn p Hp) as [Hp'|[? ?]]; [|set_solver].
        destruct (truthy y && atom_not_in y cy); [|by left].
        apply elem_of_app in Hp' as [?|Hp']; [by left|].
        apply list_elem_of_singleton in Hp' as ->. right. simpl.
        split; [set_solver|]. by rewrite Hin.
    + match goal with |- context [scan_entries _ _ _ ?acc' items] =>
        destruct (IH acc') as (sc & Hsc & Hak & Hac & Hyn) end.
      exists sc. split; [done|]. simpl in *. split_and!.
      * rewrite Hak, <- app_assoc. f_equal. rewrite filter_cons_True; [done|].
        rewrite Hin. naive_solver.
      * intros p Hp. destruct (Hac p Hp) as [?|[? ?]]; [by left|set_solver].
      * intros p Hp. destruct (Hyn p Hp) as [?|[? ?]]; [by left|set_solver].
Qed.

(** What step 7 may do to a surviving entry in one target loop. *)
Definition nulled (fields : list string) (e e' : entry) : Prop :=
  e' = e ∨ e' = null_fields fields e.

Lemma clear_targets_ok id_key fields (ps : list (atom * string))
    (m : gmap string entry) :
  (∀ p, p ∈ ps → is_Some (m !! p.2)) →
  ∃ m', clear_targets id_key fields m ps = Ok m'
    ∧ ∀ k, match m !! k with
           | None => m' !! k = None
           | Some e => ∃ e', m' !! k = Some e' ∧ nulled fields e e'
           end.
Proof.
  revert m. induction ps as [|p ps IH]; intros m Hps.
  - exists m. split; [done|]. intros k. destruct (m !! k); [|done].
    eexists; split; [done|by left].
  - simpl. unfold clear_target.
    destruct (Hps p) as [e He]; [set_solver|]. rewrite He.
    destruct (get_eqb e id_key p.1); simpl.
    + destruct (IH (<[p.2 := null_fields fields e]> m)) as (m' & -> & Hm').
      { intros q Hq. destruct (decide (p.2 = q.2)) as [->|Hne].
        - rewrite lookup_insert_eq. eauto.
        - rewrite lookup_insert_ne by done. apply Hps. set_solver. }
      exists m'. split; [done|]. intros k. specialize (Hm' k).
      destruct (decide (p.2 = k)) as [<-|Hne].
      * rewrite lookup_insert_eq in Hm'. rewrite He.
        destruct Hm' as (e' & -> & [->| ->]); eexists; split; try done.
        -- by right.
        -- right. apply null_fields_idemp.
      * by rewrite lookup_insert_ne in Hm' by done.
    + destruct (IH m) as (m' & -> & Hm'); [intros q Hq; apply Hps; set_solver|].
      by exists m'.
Qed.

Lemma elem_of_keys (m : gmap string entry) (k : string) :
  k ∈ (map_to_list m).*1 ↔ is_Some (m !! k).
Proof.
  rewrite list_elem_of_fmap. split.
  - intros ([k' e] & -> & Hin). apply elem_of_map_to_list in Hin. eauto.
  - intros [e He]. exists (k, e). split; [done|]. by apply elem_of_map_to_list.
Qed.

(** C5, as amended. Provided no entry stores a scalar under ["actual"] or
    ["ynab"], the reconciliation returns. It never adds a key. When the
    operator confirms, every entry whose Akahu id is not a latest Akahu
    account is deleted; when the operator does not confirm, the mapping is
    unchanged. An entry whose Akahu id is a latest Akahu account always
    persists, and the only change it can undergo is that the four fields of
    the Actual backend, the four fields of the YNAB backend, or both, are
    set to null. *)
Theorem merge_and_update_mapping_removals
    (now_akahu now_actual now_ynab confirmation : string)
    (m : gmap string entry)
    (latest_akahu latest_actual latest_ynab
     existing_akahu existing_actual existing_ynab : list account) :
  (∀ k e, m !! k = Some e → nested_ok e) →
  ∃ m',
    merge_and_update_mapping now_akahu now_actual now_ynab confirmation m
      latest_akahu latest_actual latest_ynab
      existing_akahu existing_actual existing_ynab
    = Ok (m', (combine_accounts now_akahu latest_akahu existing_akahu).1,
              (combine_accounts now_actual latest_actual existing_actual).1,
              (combine_accounts now_ynab latest_ynab existing_ynab).1)
    ∧ (∀ k, m !! k = None → m' !! k = None)
    ∧ (confirmed confirmation = true →
       ∀ k, k ∉ acc_id <$> latest_akahu → m' !! k = None)
    ∧ (confirmed confirmation = false → m' = m)
    ∧ (∀ k e, m !! k = Some e → k ∈ acc_id <$> latest_akahu →
         ∃ e1 e', nulled actual_fields e e1 ∧ nulled ynab_fields e1 e'
                  ∧ m' !! k = Some e').
Proof.
  intros Hok. unfold merge_and_update_mapping.
  set (ca := (combine_accounts now_akahu latest_akahu existing_akahu).1).
  set (cc := (combine_accounts now_actual latest_actual existing_actual).1).
  set (cy := (combine_accounts now_ynab latest_ynab existing_ynab).1).
  assert (Hca : ∀ k, id_in k ca = true ↔ k ∈ acc_id <$> latest_akahu).
  { intros k. unfold ca. rewrite id_in_combined. unfold id_in.
    apply bool_decide_eq_true. }
  cbn [combine_accounts]. fold ca cc cy.
  destruct (scan_entries_ok ca cc cy (map_to_list m) (mk_scan [] [] []))
    as (sc & Hsc & Hak & Hac & Hyn).
  { apply list.Forall_forall. intros [k e] Hin.
    apply elem_of_map_to_list in Hin. by apply (Hok k). }
  change (scan_entries ca cc cy (mk_scan [] [] []) (map_to_list m) = Ok sc) in Hsc.
  simpl in Hak.
  assert (Hself : ∀ k e, m !! k = Some e →
            ∃ e1 e', nulled actual_fields e e1 ∧ nulled ynab_fields e1 e'
                     ∧ m !! k = Some e').
  { intros k e He. exists e, e. split_and!; [by left|by left|done]. }
  assert (Hdel : ∀ k, k ∈ akahu_to_delete sc ↔
                      is_Some (m !! k) ∧ k ∉ acc_id <$> latest_akahu).
  { intros k. rewrite Hak, list_elem_of_filter, elem_of_keys, <- Hca.
    destruct (id_in k ca); naive_solver. }
  match goal with |- ∃ m', (?r ≫= _) = _ ∧ _ => change r with (scan_entries ca cc cy (mk_scan [] [] []) (map_to_list m)) end.
  rewrite Hsc. simpl.
  case_bool_decide as Hnone.
  - exists m. simpl. split_and!; try done.
    + intros _ k Hk. destruct (m !! k) as [e|] eqn:He; [|done].
      exfalso. destruct Hnone as [Hnil _].
      assert (k ∈ akahu_to_delete sc) as Hin by (apply Hdel; eauto).
      rewrite Hnil in Hin. by apply elem_of_nil in Hin.
    + intros k e He _. by apply Hself.
  - destruct (confirmed confirmation) eqn:Hc.
    + set (m1 := foldl (λ m akahu_id, delete akahu_id m) m (akahu_to_delete sc)).
      assert (Hm1 : ∀ k, m1 !! k
                = if decide (k ∈ akahu_to_delete sc) then None else m !! k)
        by (intros k; apply foldl_delete_lookup).
      assert (Hkept : ∀ k, is_Some (m !! k) → id_in k ca = true →
                           m1 !! k = m !! k).
      { intros k Hk Hin. rewrite Hm1. case_decide as Hd; [|done].
        apply Hdel in Hd as [_ Hd]. by apply Hca in Hin. }
      destruct (clear_targets_ok "actual_account_id" actual_fields
                  (actual_to_delete sc) m1) as (m2 & Hm2 & Hm2').
      { intros p Hp. destruct (Hac p Hp) as [Hp'|[Hp1 Hp2]];
          [by apply elem_of_nil in Hp'|].
        apply elem_of_keys in Hp1. rewrite Hkept; [done|done|].
        by destruct (id_in p.2 ca). }
      destruct (clear_targets_ok "ynab_account_id" ynab_fields
                  (ynab_to_delete sc) m2) as (m3 & Hm3 & Hm3').
      { intros p Hp. destruct (Hyn p Hp) as [Hp'|[Hp1 Hp2]];
          [by apply elem_of_nil in Hp'|].
        apply elem_of_keys in Hp1. specialize (Hm2' p.2).
        rewrite Hkept in Hm2'; [|done|by destruct (id_in p.2 ca)].
        destruct Hp1 as [e He]. rewrite He in Hm2'.
        destruct Hm2' as (e' & -> & _). eauto. }
      fold m1. rewrite Hm2. simpl. rewrite Hm3. simpl.
      exists m3. split_and!; try done.
      * intros k Hk. specialize (Hm2' k). specialize (Hm3' k).
        assert (m1 !! k = None) as Hm1k.
        { rewrite Hm1. by case_decide. }
        rewrite Hm1k in Hm2'. by rewrite Hm2' in Hm3'.
      * intros _ k Hk. specialize (Hm2' k). specialize (Hm3' k).
        assert (m1 !! k = None) as Hm1k.
        { rewrite Hm1. case_decide as Hd; [done|].
          destruct (m !! k) as [e|] eqn:He; [|done].
          exfalso. apply Hd, Hdel. eauto. }
        rewrite Hm1k in Hm2'. by rewrite Hm2' in Hm3'.
      * intros k e He Hk. specialize (Hm2' k). specialize (Hm3' k).
        rewrite Hkept, He in Hm2'; [|eauto|by apply Hca].
        destruct Hm2' as (e1 & He1 & Hn1). rewrite He1 in Hm3'.
        destruct Hm3' as (e' & He' & Hn2). eauto.
    + exists m. simpl. split_and!; try done.
      intros k e He _. by apply Hself.
Qed.

End removals.

(** The entry that [match_accounts] writes for Akahu account [a1] matched
    with Actual account [t1]. *)
Definition entry_a1_t1 : entry :=
  <["actual_account_id" := VStr "t1"]>
  (<["actual_account_name" := VStr "Checking"]>
  (<["akahu_id" := VStr "a1"]>
  (<["akahu_name" := VStr "Everyday"]>
  (<["matched_date" := VStr "2024-04-01T10:00:00"]> ∅)))).

(** C5 as stated fails: Akahu account [a1] has gone from the latest
    directory, the operator answers the prompt with [n], and the entry of
    [a1] is still in the mapping. *)
Lemma removed_source_kept_without_confirmation :
  akahu_budget_mapping.merge_and_update_mapping
    "2024-05-01T09:00:00" "2024-05-01T09:00:01" "2024-05-01T09:00:02" "n"
    {["a1" := entry_a1_t1]}
    [] [plain_account "t1" "Checking"] []
    [plain_account "a1" "Everyday"] [plain_account "t1" "Checking"] []
  = Ok ({["a1" := entry_a1_t1]}, [],
        [set_date_first_loaded "2024-05-01T09:00:01" (plain_account "t1" "Checking")],
        []).
Proof. reflexivity. Qed.

(** The removal scan reads the target id from a nested ["actual"]
    dictionary, which [match_accounts] does not write: with [t1] gone and
    the operator confirming, the entry of [a1] keeps its Actual fields. *)
Example removed_target_not_detected :
  akahu_budget_mapping.merge_and_update_mapping
    "2024-05-01T09:00:00" "2024-05-01T09:00:01" "2024-05-01T09:00:02" "y"
    {["a1" := entry_a1_t1]}
    [plain_account "a1" "Everyday"] [] []
    [plain_account "a1" "Everyday"] [plain_account "t1" "Checking"] []
  = Ok ({["a1" := entry_a1_t1]},
        [set_date_first_loaded "2024-05-01T09:00:00" (plain_account "a1" "Everyday")],
        [], []).
Proof. reflexivity. Qed.

(** With the nested dictionary present and agreeing with the flat id, the
    four Actual fields are set to null and the entry persists. *)
Example removed_target_nulled :
  akahu_budget_mapping.merge_and_update_mapping
    "2024-05-01T09:00:00" "2024-05-01T09:00:01" "2024-05-01T09:00:02" "y"
    {["a1" := <["actual" := VDict {["id" := AStr "t1"]}]> entry_a1_t1]}
    [plain_account "a1" "Everyday"] [] []
    [plain_account "a1" "Everyday"] [plain_account "t1" "Checking"] []
  = Ok ({["a1" := akahu_budget_mapping.null_fields
                    akahu_budget_mapping.actual_fields
                    (<["actual" := VDict {["id" := AStr "t1"]}]> entry_a1_t1)]},
        [set_date_first_loaded "2024-05-01T09:00:00" (plain_account "a1" "Everyday")],
        [], []).
Proof. reflexivity. Qed.

(** The single-backend script deletes the whole entry when its Actual
    account has gone. *)
Example actual_mapping_deletes_entry :
  akahu_actual_mapping.merge_and_update_mapping
    "2024-05-01T09:00:00" "2024-05-01T09:00:01"
    {["a1" := entry_a1_t1]}
    [plain_account "a1" "Everyday"] []
    [plain_account "a1" "Everyday"] [plain_account "t1" "Checking"]
  = Ok (∅,
        [set_date_first_loaded "2024-05-01T09:00:00" (plain_account "a1" "Everyday")],
        []).
Proof. reflexivity. Qed.

Lemma merge_and_update_mapping_removals_witness :
  ∃ m',
    akahu_budget_mapping.merge_and_update_mapping
      "2024-05-01T09:00:00" "2024-05-01T09:00:01" "2024-05-01T09:00:02" "y"
      {["a1" := entry_a1_t1]}
      [] [plain_account "t1" "Checking"] []
      [plain_account "a1" "Everyday"] [plain_account "t1" "Checking"] []
    = Ok (m', [],
          [set_date_first_loaded "2024-05-01T09:00:01" (plain_account "t1" "Checking")],
          [])
    ∧ m' !! "a1" = None.
Proof.
  destruct (merge_and_update_mapping_removals
              "2024-05-01T09:00:00" "2024-05-01T09:00:01" "2024-05-01T09:00:02" "y"
              {["a1" := entry_a1_t1]}
              [] [plain_account "t1" "Checking"] []
              [plain_account "a1" "Everyday"] [plain_account "t1" "Checking"] [])
    as (m' & Hm' & _ & Hdel & _).
  - intros k e Hk.
    destruct (decide (k = "a1")) as [->|Hne].
    + rewrite lookup_singleton_eq in Hk. injection Hk as <-.
      intros a. split; vm_compute; discriminate.
    + rewrite lookup_singleton_ne in Hk by done. discriminate.
  - exists m'. split; [exact Hm'|].
    apply Hdel; [reflexivity|]. simpl. apply not_elem_of_nil.
Defined.

(** ** Match suggestions *)

Section suggestion_properties.
Import akahu_budget_mapping.

Variable py_int : string → option Z.
Variable py_strip : string → string.
Variable chat_completion : string → result string.
Variable fuzz_score : string → string → Z.

(** The targets carry the sequence numbers that [match_accounts] gives
    them: the account at 0-based position [i] has ['seq'] [first + i]. *)
Definition numbered_from (first : Z) (target_accounts : list account) : Prop :=
  ∀ i a, target_accounts !! i = Some a → acc_seq a = Some (first + Z.of_nat i).

Definition well_numbered (target_accounts : list account) : Prop :=
  numbered_from 1 target_accounts.

(** A suggestion is [None] or the 1-based position of a target whose id no
    mapping entry records under the target-account key. *)
Definition unmapped_position (first : Z) (target_accounts : list account)
    (m : gmap string entry) (key : string) (idx : Z) : Prop :=
  ∃ a, first ≤ idx
       ∧ target_accounts !! Z.to_nat (idx - first) = Some a
       ∧ ∀ k e, m !! k = Some e → e !! key ≠ Some (VStr (acc_id a)).

Definition valid_suggestion (target_accounts : list account)
    (m : gmap string entry) (key : string) (r : option Z) : Prop :=
  match r with
  | None => True
  | Some idx => unmapped_position 1 target_accounts m key idx
  end.

Lemma numbered_from_tail first a ts :
  numbered_from first (a :: ts) → numbered_from (first + 1) ts.
Proof.
  intros H i b Hi. rewrite (H (S i) b Hi). f_equal. lia.
Qed.

Lemma number_from_numbered first ts : numbered_from first (number_from first ts).
Proof.
  revert first. induction ts as [|a ts IH]; intros first i b Hi; [done|].
  destruct i as [|i]; simpl in Hi.
  - injection Hi as <-. simpl. f_equal. lia.
  - rewrite (IH _ _ _ Hi). f_equal. lia.
Qed.

Lemma number_targets_well_numbered ts : well_numbered (number_targets ts).
Proof. apply number_from_numbered. Qed.

Lemma get_eqb_str (e : entry) (key s : string) :
  get_eqb e key (AStr s) = true ↔ e !! key = Some (VStr s).
Proof.
  unfold get_eqb. destruct (e !! key) as [[[|t|q]|d]|]; simpl;
    rewrite ?bool_decide_eq_true; naive_solver.
Qed.

Lemma any_mapped_false (account_id key : string) (m : gmap string entry) :
  any_mapped account_id key m = false
  ↔ ∀ k e, m !! k = Some e → e !! key ≠ Some (VStr account_id).
Proof.
  unfold any_mapped. rewrite <- not_true_iff_false, existsb_exists. split.
  - intros Hno k e Hk He. apply Hno. exists e. split.
    + apply list_elem_of_In, list_elem_of_fmap. exists (k, e).
      split; [done|]. by apply elem_of_map_to_list.
    + by apply get_eqb_str.
  - intros Hno (e & Hin & He).
    apply list_elem_of_In, list_elem_of_fmap in Hin as ([k e'] & -> & Hin).
    apply elem_of_map_to_list in Hin. apply get_eqb_str in He.
    by apply (Hno k e').
Qed.

Lemma unmapped_position_shift first a ts m key idx :
  unmapped_position (first + 1) ts m key idx →
  unmapped_position first (a :: ts) m key idx.
Proof.
  intros (b & Hle & Hb & Hm). exists b. split_and!; [lia| |done].
  replace (Z.to_nat (idx - first)) with (S (Z.to_nat (idx - (first + 1)))) by lia.
  done.
Qed.

Lemma find_seq_numbered first chosen ts :
  numbered_from first ts →
  ∃ r, find_seq chosen ts = Ok r
    ∧ ∀ a, r = Some a →
           first ≤ chosen ∧ ts !! Z.to_nat (chosen - first) = Some a.
Proof.
  clear. revert first. induction ts as [|b ts IH]; intros first Hnum.
  - exists None. by split.
  - simpl. unfold seq_of.
    rewrite (Hnum 0%nat b eq_refl). simpl.
    destruct (_ =? chosen) eqn:Heq.
    + apply Z.eqb_eq in Heq. exists (Some b). split; [done|].
      intros a [= <-]. split; [lia|].
      by replace (Z.to_nat (chosen - first)) with 0%nat by lia.
    + apply Z.eqb_neq in Heq.
      destruct (IH (first + 1) (numbered_from_tail _ _ _ Hnum)) as (r & -> & Hr).
      exists r. split; [done|]. intros a Ha. destruct (Hr a Ha) as [Hle Hl].
      split; [lia|].
      by replace (Z.to_nat (chosen - first))
        with (S (Z.to_nat (chosen - (first + 1)))) by lia.
Qed.

Lemma validate_user_input_valid response_content ts m key :
  well_numbered ts →
  ∃ r, validate_user_input py_int response_content ts m key = Ok r
       ∧ valid_suggestion ts m key r.
Proof.
  intros Hnum. unfold validate_user_input.
  destruct (py_int response_content) as [chosen|]; [|by exists None].
  destruct (find_seq_numbered 1 chosen ts Hnum) as (r & -> & Hr). simpl.
  destruct r as [a|]; [|by exists None].
  destruct (any_mapped (acc_id a) key m) eqn:Hmapped; simpl; [by exists None|].
  exists (Some chosen). split; [done|].
  destruct (Hr a eq_refl) as [Hle Hl].
  exists a. split_and!; [done|done|]. by apply any_mapped_false.
Qed.

Lemma unmapped_from_positions first ts m key :
  numbered_from first ts →
  ∃ um, unmapped_from first ts m key = Ok um
        ∧ ∀ p, p ∈ um → unmapped_position first ts m key p.2.
Proof.
  revert first. induction ts as [|a ts IH]; intros first Hnum.
  - exists []. split; [done|]. intros p Hp. by apply elem_of_nil in Hp.
  - simpl. unfold seq_of. rewrite (Hnum 0%nat a eq_refl). simpl.
    destruct (IH (first + 1) (numbered_from_tail _ _ _ Hnum)) as (um & -> & Hum).
    simpl. destruct (any_mapped (acc_id a) key m) eqn:Hmapped.
    + exists um. split; [done|]. intros p Hp.
      by apply unmapped_position_shift, Hum.
    + exists ((acc_name a, first) :: um). split; [done|].
      intros p [->|Hp]%elem_of_cons.
      * exists a. simpl. split_and!; [lia| |by apply any_mapped_false].
        by replace (Z.to_nat (first - first)) with 0%nat by lia.
      * by apply unmapped_position_shift, Hum.
Qed.

Lemma best_choice_elem query best choices :
  (best_choice fuzz_score query best choices).1 ∈ best.1 :: choices.
Proof.
  revert best. induction choices as [|c choices IH]; intros best; simpl.
  - by left.
  - destruct (best.2 <? fuzz_score query c).
    + right. apply (IH (c, fuzz_score query c)).
    + specialize (IH best). apply elem_of_cons in IH as [->|?].
      * by left.
      * by right; right.
Qed.

Lemma index_of_elem (x : string) (choices : list string) :
  x ∈ choices → ∃ i, index_of x choices = Some i ∧ choices !! i = Some x.
Proof.
  induction choices as [|c choices IH]; intros Hin.
  - by apply elem_of_nil in Hin.
  - simpl. case_bool_decide as Hc.
    + exists 0%nat. by subst.
    + apply elem_of_cons in Hin as [->|Hin]; [done|].
      destruct (IH Hin) as (i & -> & Hi). by exists (S i).
Qed.

Lemma get_fuzzy_match_suggestion_valid akahu_account ts m key :
  well_numbered ts →
  ∃ r, get_fuzzy_match_suggestion fuzz_score akahu_account ts m key = Ok r
       ∧ valid_suggestion ts m key r.
Proof.
  intros Hnum. unfold get_fuzzy_match_suggestion.
  destruct (unmapped_from_positions 1 ts m key Hnum) as (um & -> & Hum). simpl.
  destruct um as [|p um]; [by exists None|].
  unfold extractOne. cbn [fmap list_fmap].
  set (choices := p.1 :: um.*1).
  pose proof (best_choice_elem (acc_name akahu_account)
                (p.1, fuzz_score (acc_name akahu_account) p.1) um.*1) as Hbest.
  destruct (best_choice fuzz_score (acc_name akahu_account)
              (p.1, fuzz_score (acc_name akahu_account) p.1) um.*1)
    as [best_match_name confidence].
  simpl in Hbest.
  destruct (50 <=? confidence); [|by exists None].
  destruct (index_of_elem best_match_name choices Hbest) as (i & -> & Hi).
  assert (∃ q, (p :: um) !! i = Some q) as [q Hq].
  { apply lookup_lt_is_Some. apply lookup_lt_Some in Hi.
    unfold choices in Hi. simpl in *. by rewrite length_fmap in Hi. }
  change (p.2 :: um.*2) with ((p :: um).*2).
  rewrite list_lookup_fmap, Hq. simpl.
  exists (Some q.2). split; [done|].
  apply Hum. by eapply list_elem_of_lookup_2.
Qed.

(** C2. On targets numbered as [match_accounts] numbers them, the fuzzy
    suggestion returns, and the OpenAI-backed suggestion returns unless the
    Akahu account has no ['connection']; what each returns is [None] or the
    1-based position of a target whose id no mapping entry records under
    the target-account key. *)
Theorem suggestions_never_already_mapped
    (akahu_account : account) (target_accounts : list account)
    (akahu_to_account_mapping : gmap string entry) (target_account_key : string) :
  well_numbered target_accounts →
  (∃ r, get_fuzzy_match_suggestion fuzz_score akahu_account target_accounts
          akahu_to_account_mapping target_account_key = Ok r
        ∧ valid_suggestion target_accounts akahu_to_account_mapping
            target_account_key r)
  ∧ match get_openai_match_suggestion py_int py_strip chat_completion
            fuzz_score akahu_account target_accounts
            akahu_to_account_mapping target_account_key with
    | Ok r => valid_suggestion target_accounts akahu_to_account_mapping
                target_account_key r
    | Raise e => acc_connection akahu_account = None
    end.
Proof.
  intros Hnum. split; [by apply get_fuzzy_match_suggestion_valid|].
  unfold get_openai_match_suggestion, connection_of.
  destruct (acc_connection akahu_account) as [connection|]; [|done]. simpl.
  assert (∃ lines, prompt_lines target_accounts akahu_to_account_mapping
                     target_account_key = Ok lines) as [lines ->].
  { clear -Hnum. unfold well_numbered in Hnum. revert Hnum.
    generalize 1. induction target_accounts as [|a ts IH]; intros first Hnum.
    - by exists "".
    - simpl. unfold seq_of. rewrite (Hnum 0%nat a eq_refl). simpl.
      destruct (IH (first + 1) (numbered_from_tail _ _ _ Hnum)) as (tail & ->).
      simpl. destruct (any_mapped _ _ _); eauto. }
  simpl.
  destruct (get_fuzzy_match_suggestion_valid akahu_account target_accounts
              akahu_to_account_mapping target_account_key Hnum)
    as (rf & Hrf & Hvf).
  match goal with |- context [chat_completion ?prompt] =>
    destruct (chat_completion prompt) as [response_content|e] end; simpl.
  - destruct (validate_user_input_valid (py_strip response_content)
                target_accounts akahu_to_account_mapping target_account_key Hnum)
      as (rv & -> & Hvv).
    destruct rv as [chosen|]; [done|]. by rewrite Hrf.
  - by rewrite Hrf.
Qed.

End suggestion_properties.

(** Stand-ins for the collaborators of the suggestion functions, used to
    run them: [int] on an unsigned decimal literal, a scorer that knows
    only equal names, and a model that always answers [1]. *)
Definition ref_py_int (s : string) : option Z :=
  match list_ascii_of_string s with
  | [] => None
  | cs => number_of 0 cs
  end.

Definition exact_score (query choice : string) : Z :=
  if bool_decide (query = choice) then 100 else 0.

Definition answers_one (prompt : string) : result string := Ok "1".

Lemma suggestions_never_already_mapped_witness :
  let targets :=
    akahu_budget_mapping.number_targets
      [plain_account "t1" "Checking"; plain_account "t2" "Everyday"] in
  let akahu := mk_account "a2" "Everyday" (Some "Kiwibank") None None ∅ in
  akahu_budget_mapping.get_fuzzy_match_suggestion exact_score akahu targets
    {["a1" := entry_a1_t1]} "actual_account_id" = Ok (Some 2)
  ∧ akahu_budget_mapping.get_openai_match_suggestion ref_py_int id answers_one
      exact_score akahu targets {["a1" := entry_a1_t1]} "actual_account_id"
    = Ok (Some 2)
  ∧ valid_suggestion targets {["a1" := entry_a1_t1]} "actual_account_id" (Some 2).
Proof.
  intros targets akahu.
  destruct (suggestions_never_already_mapped ref_py_int id answers_one
              exact_score akahu targets {["a1" := entry_a1_t1]}
              "actual_account_id"
              (number_targets_well_numbered _)) as [(r & Hr & Hvalid) _].
  assert (r = Some 2) as ->.
  { vm_compute in Hr. by injection Hr as <-. }
  split_and!; [by vm_compute|by vm_compute|exact Hvalid].
Defined.

(** ** Durable state *)

Section durable_state.
Import akahu_to_budget.

(** Every key of the mapping is the ['akahu_id'] of its entry, as in any
    dictionary built by [load_existing_mapping] or by [match_accounts]. *)
Definition keyed_by_akahu_id (d : gmap string entry) : Prop :=
  ∀ k e, d !! k = Some e → e !! "akahu_id" = Some (VStr k).

Lemma key_by_akahu_id_pairs (l : list (string * entry)) (acc : gmap string entry) :
  (∀ p, p ∈ l → p.2 !! "akahu_id" = Some (VStr p.1)) →
  key_by_akahu_id acc l.*2 = Ok (foldl (λ m p, <[p.1 := p.2]> m) acc l).
Proof.
  revert acc. induction l as [|p l IH]; intros acc Hl; [done|].
  simpl. rewrite (Hl p) by (by left). apply IH. intros q Hq. apply Hl. by right.
Qed.

Lemma foldl_insert_list_to_map (l : list (string * entry)) (acc : gmap string entry) :
  NoDup l.*1 →
  foldl (λ m p, <[p.1 := p.2]> m) acc l = list_to_map l ∪ acc.
Proof.
  revert acc. induction l as [|[k e] l IH]; intros acc Hnd.
  - simpl. by rewrite (left_id_L ∅ (∪)).
  - apply NoDup_cons in Hnd as [Hk Hnd]. simpl. rewrite IH by done.
    rewrite <- insert_union_r; [by rewrite insert_union_l|].
    by apply not_elem_of_list_to_map_1.
Qed.

Lemma mapping_round_trip (d : gmap string entry) :
  keyed_by_akahu_id d →
  mapping_of_document (Some (MappingList (map_to_list d).*2)) = Ok d.
Proof.
  intros Hkeyed. simpl. rewrite key_by_akahu_id_pairs.
  - rewrite foldl_insert_list_to_map by apply NoDup_fst_map_to_list.
    by rewrite list_to_map_to_list, (right_id_L ∅ (∪)).
  - intros [k e] Hin. apply elem_of_map_to_list in Hin. by apply Hkeyed.
Qed.

(** In akahu_to_budget.py, saving a state whose mapping is a dictionary
    keyed by each entry's own ['akahu_id'] and loading the file written
    gives the same state back: the three account lists and every mapping
    entry. *)
Lemma save_load_round_trip (g : globals) (d : gmap string entry) :
  g_mapping_list g = MappingDict d →
  keyed_by_akahu_id d →
  (save_updated_mapping g ≫= λ doc, load_existing_mapping (Some doc)) = Ok g.
Proof.
  intros Hd Hkeyed. destruct g as [ak ac yn ml]. simpl in Hd. subst ml.
  unfold save_updated_mapping. cbn [g_mapping_list mbind result_bind].
  unfold load_existing_mapping. cbn [doc_mapping].
  rewrite mapping_round_trip by done. done.
Qed.

(** What [load_existing_mapping] returns is keyed in that way. *)
Lemma key_by_akahu_id_keyed (l : list entry) (acc d : gmap string entry) :
  keyed_by_akahu_id acc → key_by_akahu_id acc l = Ok d → keyed_by_akahu_id d.
Proof.
  revert acc. induction l as [|e l IH]; intros acc Hacc Hd.
  - simpl in Hd. by injection Hd as <-.
  - simpl in Hd. destruct (e !! "akahu_id") as [[[|k|q]|?]|] eqn:He; try done.
    apply (IH (<[k := e]> acc)); [|done].
    intros k' e' Hk'. destruct (decide (k = k')) as [->|Hne].
    + rewrite lookup_insert_eq in Hk'. by injection Hk' as <-.
    + rewrite lookup_insert_ne in Hk' by done. by apply Hacc.
Qed.

Lemma load_existing_mapping_keyed (data : document) (g : globals) :
  load_existing_mapping (Some data) = Ok g →
  ∃ d, g_mapping_list g = MappingDict d ∧ keyed_by_akahu_id d.
Proof.
  unfold load_existing_mapping. intros Hload.
  destruct (mapping_of_document (doc_mapping data)) as [d|] eqn:Hd; [|done].
  simpl in Hload. injection Hload as <-. exists d. split; [done|].
  unfold mapping_of_document in Hd.
  destruct (doc_mapping data) as [[l|d']|].
  - eapply key_by_akahu_id_keyed; [|done]. intros ? ? ?. by simplify_map_eq.
  - case_bool_decide; [|done]. injection Hd as <-. intros ? ? ?. by simplify_map_eq.
  - injection Hd as <-. intros ? ? ?. by simplify_map_eq.
Qed.

(** C9. The states that the scripts can hold are those that
    [load_existing_mapping] returns. In akahu_to_budget.py, a state loaded
    from a mapping file round-trips: saving it and loading the file written
    gives it back, account lists and mapping entries. The state loaded when
    there is no mapping file does not: its mapping is a list, and
    [save_updated_mapping] raises [AttributeError] on it. In
    akahu_to_actual.py no loaded state with a mapping entry round-trips:
    the file written holds the mapping as an object, and loading it raises
    [TypeError]. *)
Theorem save_load_reachable_states :
  (∀ data g,
     load_existing_mapping (Some data) = Ok g →
     (save_updated_mapping g ≫= λ doc, load_existing_mapping (Some doc)) = Ok g)
  ∧ (load_existing_mapping None = Ok (mk_globals [] [] [] (MappingList []))
     ∧ save_updated_mapping (mk_globals [] [] [] (MappingList []))
       = Raise AttributeError)
  ∧ (∀ data g,
       akahu_to_actual.load_existing_mapping (Some data) = Ok g →
       g.2 ≠ MappingDict ∅ →
       akahu_to_actual.load_existing_mapping
         (Some (akahu_to_actual.save_updated_mapping g))
       = Raise TypeError).
Proof.
  split_and!.
  - intros data g Hload.
    destruct (load_existing_mapping_keyed data g Hload) as (d & Hd & Hkeyed).
    by apply (save_load_round_trip g d).
  - done.
  - done.
  - intros data g. unfold akahu_to_actual.load_existing_mapping.
    destruct (mapping_of_document (doc_mapping data)) as [d|]; [|done].
    intros [= <-] Hne. simpl.
    rewrite bool_decide_eq_false_2; [done|]. by intros ->.
Qed.

End durable_state.

(** A mapping file with the entry of account [a1], and the state loaded
    from it. *)
Definition file_a1 : document :=
  mk_document (Some [plain_account "a1" "Everyday"])
    (Some [plain_account "t1" "Checking"]) (Some [])
    (Some (MappingList [entry_a1_t1])).

Definition state_a1 : akahu_to_budget.globals :=
  akahu_to_budget.mk_globals
    [plain_account "a1" "Everyday"] [plain_account "t1" "Checking"] []
    (MappingDict {["a1" := entry_a1_t1]}).

Lemma save_load_reachable_states_witness :
  (akahu_to_budget.save_updated_mapping state_a1
     ≫= λ doc, akahu_to_budget.load_existing_mapping (Some doc)) = Ok state_a1
  ∧ akahu_to_actual.load_existing_mapping
      (Some (akahu_to_actual.save_updated_mapping
               ([plain_account "a1" "Everyday"],
                [plain_account "t1" "Checking"],
                MappingDict {["a1" := entry_a1_t1]})))
    = Raise TypeError.
Proof.
  destruct save_load_reachable_states as (Hbudget & _ & Hactual). split.
  - apply (Hbudget file_a1). reflexivity.
  - apply (Hactual file_a1); [reflexivity|]. simpl.
    intros Hempty.
    by apply (f_equal (λ m, match m with
                            | MappingDict d => d !! "a1"
                            | MappingList _ => None
                            end)) in Hempty.
Defined.

(** [save_updated_mapping] of akahu_to_actual.py writes the mapping only:
    the account lists are not in the file it writes. *)
Example to_actual_save_drops_accounts :
  akahu_to_actual.load_existing_mapping
    (Some (akahu_to_actual.save_updated_mapping
             ([plain_account "a1" "Everyday"], [plain_account "t1" "Checking"],
              MappingDict ∅)))
  = Ok ([], [], MappingDict ∅).
Proof. reflexivity. Qed.

(** ** Paginated fetch *)

Section pagination.
Import akahu_to_budget.

Variable serve : provider.
Variables account start : string.

(** The provider answers the successive requests of a fetch, the first
    being request number [n] with cursor parameter [cur], with the pages
    [ps]: each page has items and names the cursor of the next. *)
Fixpoint served (n : nat) (cur : option string)
    (ps : list (list txn_row * string)) : Prop :=
  match ps with
  | [] => True
  | p :: ps' =>
      p.1 ≠ [] ∧ p.2 ≠ "first time"
      ∧ try_get (serve n (mk_request account start cur))
        = Some (mk_page (Some p.1) (CursorDict (Some (Some p.2))))
      ∧ served (S n) (Some p.2) ps'
  end.

(** The requests that fetch the pages [ps], and the cursor parameter of the
    request that follows them. *)
Fixpoint requests_of (cur : option string) (ps : list (list txn_row * string))
    : list request :=
  match ps with
  | [] => []
  | p :: ps' => mk_request account start cur :: requests_of (Some p.2) ps'
  end.

Fixpoint final_cursor (cur : option string) (ps : list (list txn_row * string))
    : option string :=
  match ps with
  | [] => cur
  | p :: ps' => final_cursor (Some p.2) ps'
  end.

(** The frame after the pages [ps]. *)
Definition fetched (res : option (list txn_row))
    (ps : list (list txn_row * string)) : option (list txn_row) :=
  foldl (λ r p, accumulate r p.1) res ps.

(** The parameters of the request that the loop sends next. *)
Definition with_cursor (query_params : request) (next_cursor : string) : request :=
  if bool_decide (next_cursor ≠ "first time")
  then mk_request (req_account query_params) (req_start query_params)
                  (Some next_cursor)
  else query_params.

(** A page that ends the fetch by its cursor member. *)
Definition no_next (body : page) : Prop :=
  page_cursor body = CursorMissing ∨ page_cursor body = CursorDict None
  ∨ page_cursor body = CursorDict (Some None).

Lemma length_requests_of cur ps : length (requests_of cur ps) = length ps.
Proof. revert cur. induction ps as [|p ps IH]; intros cur; simpl; auto. Qed.

Lemma fetched_Some r ps : fetched (Some r) ps = Some (r ++ concat ps.*1).
Proof.
  unfold fetched. revert r. induction ps as [|p ps IH]; intros r; simpl.
  - by rewrite app_nil_r.
  - by rewrite IH, <- app_assoc.
Qed.

Lemma fetched_None p ps : fetched None (p :: ps) = Some (concat (p :: ps).*1).
Proof. unfold fetched. simpl. apply fetched_Some. Qed.

(** The loop follows the pages it is served. *)
Lemma paginate_pages (ps : list (list txn_row * string)) :
  ∀ fuel n query_params next_cursor cur res sent,
    with_cursor query_params next_cursor = mk_request account start cur →
    served n cur ps →
    ∃ query_params' next_cursor',
      with_cursor query_params' next_cursor'
      = mk_request account start (final_cursor cur ps)
      ∧ paginate serve (length ps + fuel) n query_params next_cursor res sent
        = paginate serve fuel (n + length ps) query_params' next_cursor'
            (fetched res ps) (sent ++ requests_of cur ps).
Proof.
  induction ps as [|p ps IH]; intros fuel n qp nc cur res sent Hqp Hserved.
  - exists qp, nc. simpl. rewrite Nat.add_0_r, app_nil_r. by split.
  - destruct Hserved as (Hitems & Hsentinel & Hpage & Hrest).
    destruct (IH fuel (S n) (mk_request account start cur) p.2 (Some p.2)
                (accumulate res p.1) (sent ++ [mk_request account start cur]))
      as (qp' & nc' & Hqp' & Hpag); [|done|].
    { unfold with_cursor. by rewrite bool_decide_eq_true_2. }
    exists qp', nc'. split; [done|].
    cbn [length Nat.add paginate]. fold (with_cursor qp nc).
    rewrite Hqp, Hpage. cbn [page_items default page_cursor].
    unfold next_cursor_of. rewrite bool_decide_eq_false_2.
    2:{ destruct p as [[|] ?]; simpl in *; [done|lia]. }
    unfold id. cbv beta iota delta [page_cursor]. rewrite Hpag.
    replace (n + S (length ps))%nat with (S n + length ps)%nat by lia.
    cbn [requests_of fetched foldl]. by rewrite <- app_assoc.
Qed.

(** A page without a next cursor ends the loop. *)
Lemma paginate_last fuel n query_params next_cursor cur res sent body :
  with_cursor query_params next_cursor = mk_request account start cur →
  try_get (serve n (mk_request account start cur)) = Some body →
  no_next body →
  paginate serve (S fuel) n query_params next_cursor res sent
  = Some (sent ++ [mk_request account start cur],
          Ok (accumulate res (default [] (page_items body)))).
Proof.
  intros Hqp Hpage Hno. cbn [paginate]. fold (with_cursor query_params next_cursor).
  rewrite Hqp, Hpage. unfold next_cursor_of.
  case_bool_decide; [done|].
  by destruct Hno as [-> | [-> | ->]].
Qed.

(** A failed request ends the loop with what was fetched before it. *)
Lemma paginate_failure fuel n query_params next_cursor cur res sent :
  with_cursor query_params next_cursor = mk_request account start cur →
  try_get (serve n (mk_request account start cur)) = None →
  paginate serve (S fuel) n query_params next_cursor res sent
  = Some (sent ++ [mk_request account start cur], Ok res).
Proof.
  intros Hqp Hfail. cbn [paginate]. fold (with_cursor query_params next_cursor).
  by rewrite Hqp, Hfail.
Qed.

End pagination.

(** C7, as amended. When the provider answers the successive requests of
    [get_all_akahu] with pages that have items and a next cursor, and then
    with a page [last_page] that has no next cursor, the fetch (given fuel
    for one iteration per page) sends exactly one request per page, the
    first without a cursor parameter and each later one with the next
    cursor of the page before it, and returns the concatenation of the
    items of all the pages. For next cursors c1, c2, none that is three
    requests; two requests are what a provider answering c1, none gets. *)
Theorem get_all_akahu_one_request_per_page
    (serve : provider) (fuel : nat) (akahu_account_id : string)
    (last_reconciled_at : option string)
    (ps : list (list txn_row * string)) (last_page : page) :
  let start := akahu_to_budget.start_param last_reconciled_at in
  let last_request :=
    mk_request akahu_account_id start (final_cursor None ps) in
  served serve akahu_account_id start 0 None ps →
  akahu_to_budget.try_get (serve (length ps) last_request) = Some last_page →
  no_next last_page →
  (length ps < fuel)%nat →
  akahu_to_budget.get_all_akahu serve fuel akahu_account_id last_reconciled_at
  = Some (requests_of akahu_account_id start None ps ++ [last_request],
          Ok (Some (concat ps.*1 ++ default [] (page_items last_page))))
  ∧ length (requests_of akahu_account_id start None ps ++ [last_request])
    = S (length ps).
Proof.
  intros start last_request Hserved Hlast Hno Hfuel. split.
  - unfold akahu_to_budget.get_all_akahu. fold start.
    destruct (paginate_pages serve akahu_account_id start ps
                (fuel - length ps) 0
                (mk_request akahu_account_id start None) "first time" None
                None []) as (qp' & nc' & Hqp' & Hpag); [done|done|].
    replace (length ps + (fuel - length ps))%nat with fuel in Hpag by lia.
    rewrite Hpag.
    destruct (fuel - length ps)%nat as [|fuel'] eqn:Hf; [lia|].
    rewrite (paginate_last serve akahu_account_id start fuel'
               (0 + length ps) qp' nc' (final_cursor None ps) _ _ last_page);
      [|done|done|done].
    f_equal. f_equal. f_equal. destruct ps as [|p ps]; [done|].
    by rewrite fetched_None.
  - by rewrite length_app, length_requests_of, Nat.add_1_r.
Qed.

(** The first request of akahu_to_budget.py carries the checkpoint itself
    as its start parameter. *)
Lemma paginate_first_request (serve : provider) fuel n query_params
    next_cursor res sent reqs r :
  akahu_to_budget.paginate serve fuel n query_params next_cursor res sent
  = Some (reqs, r) →
  ∃ rest, reqs = sent ++ with_cursor query_params next_cursor :: rest.
Proof.
  revert n query_params next_cursor res sent.
  induction fuel as [|fuel IH]; intros n qp nc res sent Hrun; [done|].
  cbn [akahu_to_budget.paginate] in Hrun. fold (with_cursor qp nc) in Hrun.
  destruct (akahu_to_budget.try_get _) as [body|].
  - destruct (akahu_to_budget.next_cursor_of _ body) as [[next|]|e].
    + apply IH in Hrun as [rest ->]. rewrite <- app_assoc. simpl. eauto.
    + injection Hrun as <- <-. by exists [].
    + injection Hrun as <- <-. by exists [].
  - injection Hrun as <- <-. by exists [].
Qed.

Lemma get_all_akahu_first_request (serve : provider) fuel akahu_account_id
    (t : string) reqs r :
  t ≠ "" →
  akahu_to_budget.get_all_akahu serve fuel akahu_account_id (Some t)
  = Some (reqs, r) →
  ∃ rest, reqs = mk_request akahu_account_id t None :: rest.
Proof.
  intros Ht Hrun. apply paginate_first_request in Hrun as [rest ->].
  exists rest. simpl. unfold akahu_to_budget.start_param.
  by rewrite bool_decide_eq_false_2.
Qed.

(** Three transactions and a provider that serves them one per page, with
    next cursors c1, c2 and none. *)
Definition txn_coffee : txn_row :=
  mk_txn "trans_1" "2024-06-10" "Coffee" (PyFloat (float_literal (-45) 1)) None.
Definition txn_salary : txn_row :=
  mk_txn "trans_2" "2024-06-11" "Salary" (PyFloat (float_literal 2500 0)) None.
Definition txn_rent : txn_row :=
  mk_txn "trans_3" "2024-06-12" "Rent" (PyFloat (float_literal (-600) 0)) None.

Definition three_pages : provider := λ n r,
  match req_cursor r with
  | None => Response 200 (mk_page (Some [txn_coffee]) (CursorDict (Some (Some "c1"))))
  | Some c =>
      if bool_decide (c = "c1")
      then Response 200 (mk_page (Some [txn_salary]) (CursorDict (Some (Some "c2"))))
      else Response 200 (mk_page (Some [txn_rent]) (CursorDict (Some None)))
  end.

(** C7 as stated fails: for next cursors c1, c2, none the fetch never ends
    after exactly two requests. *)
Lemma three_cursors_three_requests :
  ¬ ∃ fuel reqs r,
      akahu_to_budget.get_all_akahu three_pages fuel "acc_1"
        (Some "2024-06-15T00:00:00Z") = Some (reqs, r)
      ∧ length reqs = 2%nat.
Proof.
  intros (fuel & reqs & r & Hrun & Hlen).
  destruct fuel as [|[|[|fuel]]]; vm_compute in Hrun; try discriminate.
  injection Hrun as <- <-. discriminate.
Qed.

Lemma get_all_akahu_one_request_per_page_witness :
  akahu_to_budget.get_all_akahu three_pages 3 "acc_1" (Some "2024-06-15T00:00:00Z")
  = Some ([mk_request "acc_1" "2024-06-15T00:00:00Z" None;
           mk_request "acc_1" "2024-06-15T00:00:00Z" (Some "c1");
           mk_request "acc_1" "2024-06-15T00:00:00Z" (Some "c2")],
          Ok (Some [txn_coffee; txn_salary; txn_rent])).
Proof.
  apply (get_all_akahu_one_request_per_page three_pages 3 "acc_1"
           (Some "2024-06-15T00:00:00Z")
           [([txn_coffee], "c1"); ([txn_salary], "c2")]
           (mk_page (Some [txn_rent]) (CursorDict (Some None)))).
  - simpl. split_and!; done.
  - reflexivity.
  - right; right; reflexivity.
  - simpl; lia.
Defined.

(** The same provider through [AkahuAPI.fetch_transactions_paginated]. *)
Example fetch_transactions_paginated_three_pages :
  akahu_api.fetch_transactions_paginated three_pages 3 "acc_1" "2024-06-15T00:00:00Z"
  = Some ([mk_request "acc_1" "2024-06-15T00:00:00Z" None;
           mk_request "acc_1" "2024-06-15T00:00:00Z" (Some "c1");
           mk_request "acc_1" "2024-06-15T00:00:00Z" (Some "c2")],
          Ok [txn_coffee; txn_salary; txn_rent]).
Proof. by vm_compute. Qed.

(** A provider with one page. *)
Definition one_page : provider := λ n r,
  Response 200 (mk_page (Some [txn_coffee]) (CursorDict (Some None))).

(** C6 at a checkpoint of 15 June 2024: akahu_to_budget.py asks for the
    transactions from the checkpoint itself; akahu_to_actual.py, on the
    same input, asks from seven days earlier. *)
Theorem lookback_missing_in_to_budget :
  akahu_to_budget.get_all_akahu one_page 1 "acc_1" (Some "2024-06-15T00:00:00Z")
  = Some ([mk_request "acc_1" "2024-06-15T00:00:00Z" None],
          Ok (Some [txn_coffee]))
  ∧ akahu_to_actual.get_all_akahu ref_strptime ref_strftime one_page 1 "acc_1"
      (Some "2024-06-15T00:00:00Z")
    = Ok (Some ([mk_request "acc_1" "2024-06-08T00:00:00Z" None],
                Some [txn_coffee])).
Proof. split; by vm_compute. Qed.

(** ** Numbers *)

Lemma digits2_pos_shift (m k : positive) :
  Z.pos (digits2_pos (Pos.iter xO m k)) = Z.pos (digits2_pos m) + Z.pos k.
Proof.
  induction k as [|k IH] using Pos.peano_ind.
  - simpl. lia.
  - rewrite Pos.iter_succ. simpl. lia.
Qed.

(** The product of a float by [float(-1)] is exact: the float of opposite
    sign. *)
Lemma fmul_minus_one (f : float64) :
  valid_float f → fmul f (float_of_int (-1)) = SFopp f.
Proof.
  destruct f as [s|s| |s m e]; intros Hvalid;
    [by destruct s|by destruct s|done|].
  unfold valid_float, valid_binary, bounded, canonical_mantissa in Hvalid.
  apply andb_prop in Hvalid as [Hcanon Hbound].
  apply Z.eqb_eq in Hcanon.
  change (float_of_int (-1)) with (S754_finite true 4503599627370496 (-52)).
  unfold fmul, SFmul, binary_round_aux, shr_fexp.
  rewrite Pos.mul_comm.
  change (4503599627370496 * m)%positive with (Pos.iter xO m 52).
  unfold Zdigits2. rewrite digits2_pos_shift.
  replace (Z.pos (digits2_pos m) + 52 + (e + -52))
    with (Z.pos (digits2_pos m) + e) by lia.
  rewrite Hcanon.
  replace (e - (e + -52)) with 52 by lia.
  cbn -[fexp Z.add Z.sub Z.leb].
  replace (e + -52 + 52) with e by lia.
  rewrite Hcanon, Z.sub_diag. cbn -[Z.leb Z.sub].
  rewrite Hbound. by destruct s.
Qed.

(** The opposite of a decimal. *)
Definition decimal_opp (d : decimal) : decimal :=
  match d with
  | DecFinite q => DecFinite (- q)
  | DecInfinity s => DecInfinity (negb s)
  | DecNaN => DecNaN
  end.

(** A number whose float, if it is one, is in canonical form. *)
Definition valid_number (x : number) : Prop :=
  match x with
  | PyInt _ => True
  | PyFloat f => valid_float f
  end.

Global Instance valid_number_dec x : Decision (valid_number x).
Proof. destruct x; apply _. Defined.

(** [Decimal(x * -1)] is the opposite of [Decimal(x)]. *)
Lemma Decimal_times_minus_one (x : number) :
  valid_number x → Decimal (times x (-1)) = decimal_opp (Decimal x).
Proof.
  destruct x as [z|f]; intros Hvalid.
  - simpl. unfold inject_Z, Qopp. simpl. do 2 f_equal. lia.
  - unfold times. rewrite fmul_minus_one by done.
    destruct f as [s|s| |s m e]; try done. simpl.
    destruct e as [|e|e], s; simpl; unfold Qopp; simpl; do 2 f_equal; lia.
Qed.

(** A float product has the sign of its factors, when it is a number. *)
Lemma binary_round_aux_sign (sx : bool) (mx ex : Z) (lx : location) :
  match binary_round_aux 53 1024 sx mx ex lx with
  | S754_zero s | S754_infinity s | S754_finite s _ _ => s = sx
  | S754_nan => True
  end.
Proof.
  unfold binary_round_aux.
  destruct (shr_fexp 53 1024 mx ex lx) as [mrs' e'].
  destruct (shr_fexp 53 1024 _ e' loc_Exact) as [mrs'' e''].
  destruct (shr_m mrs''); [done| |done]. by destruct (_ <=? _).
Qed.

Lemma float_value_sign (s : bool) (m : positive) (e : Z) (q : Q) :
  float_value (S754_finite s m e) = Some q →
  if s then (q < 0)%Q else (0 < q)%Q.
Proof.
  intros [= <-]. unfold Qlt. destruct e as [|k|k], s; simpl; lia.
Qed.

Lemma py_int_of_sign (q : Q) :
  ((0 <= q)%Q → 0 ≤ py_int_of q) ∧ ((q <= 0)%Q → py_int_of q ≤ 0).
Proof.
  unfold py_int_of, Qle. destruct q as [n d]. simpl. split; intros Hn.
  - apply Z.quot_pos; lia.
  - assert (0 ≤ (- n) ÷ Z.pos d) by (apply Z.quot_pos; lia).
    rewrite Z.quot_opp_l in * by lia. lia.
Qed.

(** [int(x * 1000)] has the sign of [x], or is zero. *)
Lemma thousandths_sign (x : number) (n : Z) (q : Q) :
  int_of_number (times x 1000) = Ok n →
  number_value x = Some q →
  ((0 <= q)%Q → 0 ≤ n) ∧ ((q <= 0)%Q → n ≤ 0).
Proof.
  destruct x as [z|[s|s| |s m e]]; try done.
  - intros [= <-] [= <-]. unfold Qle. simpl. lia.
  - intros [= <-] [= <-]. done.
  - intros Hint Hq. apply float_value_sign in Hq.
    pose proof (binary_round_aux_sign (xorb s false)
                  (Z.pos (m * 8796093022208000)) (e + -43) loc_Exact) as Hs.
    change (times (PyFloat (S754_finite s m e)) 1000)
      with (PyFloat (binary_round_aux 53 1024 (xorb s false)
                       (Z.pos (m * 8796093022208000)) (e + -43) loc_Exact))
      in Hint.
    revert Hint Hs.
    generalize (binary_round_aux 53 1024 (xorb s false)
                  (Z.pos (m * 8796093022208000)) (e + -43) loc_Exact).
    intros [s'|s'| |s' m' e'] Hint Hs; try done;
      rewrite xorb_false_r in Hs; subst s'.
    + by injection Hint as <-.
    + injection Hint as <-.
      pose proof (float_value_sign s m' e' _ eq_refl) as Hq'.
      cbn [float_value default from_option] in *.
      match goal with
      | |- context [py_int_of ?q'] =>
          destruct (py_int_of_sign q') as [Hpos Hneg]
      end.
      destruct s; split; intros Hsign.
      * exfalso. by apply (Qlt_not_le _ _ Hq).
      * apply Hneg. by apply Qlt_le_weak.
      * apply Hpos. by apply Qlt_le_weak.
      * exfalso. by apply (Qlt_not_le _ _ Hq).
Qed.

(** The quotient by 100 of a difference of fewer than 29 digits is exact. *)
Lemma decimal_div100_exact (d : Z) :
  Z.abs d < 10 ^ 28 → decimal_div100 d = d # 100.
Proof.
  intros Hd. unfold decimal_div100.
  by rewrite (proj2 (Z.ltb_lt _ _) Hd).
Qed.

(** ** Import into the target ledgers *)

Section import.
Import akahu_to_budget.

Context {ledger session_t reconciled : Type}.
Variable session : ledger → result session_t.
Variable changed : reconciled → bool.
Variable reconcile_transaction :
  ledger → session_t → reconcile_call reconciled → ledger * result reconciled.
Variable strptime : string → string → option datetime.
Variable strftime : datetime → string → string.

(** The rows that can reach [reconcile_transaction]: those whose date reads
    as year-month-day. *)
Definition dated (row : txn_row) : Prop :=
  is_Some (strptime (txn_date row) "%Y-%m-%d").

Global Instance dated_dec row : Decision (dated row).
Proof. unfold dated. apply _. Defined.

(** One call reconciles one row into one account with the amount negated. *)
Definition negates (actual_account_id : value)
    (call : reconcile_call reconciled) (row : txn_row) : Prop :=
  rc_account call = actual_account_id
  ∧ rc_imported_id call = txn_id row
  ∧ rc_amount call = decimal_opp (Decimal (txn_amount row)).

(** [actual.session()] can be called, whatever the ledger holds. *)
Definition session_opens : Prop := ∀ l, ∃ opened, session l = Ok opened.

Lemma reconcile_rows_calls (actual_account_id : value) (rows : list txn_row) :
  Forall (λ row, valid_number (txn_amount row)) rows →
  ∀ l imported calls l' imported' calls',
    foldl (reconcile_row session changed reconcile_transaction strptime
             actual_account_id)
          (l, imported, calls) rows = (l', imported', calls') →
    ∃ new reconciled_rows,
      calls' = calls ++ new
      ∧ Forall2 (negates actual_account_id) new reconciled_rows
      ∧ reconciled_rows `sublist_of` filter dated rows
      ∧ (session_opens → reconciled_rows = filter dated rows).
Proof.
  induction 1 as [|row rows Hrow Hrows IH];
    intros l imported calls l' imported' calls' Hrun.
  - simpl in Hrun. injection Hrun as <- <- <-. exists [], [].
    rewrite app_nil_r. split_and!; [done|constructor|done|done].
  - cbn [foldl] in Hrun. unfold reconcile_row at 2 in Hrun.
    destruct (session l) as [opened|e] eqn:Hopen.
    + destruct (strptime (txn_date row) "%Y-%m-%d") as [t|] eqn:Ht.
      * rewrite filter_cons_True by (unfold dated; rewrite Ht; eauto).
        set (call := mk_reconcile_call (dt_date t) actual_account_id
                       (txn_description row)
                       ("Akahu transaction: " +:+ txn_description row)
                       (Decimal (times (txn_amount row) (-1))) (txn_id row)
                       true (txn_description row) imported) in *.
        assert (negates actual_account_id call row) as Hneg.
        { split_and!; [done|done|]. by apply Decimal_times_minus_one. }
        destruct (reconcile_transaction l opened call) as [l1 [r|e]];
          apply IH in Hrun as (new & done_rows & -> & Hnew & Hsub & Hall);
          exists (call :: new), (row :: done_rows); rewrite <- app_assoc;
          (split_and!;
           [done|by constructor|by constructor
           |by intros Hopens; rewrite Hall]).
      * rewrite filter_cons_False by (unfold dated; rewrite Ht; by intros [? ?]).
        by apply IH in Hrun.
    + apply IH in Hrun as (new & done_rows & -> & Hnew & Hsub & Hall).
      exists new, done_rows. split_and!; [done|done| |].
      * destruct (decide (dated row)).
        -- rewrite filter_cons_True by done. by constructor.
        -- by rewrite filter_cons_False.
      * intros Hopens. destruct (Hopens l) as [opened Hopened]. congruence.
Qed.

(** The import reconciles dated rows in order, each with its amount
    negated, and stamps the checkpoint with the clock reading. *)
Lemma load_transactions_into_actual_calls (rows : list txn_row)
    (mapping_entry : entry) (actual : ledger) (now : datetime)
    (actual_account_id : value) :
  rows ≠ [] →
  mapping_entry !! "actual_account_id" = Some actual_account_id →
  Forall (λ row, valid_number (txn_amount row)) rows →
  ∃ l calls reconciled_rows,
    load_transactions_into_actual session changed reconcile_transaction
      strptime strftime (Some rows) mapping_entry actual now
    = Ok (<["actual_synced_datetime" :=
              VStr (strftime now "%Y-%m-%dT%H:%M:%SZ")]> mapping_entry, l, calls)
    ∧ Forall2 (negates actual_account_id) calls reconciled_rows
    ∧ reconciled_rows `sublist_of` filter dated rows
    ∧ (session_opens → reconciled_rows = filter dated rows).
Proof.
  intros Hrows Hid Hvalid. unfold load_transactions_into_actual.
  destruct rows as [|row rows]; [done|]. rewrite Hid.
  destruct (foldl _ _ (row :: rows)) as [[l imported] calls] eqn:Hrun.
  apply reconcile_rows_calls in Hrun as (new & done_rows & -> & Hnew & Hsub & Hall);
    [|done].
  by exists l, new, done_rows.
Qed.

(** A row prepared for YNAB carries the source amount in thousandths,
    truncated, with the sign it had. *)
Definition keeps_sign (y : ynab_txn) (row : txn_row) : Prop :=
  y_import_id y = txn_id row
  ∧ ∃ n, int_of_number (times (txn_amount row) 1000) = Ok n
         ∧ y_amount y = pretty n
         ∧ ∀ q, number_value (txn_amount row) = Some q →
                ((0 <= q)%Q → 0 ≤ n) ∧ ((q <= 0)%Q → n ≤ 0).

Lemma column_Ok {A B : Type} (f : A → result B) (rows : list A) (bs : list B) :
  column f rows = Ok bs → Forall2 (λ b row, f row = Ok b) bs rows.
Proof.
  revert bs. induction rows as [|row rows IH]; intros bs Hbs; simpl in Hbs.
  - injection Hbs as <-. constructor.
  - destruct (f row) as [b|] eqn:Hb; [|done]. simpl in Hbs.
    destruct (column f rows) as [bs'|]; [|done]. simpl in Hbs.
    injection Hbs as <-. constructor; [done|by apply IH].
Qed.

Lemma column_Raise {A B : Type} (f : A → result B) (rows : list A) (e : exn) :
  column f rows = Raise e → ∃ row, row ∈ rows ∧ f row = Raise e.
Proof.
  induction rows as [|row rows IH]; intros He; simpl in He; [done|].
  destruct (f row) as [b|e'] eqn:Hb; simpl in He.
  - destruct (column f rows) as [bs'|e'']; [done|]. simpl in He.
    injection He as ->. destruct IH as (r & Hr & Hfr); [done|].
    exists r. split; [by right|done].
  - injection He as ->. exists row. split; [by left|done].
Qed.

Lemma thousandths_keeps (x : number) (a : string) :
  thousandths x = Ok a →
  ∃ n, int_of_number (times x 1000) = Ok n
       ∧ a = pretty n
       ∧ ∀ q, number_value x = Some q →
              ((0 <= q)%Q → 0 ≤ n) ∧ ((q <= 0)%Q → n ≤ 0).
Proof.
  unfold thousandths. intros Ha.
  destruct (int_of_number (times x 1000)) as [n|] eqn:Hn; [|done].
  injection Ha as <-. exists n. split_and!; [done|done|].
  intros q Hq. by apply (thousandths_sign x).
Qed.

Lemma thousandths_raises (x : number) (e : exn) :
  thousandths x = Raise e → e = ValueError ∨ e = OverflowError.
Proof.
  unfold thousandths, int_of_number, to_int.
  destruct (times x 1000) as [z|[s|s| |s m k]]; try done;
    intros [= <-]; [by right|by left].
Qed.

Lemma convert_to_nzt_raises (date_str : string) (e : exn) :
  convert_to_nzt strptime strftime date_str = Raise e → e = OverflowError.
Proof.
  unfold convert_to_nzt. destruct (strptime _ _); [|done].
  unfold add_timedelta. destruct (_ && _); [done|]. by intros [= <-].
Qed.

Lemma zipped_keeps_sign (ynab_account_id : string) (rows : list txn_row) :
  ∀ (amount : list string) (date : list (option string)),
    Forall2 (λ a row, thousandths (txn_amount row) = Ok a) amount rows →
    Forall2 (λ d row, convert_to_nzt strptime strftime (txn_date row) = Ok d)
            date rows →
    Forall2 keeps_sign
      (zip_with
         (λ row cols,
            mk_ynab_txn (txn_id row) cols.2 cols.1.2 (txn_description row)
              cols.1.1 "cleared" (txn_id row) "red" ynab_account_id)
         rows (zip (zip (get_payee_name <$> rows) amount) date))
      rows.
Proof.
  induction rows as [|row rows IH]; intros amount date Hamount Hdate.
  - constructor.
  - inversion Hamount as [|a ? amount' ? Ha Hamount']; subst.
    inversion Hdate as [|d ? date' ? Hd Hdate']; subst.
    cbn [fmap list_fmap zip zip_with]. constructor; [|by apply IH].
    split; [done|]. by apply thousandths_keeps.
Qed.

Lemma clean_txn_for_ynab_keeps_sign (rows : list txn_row) (ynab_account_id : string) :
  match clean_txn_for_ynab strptime strftime rows ynab_account_id with
  | Ok out => Forall2 keeps_sign out rows
  | Raise e => e = ValueError ∨ e = OverflowError
  end.
Proof.
  unfold clean_txn_for_ynab.
  destruct (column (λ row, thousandths (txn_amount row)) rows)
    as [amount|e] eqn:Hamount; cbn [mbind result_bind].
  - destruct (column (λ row, convert_to_nzt strptime strftime (txn_date row)) rows)
      as [date|e] eqn:Hdate; cbn [mbind result_bind].
    + apply column_Ok in Hamount, Hdate. by apply zipped_keeps_sign.
    + apply column_Raise in Hdate as (row & _ & Hrow).
      right. by apply convert_to_nzt_raises in Hrow.
  - apply column_Raise in Hamount as (row & _ & Hrow).
    by apply thousandths_raises in Hrow.
Qed.

End import.

(** C8, as amended. For the Actual backend, every [reconcile_transaction]
    call that [load_transactions_into_actual] issues carries the opposite of
    the amount of the source row it imports: the calls go, in order, to
    rows whose date reads as year-month-day, and to every such row when
    [actual.session()] can be called. For the YNAB backend,
    [clean_txn_for_ynab] keeps the sign of the source amount and converts it
    to thousandths, [int(amount * 1000)] in float arithmetic. *)
Theorem amount_sign_by_backend {ledger session_t reconciled : Type}
    (session : ledger → result session_t)
    (changed : reconciled → bool)
    (reconcile_transaction :
       ledger → session_t → akahu_to_budget.reconcile_call reconciled
       → ledger * result reconciled)
    (strptime : string → string → option datetime)
    (strftime : datetime → string → string)
    (rows : list txn_row) (mapping_entry : entry) (actual : ledger)
    (now : datetime) (actual_account_id : value) (ynab_account_id : string) :
  rows ≠ [] →
  mapping_entry !! "actual_account_id" = Some actual_account_id →
  Forall (λ row, valid_number (txn_amount row)) rows →
  (∃ l calls reconciled_rows,
      akahu_to_budget.load_transactions_into_actual session changed
        reconcile_transaction strptime strftime (Some rows) mapping_entry
        actual now
      = Ok (<["actual_synced_datetime" :=
                VStr (strftime now "%Y-%m-%dT%H:%M:%SZ")]> mapping_entry,
            l, calls)
      ∧ Forall2 (negates actual_account_id) calls reconciled_rows
      ∧ reconciled_rows `sublist_of` filter (dated strptime) rows
      ∧ (session_opens session → reconciled_rows = filter (dated strptime) rows))
  ∧ match akahu_to_budget.clean_txn_for_ynab strptime strftime rows
            ynab_account_id with
    | Ok out => Forall2 keeps_sign out rows
    | Raise e => e = ValueError ∨ e = OverflowError
    end.
Proof.
  intros Hrows Hid Hvalid. split.
  - by apply load_transactions_into_actual_calls.
  - apply clean_txn_for_ynab_keeps_sign.
Qed.

(** C8 as stated fails for YNAB: a deposit of 2500 is prepared as
    2500000 thousandths, where its negation would give -2500000. *)
Lemma ynab_amount_not_negated :
  akahu_to_budget.clean_txn_for_ynab ref_strptime ref_strftime
    [mk_txn "trans_2" "2024-06-11T02:00:00Z" "Salary"
       (PyFloat (float_literal 2500 0)) None]
    "ynab_acc_1"
  = Ok [akahu_to_budget.mk_ynab_txn "trans_2" (Some "2024-06-11") "2500000"
          "Salary" "Salary" "cleared" "trans_2" "red" "ynab_acc_1"]
  ∧ akahu_to_budget.thousandths (times (PyFloat (float_literal 2500 0)) (-1))
    = Ok "-2500000".
Proof. split; by vm_compute. Qed.

(** The thousandths are those of the float product: 2.01 gives 2009. *)
Example thousandths_of_float :
  akahu_to_budget.thousandths (PyFloat (float_literal 201 2)) = Ok "2009"
  ∧ akahu_to_budget.thousandths (PyInt 2) = Ok "2000".
Proof. split; by vm_compute. Qed.

(** A ledger that counts the transactions reconciled into it and accepts
    every one as a change, a session that opens, and a clock reading, to
    run the import. *)
Definition open_session (l : nat) : result () := Ok ().

Definition accepting_ledger (l : nat) (opened : ())
    (call : akahu_to_budget.reconcile_call bool) : nat * result bool :=
  (S l, Ok true).

Definition noon_15_june : datetime := mk_datetime (mk_date 2024 6 15) 12 0 0 0.

Lemma amount_sign_by_backend_witness :
  ∃ l calls,
    akahu_to_budget.load_transactions_into_actual open_session id
      accepting_ledger ref_strptime ref_strftime
      (Some [txn_coffee; txn_salary]) entry_a1_t1 0%nat noon_15_june
    = Ok (<["actual_synced_datetime" := VStr "2024-06-15T12:00:00Z"]> entry_a1_t1,
          l, calls)
    ∧ Forall2 (negates (VStr "t1")) calls [txn_coffee; txn_salary].
Proof.
  destruct (amount_sign_by_backend open_session id accepting_ledger
              ref_strptime ref_strftime [txn_coffee; txn_salary] entry_a1_t1
              0%nat noon_15_june (VStr "t1") "ynab_acc_1")
    as [(l & calls & done_rows & Hrun & Hcalls & _ & Hall) _].
  - discriminate.
  - reflexivity.
  - repeat constructor; by vm_compute.
  - exists l, calls. split; [exact Hrun|].
    rewrite Hall in Hcalls; [exact Hcalls|]. intros l0. by exists ().
Defined.

(** A failed request after served pages: [get_all_akahu] of
    akahu_to_budget.py returns the rows of the pages fetched before it,
    which are not empty. *)
Lemma get_all_akahu_partial (serve : provider) (fuel : nat)
    (akahu_account_id : string) (last_reconciled_at : option string)
    (ps : list (list txn_row * string)) :
  let start := akahu_to_budget.start_param last_reconciled_at in
  let failed_request :=
    mk_request akahu_account_id start (final_cursor None ps) in
  ps ≠ [] →
  served serve akahu_account_id start 0 None ps →
  akahu_to_budget.try_get (serve (length ps) failed_request) = None →
  (length ps < fuel)%nat →
  akahu_to_budget.get_all_akahu serve fuel akahu_account_id last_reconciled_at
  = Some (requests_of akahu_account_id start None ps ++ [failed_request],
          Ok (Some (concat ps.*1)))
  ∧ concat ps.*1 ≠ [].
Proof.
  intros start failed_request Hps Hserved Hfail Hfuel. split.
  - unfold akahu_to_budget.get_all_akahu. fold start.
    destruct (paginate_pages serve akahu_account_id start ps
                (fuel - length ps) 0
                (mk_request akahu_account_id start None) "first time" None
                None []) as (qp' & nc' & Hqp' & Hpag); [done|done|].
    replace (length ps + (fuel - length ps))%nat with fuel in Hpag by lia.
    rewrite Hpag.
    destruct (fuel - length ps)%nat as [|fuel'] eqn:Hf; [lia|].
    rewrite (paginate_failure serve akahu_account_id start fuel'
               (0 + length ps) qp' nc' (final_cursor None ps)); [|done|done].
    destruct ps as [|p ps]; [done|]. by rewrite fetched_None.
  - destruct ps as [|p ps]; [done|]. destruct Hserved as (Hp & _).
    simpl. by destruct p as [[|row items] c].
Qed.

(** ** The synchronisation loop *)

Section synchronisation.
Import akahu_to_budget.

Context {ledger session_t account_t : Type}.
Variable session : ledger → result session_t.
Variable enter : session_t → result session_t.
Variable get_account : session_t → value → result (option account_t).
Variable balance_current : account_t → option Z.
Variable create_transaction :
  ledger → session_t → create_call → ledger * result ().
Variable isoformat : datetime → string.
Variable str_div100 : Z → result string.
Variable serve : nat → provider.
Variable post : nat → ynab_post → ynab_reply.
Variable clock : nat → datetime * datetime.
Variable format_id : value → string.
Variable encode_param : value → string.
Variable tries : nat.

(** What [load_existing_mapping] returns from a file holds a dictionary. *)
Lemma load_existing_mapping_dict (data : document) (g : globals) :
  load_existing_mapping (Some data) = Ok g →
  ∃ d, g_mapping_list g = MappingDict d.
Proof.
  unfold load_existing_mapping.
  destruct (mapping_of_document (doc_mapping data)) as [d|]; [|done].
  intros [= <-]. by exists d.
Qed.

(** C10. The first half holds: when the provider has served at least one
    page and the request for the next page fails, [get_all_akahu] returns
    the rows of the pages fetched so far, which are not empty. The second
    half does not: [main_loop], the caller, imports nothing and advances no
    checkpoint. On the mapping that [load_existing_mapping] read from a
    file with at least one entry, it raises [TypeError] before any request.
    On a list holding the entry, On Budget and with its Actual ids, it
    fetches, then raises [TypeError] at the call of
    [load_transactions_into_actual]: the ledger is as it was, no
    transaction was created, and nothing was saved. *)
Theorem partial_fetch_never_imported
    (akahu_account_id : string) (ps : list (list txn_row * string))
    (mapping_entry : entry) (actual : ledger)
    (actual_account_id actual_budget_id : value)
    (akahu_accounts actual_accounts ynab_accounts : list account) :
  let last_reconciled_at :=
    checkpoint encode_param
      (default (VStr "2024-01-01T00:00:00Z")
               (mapping_entry !! "actual_synced_datetime")) in
  let start := start_param last_reconciled_at in
  let failed_request :=
    mk_request akahu_account_id start (final_cursor None ps) in
  let requests :=
    requests_of akahu_account_id start None ps ++ [failed_request] in
  ps ≠ [] →
  served (serve 0) akahu_account_id start 0 None ps →
  try_get (serve 0 (length ps) failed_request) = None →
  (length ps < tries)%nat →
  mapping_entry !! "akahu_id" = Some (VStr akahu_account_id) →
  mapping_entry !! "actual_account_id" = Some actual_account_id →
  mapping_entry !! "actual_budget_id" = Some actual_budget_id →
  value_truthy actual_account_id = true →
  value_truthy actual_budget_id = true →
  default (VStr "On Budget") (mapping_entry !! "account_type")
  = VStr "On Budget" →
  (get_all_akahu (serve 0) tries akahu_account_id last_reconciled_at
   = Some (requests, Ok (Some (concat ps.*1)))
   ∧ concat ps.*1 ≠ [])
  ∧ main_loop session enter get_account balance_current create_transaction
      isoformat str_div100 serve post clock format_id encode_param tries
      (mk_globals akahu_accounts actual_accounts ynab_accounts
         (MappingList [mapping_entry]))
      actual
    = Some (actual, mk_effects [requests] [] [], Raise TypeError)
  ∧ ∀ data g,
      load_existing_mapping (Some data) = Ok g →
      g_mapping_list g ≠ MappingDict ∅ →
      main_loop session enter get_account balance_current create_transaction
        isoformat str_div100 serve post clock format_id encode_param tries
        g actual
      = Some (actual, no_effects, Raise TypeError).
Proof.
  intros last_reconciled_at start failed_request requests Hps Hserved Hfail
    Htries Hid Haccount Hbudget Htrue_account Htrue_budget Htype.
  destruct (get_all_akahu_partial (serve 0) tries akahu_account_id
              last_reconciled_at ps Hps Hserved Hfail Htries)
    as [Hfetch Hrows].
  split_and!; [done|done| |].
  - unfold main_loop. cbn [g_mapping_list sync_entries].
    unfold sync_entry, item. rewrite Hid, Haccount, Htype.
    rewrite bool_decide_eq_false_2 by done.
    rewrite bool_decide_eq_true_2 by done.
    cbn [url_id]. fold last_reconciled_at. rewrite Hfetch.
    destruct (concat ps.*1) as [|row rows] eqn:Hconcat; [done|].
    unfold get_truthy. rewrite Hbudget, Haccount, Htrue_budget, Htrue_account.
    done.
  - intros data g Hload Hne.
    destruct (load_existing_mapping_dict data g Hload) as [d Hd].
    unfold main_loop. rewrite Hd. rewrite bool_decide_eq_false_2; [done|].
    intros ->. by rewrite Hd in Hne.
Qed.

(** The loop on the state loaded when there is no mapping file: nothing to
    do, and [save_updated_mapping] raises [AttributeError]. *)
Lemma main_loop_without_file (actual : ledger) (g : globals) :
  load_existing_mapping None = Ok g →
  main_loop session enter get_account balance_current create_transaction
    isoformat str_div100 serve post clock format_id encode_param tries
    g actual
  = Some (actual, no_effects, Raise AttributeError).
Proof. by intros [= <-]. Qed.

End synchronisation.

(** A provider whose second page cannot be fetched. *)
Definition second_page_fails : provider := λ n r,
  match req_cursor r with
  | None => Response 200 (mk_page (Some [txn_coffee; txn_salary])
                            (CursorDict (Some (Some "c1"))))
  | Some _ => Response 503 (mk_page None CursorMissing)
  end.

(** An Actual Budget with one account, [t1], whose balance is 120000 minor
    units; the ledger counts the transactions written. Two sessions: one
    that opens, and the attribute that is not callable. *)
Definition closed_session (l : nat) : result () := Raise TypeError.

Definition entered (opened : ()) : result () := Ok opened.

Definition account_t1 (opened : ()) (account_id : value) : result (option Z) :=
  if bool_decide (account_id = VStr "t1") then Ok (Some 120000) else Ok None.

Definition accepting_create (l : nat) (opened : ())
    (call : akahu_to_budget.create_call) : nat * result () := (S l, Ok ()).

Definition ref_str_div100 (n : Z) : result string :=
  Ok (pretty (n `quot` 100) +:+ "." +:+ pad 2 (Z.abs n `rem` 100)).

Definition unreachable_ynab (p : akahu_to_budget.ynab_post)
    : akahu_to_budget.ynab_reply := akahu_to_budget.PostFailed.

(** The entry of account [a1], On Budget, with its Actual ids and a
    checkpoint. *)
Definition synced_entry : entry :=
  <["actual_budget_id" := VStr "b1"]>
  (<["actual_synced_datetime" := VStr "2024-06-08T12:00:00Z"]> entry_a1_t1).

Lemma partial_fetch_never_imported_witness :
  let run :=
    akahu_to_budget.main_loop open_session entered account_t1 Some
      accepting_create ref_isoformat ref_str_div100 (λ _, second_page_fails)
      (λ _, unreachable_ynab) (λ _, (noon_15_june, noon_15_june))
      (λ _, "") (λ _, "") 5 in
  akahu_to_budget.get_all_akahu second_page_fails 5 "a1"
    (Some "2024-06-08T12:00:00Z")
  = Some ([mk_request "a1" "2024-06-08T12:00:00Z" None;
           mk_request "a1" "2024-06-08T12:00:00Z" (Some "c1")],
          Ok (Some [txn_coffee; txn_salary]))
  ∧ run (akahu_to_budget.mk_globals [] [] [] (MappingList [synced_entry])) 0%nat
    = Some (0%nat,
            akahu_to_budget.mk_effects
              [[mk_request "a1" "2024-06-08T12:00:00Z" None;
                mk_request "a1" "2024-06-08T12:00:00Z" (Some "c1")]] [] [],
            Raise TypeError)
  ∧ run (akahu_to_budget.mk_globals [] [] []
           (MappingDict {["a1" := synced_entry]})) 0%nat
    = Some (0%nat, akahu_to_budget.no_effects, Raise TypeError).
Proof.
  intros run.
  destruct (partial_fetch_never_imported open_session entered account_t1 Some
              accepting_create ref_isoformat ref_str_div100
              (λ _, second_page_fails) (λ _, unreachable_ynab)
              (λ _, (noon_15_june, noon_15_june)) (λ _, "") (λ _, "") 5
              "a1" [([txn_coffee; txn_salary], "c1")] synced_entry 0%nat
              (VStr "t1") (VStr "b1") [] [] [])
    as ([Hfetch _] & Hlist & Hdict).
  - discriminate.
  - simpl. split_and!; done.
  - reflexivity.
  - simpl; lia.
  - reflexivity.
  - reflexivity.
  - reflexivity.
  - reflexivity.
  - reflexivity.
  - reflexivity.
  - split_and!; [exact Hfetch|exact Hlist|].
    apply (Hdict (mk_document (Some []) (Some []) (Some [])
                    (Some (MappingList [synced_entry])))).
    + reflexivity.
    + discriminate.
Defined.

(** ** Balance reconciliation *)

Section tracking.
Import akahu_to_budget.

Context {ledger session_t account_t : Type}.
Variable session : ledger → result session_t.
Variable enter : session_t → result session_t.
Variable get_account : session_t → value → result (option account_t).
Variable balance_current : account_t → option Z.
Variable create_transaction :
  ledger → session_t → create_call → ledger * result ().
Variable isoformat : datetime → string.
Variable str_div100 : Z → result string.

(** C3. For an entry that names its accounts. When [actual.session()]
    raises, as it does on an object whose [session] is not callable, no
    balance is read and no transaction is created, whatever the balances.
    When it returns, the target balance is read and the notes can be
    written: the source balance in minor units is [round(balance * 100)]
    in float arithmetic; if it equals the target balance no transaction is
    created and the ledger is untouched; if they differ by [d] minor units,
    exactly one [create_transaction] call is issued, of amount [d / 100]
    (exact for fewer than 29 digits), dated with the first clock reading,
    with payee "Balance Adjustment" and an imported id made of
    "adjustment_" and the ISO form of the second clock reading. *)
Theorem tracking_balance_adjustment (mapping_entry : entry) (actual : ledger)
    (now_date now_id : datetime)
    (akahu_id actual_account_id akahu_name actual_account_name : value) :
  mapping_entry !! "akahu_id" = Some akahu_id →
  mapping_entry !! "actual_account_id" = Some actual_account_id →
  mapping_entry !! "akahu_name" = Some akahu_name →
  mapping_entry !! "actual_account_name" = Some actual_account_name →
  (∀ e, session actual = Raise e →
        handle_tracking_account_actual session enter get_account
          balance_current create_transaction isoformat str_div100
          mapping_entry actual now_date now_id
        = Ok (actual, []))
  ∧ (∀ opened balance akahu_balance actual_balance,
       session actual = Ok opened →
       mapping_entry !! "akahu_balance" = Some (VNum balance) →
       round_number (times balance 100) = Ok akahu_balance →
       get_actual_balance session enter get_account balance_current actual
         actual_account_id = Some actual_balance →
       ∃ l calls,
         handle_tracking_account_actual session enter get_account
           balance_current create_transaction isoformat str_div100
           mapping_entry actual now_date now_id
         = Ok (l, calls)
         ∧ (akahu_balance = actual_balance → calls = [] ∧ l = actual)
         ∧ (akahu_balance ≠ actual_balance →
            ∀ old new,
              str_div100 actual_balance = Ok old →
              str_div100 akahu_balance = Ok new →
              ∃ call,
                calls = [call]
                ∧ l = (create_transaction actual opened call).1
                ∧ cc_amount call = decimal_div100 (akahu_balance - actual_balance)
                ∧ (Z.abs (akahu_balance - actual_balance) < 10 ^ 28 →
                   cc_amount call = (akahu_balance - actual_balance) # 100)
                ∧ cc_date call = dt_date now_date
                ∧ cc_account call = actual_account_id
                ∧ cc_payee call = "Balance Adjustment"
                ∧ cc_imported_payee call = "Balance Adjustment"
                ∧ cc_cleared call = true
                ∧ cc_imported_id call = "adjustment_" +:+ isoformat now_id
                ∧ cc_notes call
                  = "Adjusted from " +:+ old +:+ " to " +:+ new
                    +:+ " to reconcile tracking account.")).
Proof.
  intros H1 H2 H3 H4.
  unfold handle_tracking_account_actual, item.
  rewrite H1, H2, H3, H4. cbn [mbind result_bind]. split.
  - intros e Hclosed. f_equal. unfold adjust_balance.
    destruct (akahu_balance_of mapping_entry) as [akahu_balance|]; [|done].
    unfold get_actual_balance. by rewrite Hclosed.
  - intros opened balance akahu_balance actual_balance Hopen Hbalance Hround
      Htarget.
    unfold adjust_balance, akahu_balance_of, item.
    rewrite Hbalance. cbn [mbind result_bind]. rewrite Hround, Htarget.
    case_bool_decide as Hdiff.
    + destruct (str_div100 actual_balance) as [old|] eqn:Hold;
        [destruct (str_div100 akahu_balance) as [new|] eqn:Hnew|].
      * rewrite Hopen. eexists _, [_]. split; [reflexivity|].
        split; [done|]. intros _ old' new' [= <-] [= <-].
        eexists. split; [reflexivity|].
        split_and!; try reflexivity.
        intros Hsmall. by apply decimal_div100_exact.
      * exists actual, []. split; [done|]. split; [done|].
        intros _ old' new' _ Hnew'. done.
      * exists actual, []. split; [done|]. split; [done|].
        intros _ old' new' Hold'. done.
    + exists actual, []. split; [done|]. split; [done|]. intros Hne.
      by destruct Hdiff.
Qed.

End tracking.

Definition tracking_entry : entry :=
  <["akahu_balance" := VNum (PyFloat (float_literal 123456 2))]>
  (<["account_type" := VStr "Tracking"]> entry_a1_t1).

Lemma tracking_balance_adjustment_witness :
  akahu_to_budget.handle_tracking_account_actual closed_session entered
    account_t1 Some accepting_create ref_isoformat ref_str_div100
    tracking_entry 0%nat noon_15_june noon_15_june
  = Ok (0%nat, [])
  ∧ ∃ l call,
      akahu_to_budget.handle_tracking_account_actual open_session entered
        account_t1 Some accepting_create ref_isoformat ref_str_div100
        tracking_entry 0%nat noon_15_june noon_15_june
      = Ok (l, [call])
      ∧ akahu_to_budget.cc_amount call = 3456 # 100
      ∧ akahu_to_budget.cc_imported_id call = "adjustment_2024-06-15T12:00:00".
Proof.
  split.
  - destruct (tracking_balance_adjustment closed_session entered account_t1
                Some accepting_create ref_isoformat ref_str_div100
                tracking_entry 0%nat noon_15_june noon_15_june
                (VStr "a1") (VStr "t1") (VStr "Everyday") (VStr "Checking"))
      as [Hclosed _]; [reflexivity..|].
    by apply (Hclosed TypeError).
  - destruct (tracking_balance_adjustment open_session entered account_t1
                Some accepting_create ref_isoformat ref_str_div100
                tracking_entry 0%nat noon_15_june noon_15_june
                (VStr "a1") (VStr "t1") (VStr "Everyday") (VStr "Checking"))
      as [_ Hopen]; [reflexivity..|].
    destruct (Hopen () (PyFloat (float_literal 123456 2)) 123456 120000)
      as (l & calls & Hrun & _ & Hdiff); [reflexivity..|].
    destruct (Hdiff ltac:(done) "1200.00" "1234.56")
      as (call & -> & _ & _ & Hamount & _ & _ & _ & _ & _ & Hid & _);
      [reflexivity..|].
    exists l, call. split; [exact Hrun|]. split; [|exact Hid].
    apply Hamount. by vm_compute.
Defined.

(** The source balance is rounded as a float: 1.015 is 101 minor units,
    not 102, and an account holding 102 is adjusted by -0.01. An equal
    balance creates nothing. *)
Example tracking_balance_rounding :
  round_number (times (PyFloat (float_literal 1015 3)) 100) = Ok 101
  ∧ akahu_to_budget.handle_tracking_account_actual open_session entered
      (λ _ _, Ok (Some 102)) Some accepting_create ref_isoformat
      ref_str_div100
      (<["akahu_balance" := VNum (PyFloat (float_literal 1015 3))]> tracking_entry)
      0%nat noon_15_june noon_15_june
    = Ok (1%nat,
          [akahu_to_budget.mk_create_call (mk_date 2024 6 15) (VStr "t1")
             "Balance Adjustment"
             "Adjusted from 1.02 to 1.01 to reconcile tracking account."
             (-1 # 100) "adjustment_2024-06-15T12:00:00" true
             "Balance Adjustment"]).
Proof. split; by vm_compute. Qed.

Example tracking_balance_equal :
  akahu_to_budget.handle_tracking_account_actual open_session entered
    account_t1 Some accepting_create ref_isoformat ref_str_div100
    (<["akahu_balance" := VNum (PyInt 1200)]> tracking_entry) 0%nat
    noon_15_june noon_15_june
  = Ok (0%nat, []).
Proof. reflexivity. Qed.


(** ** Webhook *)

Section webhook_properties.
Import akahu_to_budget.

Context {public_key_t : Type}.
Variable load_pem_public_key : string → result public_key_t.
Variable b64decode_str : string → result string.
Variable verify : public_key_t → string → string → result ().
Variable get_json : string → result (option webhook_body).
Variable open_budget : result ().

Abbreviation receive :=
  (receive_transaction load_pem_public_key b64decode_str verify get_json
     open_budget).
Abbreviation check :=
  (verify_signature load_pem_public_key b64decode_str verify).

Lemma verify_signature_raises public_key signature request_body :
  check public_key signature request_body
  = (key ← load_pem_public_key public_key;
     sig ← b64decode b64decode_str signature;
     verify key sig request_body).
Proof.
  unfold verify_signature.
  by destruct (_ ≫= _) as [?|[]].
Qed.

(** A request that fails verification never reaches the importer; it is
    answered with 400 exactly when the failure is [InvalidSignature], and
    otherwise the exception leaves the view. *)
Lemma rejected_request public_key signature request_body e :
  check public_key signature request_body = Raise e →
  (receive public_key signature request_body).2 = false
  ∧ (e = InvalidSignature →
     (receive public_key signature request_body).1
     = Responded 400 "invalid signature")
  ∧ (e ≠ InvalidSignature →
     (receive public_key signature request_body).1 = Unhandled e).
Proof.
  intros Hfail. unfold receive_transaction. rewrite Hfail.
  destruct e; split_and!; try done; by intros [].
Qed.

(** The importer is not invoked for any request. *)
Lemma importer_never_invoked public_key signature request_body :
  (receive public_key signature request_body).2 = false.
Proof.
  unfold receive_transaction.
  destruct (check _ _ _) as [[]|[]]; try done.
  destruct (get_json _) as [[data|]|]; try done.
  case_bool_decide; [|done]. by destruct open_budget.
Qed.

(** C1 on requests that cannot be decoded. With a configured key that
    loads: a request without the signature header, and a request whose
    header does not decode, are not answered with 400: the [TypeError], or
    the decoding error, leaves the view. A request whose signature decodes
    and does not match is answered with 400 and the status "invalid
    signature". None of them reaches the importer. *)
Theorem undecodable_signature_not_answered
    (public_key request_body : string) (key : public_key_t) :
  load_pem_public_key public_key = Ok key →
  receive_transaction load_pem_public_key b64decode_str verify get_json
    open_budget public_key None request_body
  = (Unhandled TypeError, false)
  ∧ (∀ signature e,
       b64decode_str signature = Raise e → e ≠ InvalidSignature →
       receive_transaction load_pem_public_key b64decode_str verify get_json
         open_budget public_key (Some signature) request_body
       = (Unhandled e, false))
  ∧ (∀ signature sig,
       b64decode_str signature = Ok sig →
       verify key sig request_body = Raise InvalidSignature →
       receive_transaction load_pem_public_key b64decode_str verify get_json
         open_budget public_key (Some signature) request_body
       = (Responded 400 "invalid signature", false)).
Proof.
  intros Hkey. split_and!.
  - unfold receive_transaction, verify_signature. by rewrite Hkey.
  - intros signature e He Hne.
    unfold receive_transaction, verify_signature. rewrite Hkey. simpl.
    rewrite He. simpl. by destruct e.
  - intros signature sig Hsig Hverify.
    unfold receive_transaction, verify_signature. rewrite Hkey. simpl.
    rewrite Hsig. simpl. by rewrite Hverify.
Qed.

End webhook_properties.

(** Stand-ins for the cryptography collaborators, to run the view: any key
    loads, the header decodes to itself, and the signature of a body is the
    body between brackets. *)
Definition toy_load_key (pem : string) : result string := Ok pem.
Definition toy_b64decode (s : string) : result string :=
  if bool_decide (s = "") then Raise BinasciiError else Ok s.
Definition toy_verify (key sig body : string) : result () :=
  if bool_decide (sig = "[" +:+ body +:+ "]") then Ok ()
  else Raise InvalidSignature.
Definition no_json (body : string) : result (option akahu_to_budget.webhook_body) :=
  Ok None.

Lemma undecodable_signature_not_answered_witness :
  akahu_to_budget.receive_transaction toy_load_key toy_b64decode toy_verify
    no_json (Ok ()) "akahu-public-key" None "{}"
  = (akahu_to_budget.Unhandled TypeError, false)
  ∧ akahu_to_budget.receive_transaction toy_load_key toy_b64decode toy_verify
      no_json (Ok ()) "akahu-public-key" (Some "forged") "{}"
    = (akahu_to_budget.Responded 400 "invalid signature", false).
Proof.
  destruct (undecodable_signature_not_answered toy_load_key toy_b64decode
              toy_verify no_json (Ok ()) "akahu-public-key" "{}"
              "akahu-public-key" eq_refl) as (Hmissing & _ & Hmismatch).
  split; [exact Hmissing|].
  apply (Hmismatch "forged" "forged"); reflexivity.
Defined.

(** ** Interactive matching *)

Section matching.
Import akahu_budget_mapping.

Variable py_int : string → option Z.
Variable py_strip : string → string.
Variable chat_completion : string → result string.
Variable fuzz_score : string → string → Z.

(** No target account serves two Akahu accounts under [key]. *)
Definition target_unique (key : string) (m : gmap string entry) : Prop :=
  ∀ k1 k2 e1 e2 t,
    m !! k1 = Some e1 → m !! k2 = Some e2 →
    e1 !! key = Some (VStr t) → e2 !! key = Some (VStr t) → k1 = k2.

Lemma find_seq_elem chosen ts a :
  find_seq chosen ts = Ok (Some a) → a ∈ ts.
Proof.
  induction ts as [|b ts IH]; simpl; [done|].
  destruct (seq_of b) as [n|]; simpl; [|done].
  destruct (n =? chosen).
  - intros [= ->]. by left.
  - intros H. right. by apply IH.
Qed.

Lemma validate_user_input_Some user_input ts m key idx :
  validate_user_input py_int user_input ts m key = Ok (Some idx) →
  ∃ a, find_seq idx ts = Ok (Some a) ∧ any_mapped (acc_id a) key m = false.
Proof.
  unfold validate_user_input.
  destruct (py_int user_input) as [chosen|]; [|done].
  destruct (find_seq chosen ts) as [[a|]|] eqn:Hfind; simpl; try done.
  destruct (any_mapped (acc_id a) key m) eqn:Hmapped; simpl; [done|].
  intros [= <-]. eauto.
Qed.

(** What one iteration does to the mapping: nothing, or it stores a fresh
    entry for an Akahu account that had none under [key], naming a target
    that no entry names. *)
Lemma match_one_cases use_openai ts key name m akahu answers m' answers' :
  match_one py_int py_strip chat_completion fuzz_score use_openai ts key name
    m akahu answers = Ok (m', answers') →
  m' = m
  ∨ (already_matched (acc_id akahu) key m = false
     ∧ ∃ sel matched_date,
         sel ∈ ts
         ∧ (∀ k e, m !! k = Some e → e !! key ≠ Some (VStr (acc_id sel)))
         ∧ m' = <[acc_id akahu :=
                    new_entry key name sel (acc_id akahu) (acc_name akahu)
                      matched_date]> m).
Proof.
  unfold match_one.
  destruct (already_matched (acc_id akahu) key m) eqn:Hal.
  { intros [= <- <-]. by left. }
  destruct (if use_openai then _ else _) as [suggested|]; simpl; [|done].
  destruct (connection_of akahu); simpl; [|done].
  destruct (display_targets ts); simpl; [|done].
  destruct (match suggested with Some _ => _ | None => _ end); simpl; [|done].
  destruct answers as [|[user_input matched_date] answers]; [done|].
  destruct (validate_user_input py_int user_input ts m key)
    as [[idx|]|] eqn:Hval; simpl; try done.
  - apply validate_user_input_Some in Hval as (tgt & Hfind & Hun).
    unfold seq_to_acct. rewrite Hfind. simpl. intros [= <- <-]. right.
    split; [done|]. exists tgt, matched_date. split_and!; [|by apply any_mapped_false|done].
    by eapply find_seq_elem.
  - intros [= <- <-]. by left.
Qed.

Lemma new_entry_key key name sel akahu_id akahu_name matched_date :
  new_entry key name sel akahu_id akahu_name matched_date !! key
  = Some (VStr (acc_id sel)).
Proof. unfold new_entry. by rewrite lookup_insert_eq. Qed.

Lemma already_matched_false k key (m : gmap string entry) e :
  already_matched k key m = false → m !! k = Some e → e !! key = None.
Proof.
  unfold already_matched. intros Hal Hk. rewrite Hk in Hal.
  apply bool_decide_eq_false in Hal. by apply eq_None_not_Some.
Qed.

(** A property of mappings that every iteration keeps is kept by the
    whole loop. *)
Lemma match_loop_invariant (P : gmap string entry → Prop)
    use_openai ts key name :
  (∀ m akahu answers m' answers',
      P m →
      match_one py_int py_strip chat_completion fuzz_score use_openai ts key
        name m akahu answers = Ok (m', answers') → P m') →
  ∀ akahu_accounts m answers m',
    P m →
    match_loop py_int py_strip chat_completion fuzz_score use_openai ts key
      name m akahu_accounts answers = Ok m' → P m'.
Proof.
  intros Hstep akahu_accounts.
  induction akahu_accounts as [|akahu rest IH]; intros m answers m' HP Hrun.
  - simpl in Hrun. by injection Hrun as <-.
  - simpl in Hrun.
    destruct (match_one _ _ _ _ _ _ _ _ _ _ _) as [[m1 answers1]|] eqn:Hone;
      simpl in Hrun; [|done].
    eapply IH; [|done]. by eapply Hstep.
Qed.

(** Matching keeps the rule that a target account serves at most one Akahu
    account: when no two entries name the same target under the key of the
    backend, none do after [match_accounts]. *)
Theorem match_accounts_keeps_targets_unique
    (m : gmap string entry) (akahu_accounts target_accounts : list account)
    (account_type : string) (use_openai : bool)
    (answers : list (string * string)) (key name : string)
    (m' : gmap string entry) :
  target_keys account_type = Ok (key, name) →
  target_unique key m →
  match_accounts py_int py_strip chat_completion fuzz_score m akahu_accounts
    target_accounts account_type use_openai answers = Ok m' →
  target_unique key m'.
Proof.
  intros Hkeys Huniq. unfold match_accounts. rewrite Hkeys. simpl.
  apply match_loop_invariant; [|done].
  clear. intros m akahu answers m' answers' Huniq Hone.
  apply match_one_cases in Hone
    as [->|(Hal & sel & matched_date & _ & Hun & ->)]; [done|].
  intros k1 k2 e1 e2 t H1 H2 Ht1 Ht2.
  destruct (decide (k1 = acc_id akahu)) as [->|Hne1],
           (decide (k2 = acc_id akahu)) as [->|Hne2]; [done|..].
  - rewrite lookup_insert_eq in H1. injection H1 as <-.
    rewrite lookup_insert_ne in H2 by done.
    rewrite new_entry_key in Ht1. injection Ht1 as <-.
    by destruct (Hun k2 e2 H2).
  - rewrite lookup_insert_eq in H2. injection H2 as <-.
    rewrite lookup_insert_ne in H1 by done.
    rewrite new_entry_key in Ht2. injection Ht2 as <-.
    by destruct (Hun k1 e1 H1).
  - rewrite lookup_insert_ne in H1, H2 by done. by eapply Huniq.
Qed.

(** Matching is resumable: an entry that already has the key of the
    backend is left exactly as it is, and so is every entry of an Akahu
    account that is not in the list being matched. *)
Theorem match_accounts_resumes
    (m : gmap string entry) (akahu_accounts target_accounts : list account)
    (account_type : string) (use_openai : bool)
    (answers : list (string * string)) (key name : string)
    (m' : gmap string entry) :
  target_keys account_type = Ok (key, name) →
  match_accounts py_int py_strip chat_completion fuzz_score m akahu_accounts
    target_accounts account_type use_openai answers = Ok m' →
  (∀ k e, m !! k = Some e → is_Some (e !! key) → m' !! k = Some e)
  ∧ (∀ k, k ∉ acc_id <$> akahu_accounts → m' !! k = m !! k).
Proof.
  intros Hkeys. unfold match_accounts. rewrite Hkeys. simpl.
  generalize (number_targets target_accounts). intros ts. split.
  - revert H. apply (match_loop_invariant
      (λ m', ∀ k e, m !! k = Some e → is_Some (e !! key) → m' !! k = Some e));
      [|done].
    intros m0 akahu answers0 m1 answers1 Hinv Hone k e Hk Hkey.
    apply match_one_cases in Hone
      as [->|(Hal & sel & matched_date & _ & _ & ->)]; [by apply Hinv|].
    destruct (decide (k = acc_id akahu)) as [->|Hne].
    + rewrite (already_matched_false _ _ _ _ Hal (Hinv _ _ Hk Hkey)) in Hkey.
      by destruct Hkey.
    + rewrite lookup_insert_ne by done. by apply Hinv.
  - revert m answers H.
    induction akahu_accounts as [|akahu rest IH]; intros m answers Hrun k Hk.
    + simpl in Hrun. by injection Hrun as <-.
    + simpl in Hrun.
      destruct (match_one _ _ _ _ _ _ _ _ _ _ _) as [[m1 answers1]|] eqn:Hone;
        simpl in Hrun; [|done].
      rewrite (IH _ _ Hrun) by set_solver.
      apply match_one_cases in Hone
        as [->|(_ & sel & matched_date & _ & _ & ->)]; [done|].
      rewrite lookup_insert_ne; [done|]. set_solver.
Qed.

Lemma target_keys_cases account_type key name :
  target_keys account_type = Ok (key, name) →
  (key = "actual_account_id" ∧ name = "actual_account_name")
  ∨ (key = "ynab_account_id" ∧ name = "ynab_account_name").
Proof.
  unfold target_keys. repeat case_bool_decide; intros [= <- <-]; auto.
Qed.

Lemma new_entry_fields account_type key name sel akahu_id akahu_name matched_date :
  target_keys account_type = Ok (key, name) →
  let e := new_entry key name sel akahu_id akahu_name matched_date in
  e !! key = Some (VStr (acc_id sel))
  ∧ e !! name = Some (VStr (acc_name sel))
  ∧ e !! "akahu_id" = Some (VStr akahu_id)
  ∧ ∀ f, f ∉ [key; name; "akahu_id"; "akahu_name"; "matched_date"] →
         e !! f = None.
Proof.
  intros Hkeys e. subst e. unfold new_entry.
  apply target_keys_cases in Hkeys as [[-> ->]|[-> ->]].
  all: split_and!; [by simplify_map_eq..|].
  all: intros f Hf; rewrite !not_elem_of_cons in Hf;
       destruct Hf as (? & ? & ? & ? & ? & _);
       by rewrite !lookup_insert_ne, lookup_empty by done.
Qed.

(** An entry that [match_accounts] writes replaces what the mapping held
    for that Akahu account: every entry of the result is an entry of the
    mapping given, or it is a fresh entry for one of the Akahu accounts,
    naming one of the targets, and it has no field beyond its own five: the
    fields of the other backend, a checkpoint or an account type that the
    previous entry held are not carried over. *)
Theorem match_accounts_writes_fresh_entries
    (m : gmap string entry) (akahu_accounts target_accounts : list account)
    (account_type : string) (use_openai : bool)
    (answers : list (string * string)) (key name : string)
    (m' : gmap string entry) :
  target_keys account_type = Ok (key, name) →
  match_accounts py_int py_strip chat_completion fuzz_score m akahu_accounts
    target_accounts account_type use_openai answers = Ok m' →
  ∀ k e', m' !! k = Some e' →
    m !! k = Some e'
    ∨ (k ∈ acc_id <$> akahu_accounts
       ∧ (∃ sel, sel ∈ number_targets target_accounts
                 ∧ e' !! key = Some (VStr (acc_id sel))
                 ∧ e' !! name = Some (VStr (acc_name sel)))
       ∧ e' !! "akahu_id" = Some (VStr k)
       ∧ ∀ f, f ∉ [key; name; "akahu_id"; "akahu_name"; "matched_date"] →
              e' !! f = None).
Proof.
  intros Hkeys. unfold match_accounts. rewrite Hkeys. simpl.
  generalize (number_targets target_accounts). intros ts.
  revert m answers.
  induction akahu_accounts as [|akahu rest IH]; intros m answers Hrun k e' Hk.
  - simpl in Hrun. injection Hrun as <-. by left.
  - simpl in Hrun.
    destruct (match_one _ _ _ _ _ _ _ _ _ _ _) as [[m1 answers1]|] eqn:Hone;
      simpl in Hrun; [|done].
    destruct (IH _ _ Hrun k e' Hk) as [Hm1|(Hin & Hrest)].
    + apply match_one_cases in Hone
        as [->|(_ & sel & matched_date & Hsel & _ & ->)]; [by left|].
      destruct (decide (k = acc_id akahu)) as [->|Hne].
      * rewrite lookup_insert_eq in Hm1. injection Hm1 as <-. right.
        destruct (new_entry_fields account_type key name sel (acc_id akahu)
                    (acc_name akahu) matched_date Hkeys) as (H1 & H2 & H3 & H4).
        split_and!; [set_solver|by exists sel|done|done].
      * rewrite lookup_insert_ne in Hm1 by done. by left.
    + right. split; [set_solver|done].
Qed.

(** Matching keeps every entry filed under its own ['akahu_id'], which is
    what the state file needs to round-trip. *)
Theorem match_accounts_keeps_keyed
    (m : gmap string entry) (akahu_accounts target_accounts : list account)
    (account_type : string) (use_openai : bool)
    (answers : list (string * string)) (m' : gmap string entry) :
  keyed_by_akahu_id m →
  match_accounts py_int py_strip chat_completion fuzz_score m akahu_accounts
    target_accounts account_type use_openai answers = Ok m' →
  keyed_by_akahu_id m'.
Proof.
  intros Hkeyed. unfold match_accounts.
  destruct (target_keys account_type) as [[key name]|] eqn:Hkeys; [|done].
  simpl. apply match_loop_invariant; [|done].
  intros m0 akahu answers0 m1 answers1 Hinv Hone.
  apply match_one_cases in Hone
    as [->|(_ & sel & matched_date & _ & _ & ->)]; [done|].
  intros k e Hk. destruct (decide (k = acc_id akahu)) as [->|Hne].
  - rewrite lookup_insert_eq in Hk. injection Hk as <-.
    by destruct (new_entry_fields account_type key name sel (acc_id akahu)
                   (acc_name akahu) matched_date Hkeys) as (_ & _ & H3 & _).
  - rewrite lookup_insert_ne in Hk by done. by apply Hinv.
Qed.

End matching.

(** A run of the mapper on the Actual backend: Akahu account [a1] was
    matched with YNAB account [y1] before; the operator now answers 1 for
    [a1] and 2 for [a2]. *)
Definition entry_a1_y1 : entry :=
  akahu_budget_mapping.new_entry "ynab_account_id" "ynab_account_name"
    (plain_account "y1" "Everyday (YNAB)") "a1" "Everyday" "2024-04-01T10:00:00".

Definition akahu_a1 : account := mk_account "a1" "Everyday" (Some "Kiwibank") None None ∅.
Definition akahu_a2 : account := mk_account "a2" "Savings" (Some "Kiwibank") None None ∅.

Definition mapper_run : result (gmap string entry) :=
  akahu_budget_mapping.match_accounts ref_py_int id answers_one exact_score
    {["a1" := entry_a1_y1]} [akahu_a1; akahu_a2]
    [plain_account "t1" "Checking"; plain_account "t2" "Savings"]
    "actual" false
    [("1", "2024-05-01T09:00:00"); ("2", "2024-05-01T09:01:00")].

Definition mapper_result : gmap string entry :=
  <["a1" := akahu_budget_mapping.new_entry "actual_account_id" "actual_account_name"
              (set_seq 1 (plain_account "t1" "Checking")) "a1" "Everyday"
              "2024-05-01T09:00:00"]>
  {["a2" := akahu_budget_mapping.new_entry "actual_account_id" "actual_account_name"
              (set_seq 2 (plain_account "t2" "Savings")) "a2" "Savings"
              "2024-05-01T09:01:00"]}.

Lemma mapper_run_result : mapper_run = Ok mapper_result.
Proof. reflexivity. Qed.

Lemma mapper_result_a1_changed : mapper_result !! "a1" ≠ Some entry_a1_y1.
Proof.
  intros H.
  apply (f_equal (λ o, o ≫= λ e : entry, e !! "ynab_account_id")) in H.
  vm_compute in H. discriminate.
Qed.

Lemma singleton_a1_cases (e0 e : entry) (k : string) :
  ({["a1" := e0]} : gmap string entry) !! k = Some e → k = "a1" ∧ e = e0.
Proof.
  intros Hk. destruct (decide (k = "a1")) as [->|Hne].
  - rewrite lookup_singleton_eq in Hk. by injection Hk as <-.
  - by rewrite lookup_singleton_ne in Hk.
Qed.

Lemma match_accounts_keeps_targets_unique_witness :
  target_unique "actual_account_id" mapper_result.
Proof.
  apply (match_accounts_keeps_targets_unique ref_py_int id answers_one
           exact_score {["a1" := entry_a1_y1]} [akahu_a1; akahu_a2]
           [plain_account "t1" "Checking"; plain_account "t2" "Savings"]
           "actual" false
           [("1", "2024-05-01T09:00:00"); ("2", "2024-05-01T09:01:00")]
           "actual_account_id" "actual_account_name").
  - reflexivity.
  - intros k1 k2 e1 e2 t H1 H2 _ _.
    apply singleton_a1_cases in H1 as [-> _].
    by apply singleton_a1_cases in H2 as [-> _].
  - exact mapper_run_result.
Defined.

Lemma match_accounts_writes_fresh_entries_witness :
  mapper_result !! "a1" ≠ Some entry_a1_y1
  ∧ ∀ e', mapper_result !! "a1" = Some e' → e' !! "ynab_account_id" = None.
Proof.
  split; [exact mapper_result_a1_changed|]. intros e' He'.
  destruct (match_accounts_writes_fresh_entries ref_py_int id answers_one
              exact_score {["a1" := entry_a1_y1]} [akahu_a1; akahu_a2]
              [plain_account "t1" "Checking"; plain_account "t2" "Savings"]
              "actual" false
              [("1", "2024-05-01T09:00:00"); ("2", "2024-05-01T09:01:00")]
              "actual_account_id" "actual_account_name" mapper_result
              eq_refl mapper_run_result "a1" e' He')
    as [Hold|(_ & _ & _ & Hfresh)].
  - apply singleton_a1_cases in Hold as [_ ->].
    by destruct mapper_result_a1_changed.
  - apply Hfresh. rewrite !not_elem_of_cons. split_and!; try done.
    apply not_elem_of_nil.
Defined.

Lemma match_accounts_keeps_keyed_witness : keyed_by_akahu_id mapper_result.
Proof.
  apply (match_accounts_keeps_keyed ref_py_int id answers_one exact_score
           {["a1" := entry_a1_y1]} [akahu_a1; akahu_a2]
           [plain_account "t1" "Checking"; plain_account "t2" "Savings"]
           "actual" false
           [("1", "2024-05-01T09:00:00"); ("2", "2024-05-01T09:01:00")]).
  - intros k e Hk. by apply singleton_a1_cases in Hk as [-> ->].
  - exact mapper_run_result.
Defined.

(** Running the mapper again on its own result asks nothing and changes
    nothing. *)
Lemma match_accounts_resumes_witness :
  ∃ m',
    akahu_budget_mapping.match_accounts ref_py_int id answers_one exact_score
      mapper_result [akahu_a1; akahu_a2]
      [plain_account "t1" "Checking"; plain_account "t2" "Savings"]
      "actual" false [] = Ok m'
    ∧ m' !! "a1"
      = Some (akahu_budget_mapping.new_entry "actual_account_id"
                "actual_account_name"
                (set_seq 1 (plain_account "t1" "Checking")) "a1" "Everyday"
                "2024-05-01T09:00:00").
Proof.
  exists mapper_result. split; [reflexivity|].
  destruct (match_accounts_resumes ref_py_int id answers_one exact_score
              mapper_result [akahu_a1; akahu_a2]
              [plain_account "t1" "Checking"; plain_account "t2" "Savings"]
              "actual" false [] "actual_account_id" "actual_account_name"
              mapper_result eq_refl) as [Hkeep _].
  - reflexivity.
  - apply Hkeep; [reflexivity|]. rewrite new_entry_key. eauto.
Defined.

(** ** More on the directory merge *)

Section directory_again.
Import akahu_budget_mapping.

Lemma index_by_id_Some (l : list account) (k : string) (b : account) :
  index_by_id l !! k = Some b → b ∈ l ∧ acc_id b = k.
Proof.
  induction l as [|c l IH] using rev_ind; [done|].
  rewrite index_by_id_snoc. destruct (decide (acc_id c = k)) as [<-|Hne].
  - rewrite lookup_insert_eq. intros [= <-]. split; [set_solver|done].
  - rewrite lookup_insert_ne by done. intros Hb.
    destruct (IH Hb). split; [set_solver|done].
Qed.

Lemma index_by_id_is_Some (l : list account) (k : string) :
  k ∈ acc_id <$> l → is_Some (index_by_id l !! k).
Proof.
  intros Hin. destruct (index_by_id l !! k) eqn:Hk; [eauto|].
  induction l as [|c l IH] using rev_ind; [by apply elem_of_nil in Hin|].
  rewrite index_by_id_snoc in Hk. destruct (decide (acc_id c = k)) as [<-|Hne].
  - by rewrite lookup_insert_eq in Hk.
  - rewrite lookup_insert_ne in Hk by done. apply IH; [|done].
    rewrite fmap_app in Hin. set_solver.
Qed.

(** The timestamp that the merge gives depends on the id only. *)
Definition first_seen (now : string) (existing : list account) (k : string) : string :=
  match index_by_id existing !! k with
  | Some old => default now (acc_date_first_loaded old)
  | None => now
  end.

Lemma stamp_first_seen now existing a :
  stamp now (index_by_id existing) a
  = set_date_first_loaded (first_seen now existing (acc_id a)) a.
Proof. unfold stamp, first_seen. by destruct (index_by_id existing !! acc_id a). Qed.

(** A second refresh against the merged list of the first one, with the
    same latest accounts, gives the same merged list and removes nothing,
    whatever the two clock readings are. *)
Theorem combine_accounts_again (now1 now2 : string)
    (latest existing : list account) :
  combine_accounts now2 latest (combine_accounts now1 latest existing).1
  = ((combine_accounts now1 latest existing).1, []).
Proof.
  unfold combine_accounts at 1. cbn [fst].
  set (merged := (combine_accounts now1 latest existing).1).
  assert (Hids : acc_id <$> merged = acc_id <$> latest)
    by apply combine_accounts_ids.
  f_equal.
  - unfold merged, combine_accounts. cbn [fst]. apply list_fmap_ext.
    intros i a Hi. rewrite !stamp_first_seen. f_equal.
    assert (acc_id a ∈ acc_id <$> merged) as Hin.
    { rewrite Hids. apply list_elem_of_fmap. exists a. split; [done|].
      by eapply list_elem_of_lookup_2. }
    apply index_by_id_is_Some in Hin as [b Hb].
    change (stamp now1 (index_by_id existing) <$> latest) with merged.
    unfold first_seen at 1. rewrite Hb.
    apply index_by_id_Some in Hb as [Hb Hid].
    unfold merged, combine_accounts in Hb. cbn [fst] in Hb.
    apply list_elem_of_fmap in Hb as (c & -> & Hc).
    rewrite stamp_first_seen in *. simpl in *. by rewrite Hid.
  - destruct (filter _ _) as [|k ks] eqn:Hf; [done|].
    assert (k ∈ k :: ks) as Hk by (by left). rewrite <- Hf in Hk.
    apply list_elem_of_filter in Hk as [Hno Hk].
    apply dict_keys_elem in Hk as [Hk _]. rewrite Hids in Hk.
    unfold id_in in Hno. by rewrite bool_decide_eq_true_2 in Hno.
Qed.

End directory_again.

(** ** Validation of the mapping in the single-backend mapper *)

Section actual_mapping_validation.
Import akahu_actual_mapping.

Lemma ensure_date_ids now (l : list account) :
  acc_id <$> (ensure_date now <$> l) = acc_id <$> l.
Proof.
  rewrite <- list_fmap_compose. apply list_fmap_ext. intros ? a _.
  unfold ensure_date. simpl. by destruct (acc_date_first_loaded a).
Qed.

Lemma id_in_ensure_date k now l : id_in k (ensure_date now <$> l) = id_in k l.
Proof. unfold id_in. by rewrite ensure_date_ids. Qed.

Lemma value_not_in_false (v : value) (accounts : list account) :
  value_not_in v accounts = false
  ↔ ∃ t, v = VStr t ∧ t ∈ acc_id <$> accounts.
Proof.
  unfold value_not_in, id_in. destruct v as [[|s|q]|d]; try naive_solver.
  rewrite negb_false_iff, bool_decide_eq_true. naive_solver.
Qed.

Lemma actual_accounts_to_remove_ok latest (items : list (string * entry)) :
  (∀ p, p ∈ items → is_Some (p.2 !! "actual_account_id")) →
  ∃ l, actual_accounts_to_remove latest items = Ok l
       ∧ ∀ k, k ∈ l ↔ ∃ e v, (k, e) ∈ items
                             ∧ e !! "actual_account_id" = Some v
                             ∧ value_not_in v latest = true.
Proof.
  induction items as [|[k0 e0] items IH]; intros Hitems.
  - exists []. split; [done|]. intros k. split.
    + by intros ?%elem_of_nil.
    + by intros (? & ? & ?%elem_of_nil & _).
  - destruct (Hitems (k0, e0)) as [v0 Hv0]; [by left|]. simpl in Hv0.
    destruct IH as (l & Hl & Hspec); [intros p Hp; apply Hitems; by right|].
    simpl. rewrite Hv0, Hl. simpl.
    destruct (value_not_in v0 latest) eqn:Hnot.
    + exists (k0 :: l). split; [done|]. intros k. rewrite elem_of_cons, Hspec.
      split.
      * intros [->|(e & v & Hin & Hv & Hn)].
        -- exists e0, v0. split_and!; [by left|done|done].
        -- exists e, v. split_and!; [by right|done|done].
      * intros (e & v & [[= -> ->]|Hin]%elem_of_cons & Hv & Hn); [by left|].
        right. eauto.
    + exists l. split; [done|]. intros k. rewrite Hspec. split.
      * intros (e & v & Hin & Hv & Hn). exists e, v. split_and!; [by right|done|done].
      * intros (e & v & [[= -> ->]|Hin]%elem_of_cons & Hv & Hn); [congruence|].
        eauto.
Qed.

(** After validation the mapping references existing accounts only. When
    every entry of a latest Akahu account names an Actual account, the
    validation returns, and the entries it keeps are exactly the entries
    whose Akahu id is a latest Akahu account and whose Actual id is a
    latest Actual account; every other entry is deleted whole. *)
Theorem actual_mapping_validated (now_akahu now_actual : string)
    (m : gmap string entry)
    (latest_akahu latest_actual existing_akahu existing_actual : list account) :
  (∀ k e, m !! k = Some e → k ∈ acc_id <$> latest_akahu →
          is_Some (e !! "actual_account_id")) →
  ∃ m' updated_akahu updated_actual,
    merge_and_update_mapping now_akahu now_actual m latest_akahu latest_actual
      existing_akahu existing_actual
    = Ok (m', updated_akahu, updated_actual)
    ∧ ∀ k e, m' !! k = Some e
             ↔ m !! k = Some e
               ∧ k ∈ acc_id <$> latest_akahu
               ∧ ∃ t, e !! "actual_account_id" = Some (VStr t)
                      ∧ t ∈ acc_id <$> latest_actual.
Proof.
  intros Hnamed. unfold merge_and_update_mapping.
  set (gone := filter (λ akahu_id, ¬ id_in akahu_id (ensure_date now_akahu <$> latest_akahu))
                 (map_to_list m).*1).
  set (m1 := foldl (λ m akahu_id, delete akahu_id m) m gone).
  assert (Hgone : ∀ k, k ∈ gone ↔ is_Some (m !! k) ∧ k ∉ acc_id <$> latest_akahu).
  { intros k. unfold gone. rewrite list_elem_of_filter, elem_of_keys,
      id_in_ensure_date. unfold id_in.
    destruct (decide (k ∈ acc_id <$> latest_akahu)).
    - rewrite bool_decide_eq_true_2 by done. naive_solver.
    - rewrite bool_decide_eq_false_2 by done. naive_solver. }
  assert (Hm1 : ∀ k e, m1 !! k = Some e
                       ↔ m !! k = Some e ∧ k ∈ acc_id <$> latest_akahu).
  { intros k e. unfold m1. rewrite foldl_delete_lookup. case_decide as Hd.
    - apply Hgone in Hd. naive_solver.
    - split; [|naive_solver]. intros Hk. split; [done|].
      destruct (decide (k ∈ acc_id <$> latest_akahu)); [done|].
      destruct Hd. apply Hgone. eauto. }
  destruct (actual_accounts_to_remove_ok (ensure_date now_actual <$> latest_actual)
              (map_to_list m1)) as (l & -> & Hl).
  { intros [k e] Hin. apply elem_of_map_to_list, Hm1 in Hin as [Hk Hin].
    by eapply Hnamed. }
  simpl. eexists _, _, _. split; [reflexivity|].
  intros k e. rewrite foldl_delete_lookup. case_decide as Hd.
  - split; [done|]. intros (Hk & Hin & t & Ht & Htin). exfalso.
    apply Hl in Hd as (e' & v & He' & Hv & Hnot).
    apply elem_of_map_to_list, Hm1 in He' as [He' _].
    assert (e' = e) as -> by congruence.
    assert (v = VStr t) as -> by congruence.
    assert (value_not_in (VStr t) (ensure_date now_actual <$> latest_actual) = false)
      as Hfalse; [|congruence].
    apply value_not_in_false. exists t. by rewrite ensure_date_ids.
  - rewrite Hm1. split; [|naive_solver]. intros [Hk Hin]. split_and!; [done..|].
    destruct (Hnamed k e Hk Hin) as [v Hv].
    destruct (value_not_in v (ensure_date now_actual <$> latest_actual)) eqn:Hnot.
    + destruct Hd. apply Hl. exists e, v. split_and!; [|done|done].
      apply elem_of_map_to_list, Hm1. by split.
    + apply value_not_in_false in Hnot as (t & -> & Ht).
      rewrite ensure_date_ids in Ht. eauto.
Qed.

End actual_mapping_validation.

Lemma actual_mapping_validated_witness :
  ∃ m' updated_akahu updated_actual,
    akahu_actual_mapping.merge_and_update_mapping
      "2024-05-01T09:00:00" "2024-05-01T09:00:01"
      {["a1" := entry_a1_t1]}
      [plain_account "a1" "Everyday"] [plain_account "t1" "Checking"] [] []
    = Ok (m', updated_akahu, updated_actual)
    ∧ m' !! "a1" = Some entry_a1_t1.
Proof.
  destruct (actual_mapping_validated "2024-05-01T09:00:00" "2024-05-01T09:00:01"
              {["a1" := entry_a1_t1]}
              [plain_account "a1" "Everyday"] [plain_account "t1" "Checking"]
              [] []) as (m' & ak & ac & Hrun & Hspec).
  - intros k e Hk _. apply singleton_a1_cases in Hk as [_ ->]. by eexists.
  - exists m', ak, ac. split; [exact Hrun|]. apply Hspec.
    split_and!; [reflexivity| |].
    + simpl. by left.
    + exists "t1". split; [reflexivity|]. simpl. by left.
Defined.

(** ** The mapping file between the mapper and the sync *)

Section mapping_file.

(** What the mapper saves it loads back from the same file; but it saves
    under another default name than the one it loads from, so with the
    default names a run does not see what the run before it saved. *)
Theorem mapper_save_then_load (disk : akahu_budget_mapping.files)
    (m : gmap string entry) (akahu actual ynab : list account) (file : string) :
  akahu_budget_mapping.load_existing_mapping
    (akahu_budget_mapping.save_mapping disk m akahu actual ynab file) file
  = Ok (akahu, actual, ynab, m)
  ∧ akahu_budget_mapping.load_existing_mapping
      (akahu_budget_mapping.save_mapping disk m akahu actual ynab
         akahu_budget_mapping.save_default_file)
      akahu_budget_mapping.load_default_file
    = akahu_budget_mapping.load_existing_mapping disk
        akahu_budget_mapping.load_default_file.
Proof.
  unfold akahu_budget_mapping.load_existing_mapping,
    akahu_budget_mapping.save_mapping. split.
  - by rewrite lookup_insert_eq.
  - by rewrite lookup_insert_ne.
Qed.

(** The sync script cannot load a file in the format the mapper saves: the
    mapper dumps the mapping as an object keyed by Akahu id, the sync script
    iterates it as a list of entries, and any mapping that is not empty
    makes [load_existing_mapping] of akahu_to_budget.py raise [TypeError]. *)
Theorem sync_rejects_mapper_file (m : gmap string entry)
    (akahu actual ynab : list account) :
  m ≠ ∅ →
  akahu_to_budget.load_existing_mapping
    (Some (akahu_budget_mapping.data_to_save m akahu actual ynab))
  = Raise TypeError.
Proof.
  intros Hm. unfold akahu_to_budget.load_existing_mapping. simpl.
  by rewrite bool_decide_eq_false_2.
Qed.

Lemma key_present_by_akahu_id_pairs (l : list (string * entry))
    (acc : gmap string entry) :
  (∀ p, p ∈ l → p.2 !! "akahu_id" = Some (VStr p.1)) →
  akahu_budget_mapping.key_present_by_akahu_id acc l.*2
  = Ok (foldl (λ m p, <[p.1 := p.2]> m) acc l).
Proof.
  revert acc. induction l as [|p l IH]; intros acc Hl; [done|].
  simpl. rewrite (Hl p) by (by left). apply IH. intros q Hq. apply Hl. by right.
Qed.

(** The other way round works: the mapper loads the file that the sync
    script saves, and gets the state of the sync script back, when the
    mapping of that state is keyed by each entry's own ['akahu_id']. *)
Theorem mapper_loads_sync_file (disk : akahu_budget_mapping.files)
    (file : string) (g : akahu_to_budget.globals) (d : gmap string entry) :
  akahu_to_budget.g_mapping_list g = MappingDict d →
  keyed_by_akahu_id d →
  ∃ doc,
    akahu_to_budget.save_updated_mapping g = Ok doc
    ∧ akahu_budget_mapping.load_existing_mapping (<[file := doc]> disk) file
      = Ok (akahu_to_budget.g_akahu_accounts g,
            akahu_to_budget.g_actual_accounts g,
            akahu_to_budget.g_ynab_accounts g, d).
Proof.
  intros Hd Hkeyed. unfold akahu_to_budget.save_updated_mapping. rewrite Hd.
  eexists. split; [reflexivity|].
  unfold akahu_budget_mapping.load_existing_mapping.
  rewrite lookup_insert_eq. cbn [doc_mapping].
  rewrite key_present_by_akahu_id_pairs.
  - rewrite foldl_insert_list_to_map by apply NoDup_fst_map_to_list.
    by rewrite list_to_map_to_list, (right_id_L ∅ (∪)).
  - intros [k e] Hin. apply elem_of_map_to_list in Hin. by apply Hkeyed.
Qed.

End mapping_file.

Definition sync_state : akahu_to_budget.globals :=
  akahu_to_budget.mk_globals [plain_account "a1" "Everyday"]
    [plain_account "t1" "Checking"] [] (MappingDict {["a1" := entry_a1_t1]}).

Lemma sync_rejects_mapper_file_witness :
  akahu_to_budget.load_existing_mapping
    (Some (akahu_budget_mapping.data_to_save {["a1" := entry_a1_t1]}
             [plain_account "a1" "Everyday"] [plain_account "t1" "Checking"] []))
  = Raise TypeError.
Proof.
  apply sync_rejects_mapper_file. intros Hempty.
  apply (f_equal (λ m : gmap string entry, m !! "a1")) in Hempty.
  by rewrite lookup_singleton_eq, lookup_empty in Hempty.
Defined.

Lemma mapper_loads_sync_file_witness :
  ∃ doc,
    akahu_to_budget.save_updated_mapping sync_state = Ok doc
    ∧ akahu_budget_mapping.load_existing_mapping
        {["akahu_to_budget_mapping.json" := doc]} "akahu_to_budget_mapping.json"
      = Ok ([plain_account "a1" "Everyday"], [plain_account "t1" "Checking"],
            [], {["a1" := entry_a1_t1]}).
Proof.
  apply (mapper_loads_sync_file ∅ "akahu_to_budget_mapping.json" sync_state
           {["a1" := entry_a1_t1]}); [reflexivity|].
  intros k e Hk. by apply singleton_a1_cases in Hk as [-> ->].
Defined.

(** ** Edges of the paginated fetch of akahu_to_budget.py *)

(** A page without items ends the fetch whatever its cursor member says:
    the pages that the provider still has are never requested, and the
    rows of the pages before it are returned. *)
Theorem get_all_akahu_stops_at_empty_page
    (serve : provider) (fuel : nat) (akahu_account_id : string)
    (last_reconciled_at : option string)
    (ps : list (list txn_row * string)) (empty_page : page) :
  let start := akahu_to_budget.start_param last_reconciled_at in
  let last_request :=
    mk_request akahu_account_id start (final_cursor None ps) in
  served serve akahu_account_id start 0 None ps →
  akahu_to_budget.try_get (serve (length ps) last_request) = Some empty_page →
  default [] (page_items empty_page) = [] →
  (length ps < fuel)%nat →
  akahu_to_budget.get_all_akahu serve fuel akahu_account_id last_reconciled_at
  = Some (requests_of akahu_account_id start None ps ++ [last_request],
          Ok (Some (concat ps.*1))).
Proof.
  intros start last_request Hserved Hlast Hempty Hfuel.
  unfold akahu_to_budget.get_all_akahu. fold start.
  destruct (paginate_pages serve akahu_account_id start ps
              (fuel - length ps) 0
              (mk_request akahu_account_id start None) "first time" None
              None []) as (qp' & nc' & Hqp' & Hpag); [done|done|].
  replace (length ps + (fuel - length ps))%nat with fuel in Hpag by lia.
  rewrite Hpag.
  destruct (fuel - length ps)%nat as [|fuel'] eqn:Hf; [lia|].
  cbn [akahu_to_budget.paginate Nat.add]. fold (with_cursor qp' nc').
  rewrite Hqp'. fold last_request. rewrite Hlast, Hempty.
  unfold akahu_to_budget.next_cursor_of. rewrite bool_decide_eq_true_2 by done.
  f_equal. f_equal. f_equal. destruct ps as [|p ps]; [done|].
  rewrite fetched_None. simpl. by rewrite app_nil_r.
Qed.

(** A provider that goes on naming a next cursor on a page without items. *)
Definition empty_second_page : provider := λ n r,
  match req_cursor r with
  | None => Response 200 (mk_page (Some [txn_coffee]) (CursorDict (Some (Some "c1"))))
  | Some _ => Response 200 (mk_page (Some []) (CursorDict (Some (Some "c2"))))
  end.

Lemma get_all_akahu_stops_at_empty_page_witness :
  akahu_to_budget.get_all_akahu empty_second_page 10 "acc_1"
    (Some "2024-06-15T00:00:00Z")
  = Some ([mk_request "acc_1" "2024-06-15T00:00:00Z" None;
           mk_request "acc_1" "2024-06-15T00:00:00Z" (Some "c1")],
          Ok (Some [txn_coffee])).
Proof.
  apply (get_all_akahu_stops_at_empty_page empty_second_page 10 "acc_1"
           (Some "2024-06-15T00:00:00Z") [([txn_coffee], "c1")]
           (mk_page (Some []) (CursorDict (Some (Some "c2"))))).
  - simpl. split_and!; done.
  - reflexivity.
  - reflexivity.
  - simpl; lia.
Defined.

(** ** The paginated fetch of akahu_to_actual.py *)

Section actual_pagination.
Import akahu_to_actual.

Variable serve : provider.
Variables account start : string.

(** The provider answers the successive requests, from request [n] with
    cursor parameter [cur], with status 200 and the pages [ps], each naming
    the cursor of the next. A page may have no rows. *)
Fixpoint served_ok (n : nat) (cur : option string)
    (ps : list (list txn_row * string)) : Prop :=
  match ps with
  | [] => True
  | p :: ps' =>
      p.2 ≠ "first_time"
      ∧ try_page (serve n (mk_request account start cur)) = Some (p.1, Some p.2)
      ∧ served_ok (S n) (Some p.2) ps'
  end.

Definition next_request (query_params : request) (next_cursor : string) : request :=
  if bool_decide (next_cursor ≠ "first_time")
  then mk_request (req_account query_params) (req_start query_params)
                  (Some next_cursor)
  else query_params.

Lemma to_actual_paginate_pages (ps : list (list txn_row * string)) :
  ∀ fuel n query_params next_cursor cur res sent,
    next_request query_params next_cursor = mk_request account start cur →
    served_ok n cur ps →
    ∃ query_params' next_cursor',
      next_request query_params' next_cursor'
      = mk_request account start (final_cursor cur ps)
      ∧ paginate serve (length ps + fuel) n query_params next_cursor res sent
        = paginate serve fuel (n + length ps) query_params' next_cursor'
            (fetched res ps) (sent ++ requests_of account start cur ps).
Proof.
  induction ps as [|p ps IH]; intros fuel n qp nc cur res sent Hqp Hserved.
  - exists qp, nc. simpl. rewrite Nat.add_0_r, app_nil_r. by split.
  - destruct Hserved as (Hsentinel & Hpage & Hrest).
    destruct (IH fuel (S n) (mk_request account start cur) p.2 (Some p.2)
                (akahu_to_budget.accumulate res p.1)
                (sent ++ [mk_request account start cur]))
      as (qp' & nc' & Hqp' & Hpag); [|done|].
    { unfold next_request. by rewrite bool_decide_eq_true_2. }
    exists qp', nc'. split; [done|].
    cbn [length Nat.add paginate]. fold (next_request qp nc).
    rewrite Hqp, Hpage, Hpag.
    replace (n + S (length ps))%nat with (S n + length ps)%nat by lia.
    cbn [requests_of fetched foldl]. by rewrite <- app_assoc.
Qed.


End actual_pagination.

(** The fetch of akahu_to_actual.py is all or nothing. After pages served
    with status 200, a last page without a next cursor makes it return the
    rows of all the pages; a request that fails instead (the connection
    fails, the status is not 200, the body has no ['items'] or a null
    cursor) makes it return [None]: the rows of the pages fetched before the
    failure are dropped. *)
Theorem to_actual_fetch_all_or_nothing
    (strptime : string → string → option datetime)
    (strftime : datetime → string → string)
    (serve : provider) (fuel : nat) (akahu_account_id : string)
    (last_reconciled_at : option string) (start : string)
    (ps : list (list txn_row * string)) :
  let last_request :=
    mk_request akahu_account_id start (final_cursor None ps) in
  akahu_to_actual.week_before strptime strftime last_reconciled_at = Ok start →
  served_ok serve akahu_account_id start 0 None ps →
  (length ps < fuel)%nat →
  (∀ last_rows,
     akahu_to_actual.try_page (serve (length ps) last_request)
     = Some (last_rows, None) →
     akahu_to_actual.get_all_akahu strptime strftime serve fuel
       akahu_account_id last_reconciled_at
     = Ok (Some (requests_of akahu_account_id start None ps ++ [last_request],
                 Some (concat ps.*1 ++ last_rows))))
  ∧ (akahu_to_actual.try_page (serve (length ps) last_request) = None →
     akahu_to_actual.get_all_akahu strptime strftime serve fuel
       akahu_account_id last_reconciled_at
     = Ok (Some (requests_of akahu_account_id start None ps ++ [last_request],
                 None))).
Proof.
  intros last_request Hstart Hserved Hfuel.
  unfold akahu_to_actual.get_all_akahu. rewrite Hstart. simpl.
  destruct (to_actual_paginate_pages serve akahu_account_id start ps
              (fuel - length ps) 0
              (mk_request akahu_account_id start None) "first_time" None
              None []) as (qp' & nc' & Hqp' & Hpag); [done|done|].
  replace (length ps + (fuel - length ps))%nat with fuel in Hpag by lia.
  rewrite Hpag.
  destruct (fuel - length ps)%nat as [|fuel'] eqn:Hf; [lia|].
  cbn [akahu_to_actual.paginate Nat.add]. fold (next_request qp' nc').
  rewrite Hqp'. fold last_request. split.
  - intros last_rows ->. do 3 f_equal.
    destruct ps as [|p ps]; [done|]. by rewrite fetched_None.
  - by intros ->.
Qed.


(** The provider of the partial fetch, seen by akahu_to_actual.py: the
    rows of the first page are not returned. *)
Lemma to_actual_fetch_all_or_nothing_witness :
  akahu_to_actual.get_all_akahu ref_strptime ref_strftime second_page_fails 5
    "acc_1" (Some "2024-06-15T12:00:00Z")
  = Ok (Some ([mk_request "acc_1" "2024-06-08T12:00:00Z" None;
               mk_request "acc_1" "2024-06-08T12:00:00Z" (Some "c1")],
              None)).
Proof.
  apply (to_actual_fetch_all_or_nothing ref_strptime ref_strftime
           second_page_fails 5 "acc_1" (Some "2024-06-15T12:00:00Z")
           "2024-06-08T12:00:00Z" [([txn_coffee; txn_salary], "c1")]).
  - reflexivity.
  - simpl. split_and!; done.
  - simpl; lia.
  - reflexivity.
Defined.


(** ** The paginated fetch of akahu_api.py *)

Section api_pagination.
Import akahu_api.

Variable serve : provider.
Variables account_id start_date : string.

(** The provider answers the successive requests, from request [n] with
    cursor parameter [cur], with the pages [ps], each naming a next cursor
    that is not empty. A page may have no rows, or no ['items'] at all, in
    which case its rows [p.1] are none. *)
Fixpoint api_served (n : nat) (cur : option string)
    (ps : list (list txn_row * string)) : Prop :=
  match ps with
  | [] => True
  | p :: ps' =>
      p.2 ≠ ""
      ∧ (∃ body,
           akahu_to_budget.try_get (serve n (mk_request account_id start_date cur))
           = Some body
           ∧ default [] (page_items body) = p.1
           ∧ page_cursor body = CursorDict (Some (Some p.2)))
      ∧ api_served (S n) (Some p.2) ps'
  end.

(** A page whose cursor ends the loop: no ['cursor'], no ['next'] in it, or
    a ['next'] that is null or empty. *)
Definition api_last (body : page) : Prop :=
  page_cursor body = CursorMissing ∨ page_cursor body = CursorDict None
  ∨ page_cursor body = CursorDict (Some None)
  ∨ page_cursor body = CursorDict (Some (Some "")).

Lemma fetch_loop_pages (ps : list (list txn_row * string)) :
  ∀ fuel n cur all_transactions sent,
    api_served n cur ps →
    fetch_loop serve (length ps + fuel) n account_id start_date cur
      all_transactions sent
    = fetch_loop serve fuel (n + length ps) account_id start_date
        (final_cursor cur ps) (all_transactions ++ concat ps.*1)
        (sent ++ requests_of account_id start_date cur ps).
Proof.
  induction ps as [|p ps IH]; intros fuel n cur rows sent Hserved.
  - simpl. by rewrite Nat.add_0_r, !app_nil_r.
  - destruct Hserved as (Hne & (body & Hget & Hitems & Hcursor) & Hrest).
    cbn [length Nat.add fetch_loop]. rewrite Hget, Hitems, Hcursor.
    rewrite bool_decide_eq_false_2 by done.
    rewrite IH by done.
    replace (n + S (length ps))%nat with (S n + length ps)%nat by lia.
    cbn [requests_of final_cursor fmap list_fmap concat].
    by rewrite <- !app_assoc.
Qed.

End api_pagination.

(** The fetch of akahu_api.py follows the next cursors with one request
    per page, each carrying the start date it was given, through pages that
    have no rows as well. When the page after them ends the loop, it
    returns the rows of all the pages in order; when the request after them
    fails (no connection, or a status from 400 to 599), it raises
    [RuntimeError] and the rows of the pages before are not returned. *)
Theorem api_fetch_all_or_error (serve : provider) (fuel : nat)
    (account_id start_date : string) (ps : list (list txn_row * string)) :
  let last_request :=
    mk_request account_id start_date (final_cursor None ps) in
  let requests := requests_of account_id start_date None ps ++ [last_request] in
  api_served serve account_id start_date 0 None ps →
  (length ps < fuel)%nat →
  (∀ body,
     akahu_to_budget.try_get (serve (length ps) last_request) = Some body →
     api_last body →
     akahu_api.fetch_transactions_paginated serve fuel account_id start_date
     = Some (requests, Ok (concat ps.*1 ++ default [] (page_items body))))
  ∧ (akahu_to_budget.try_get (serve (length ps) last_request) = None →
     akahu_api.fetch_transactions_paginated serve fuel account_id start_date
     = Some (requests, Raise RuntimeError)).
Proof.
  intros last_request requests Hserved Hfuel.
  unfold akahu_api.fetch_transactions_paginated.
  assert (akahu_api.fetch_loop serve fuel 0 account_id start_date None [] []
          = akahu_api.fetch_loop serve (S (fuel - S (length ps))) (length ps)
              account_id start_date (final_cursor None ps) (concat ps.*1)
              (requests_of account_id start_date None ps)) as ->.
  { replace fuel with (length ps + S (fuel - S (length ps)))%nat at 1 by lia.
    by rewrite (fetch_loop_pages serve account_id start_date ps). }
  cbn [akahu_api.fetch_loop]. fold last_request. fold requests. split.
  - intros body -> Hlast.
    destruct Hlast as [-> | [-> | [-> | ->]]]; try done.
  - by intros ->.
Qed.

(** The provider of the partial fetch, seen by akahu_api.py. *)
Lemma api_fetch_all_or_error_witness :
  akahu_api.fetch_transactions_paginated second_page_fails 5 "acc_1"
    "2024-06-15T12:00:00Z"
  = Some ([mk_request "acc_1" "2024-06-15T12:00:00Z" None;
           mk_request "acc_1" "2024-06-15T12:00:00Z" (Some "c1")],
          Raise RuntimeError).
Proof.
  apply (api_fetch_all_or_error second_page_fails 5 "acc_1"
           "2024-06-15T12:00:00Z" [([txn_coffee; txn_salary], "c1")]).
  - simpl. split_and!; [done| |done]. eexists. split_and!; reflexivity.
  - simpl; lia.
  - reflexivity.
Defined.

(** ** Errors of the Actual Budget collaborator *)

Section import_errors.
Import akahu_to_budget.

Context {ledger session_t reconciled : Type}.
Variable session : ledger → result session_t.
Variable changed : reconciled → bool.
Variable reconcile_transaction :
  ledger → session_t → reconcile_call reconciled → ledger * result reconciled.
Variable strptime : string → string → option datetime.
Variable strftime : datetime → string → string.

Lemma reconcile_rows_without_session (actual_account_id : value)
    (rows : list txn_row) (st : ledger * list reconciled * list (reconcile_call reconciled)) :
  (∀ l, ∃ e, session l = Raise e) →
  foldl (reconcile_row session changed reconcile_transaction strptime
           actual_account_id) st rows = st.
Proof.
  intros Hclosed. induction rows as [|row rows IH]; [done|].
  cbn [foldl]. destruct st as [[l imported] calls].
  unfold reconcile_row at 2. destruct (Hclosed l) as [e ->]. apply IH.
Qed.

(** When [actual.session()] cannot be called, the import of a frame with
    rows reconciles nothing and leaves the ledger as it was, and still sets
    the checkpoint of the entry to the clock reading. *)
Theorem import_without_session_sets_checkpoint (rows : list txn_row)
    (mapping_entry : entry) (actual : ledger) (now : datetime)
    (actual_account_id : value) :
  (∀ l, ∃ e, session l = Raise e) →
  rows ≠ [] →
  mapping_entry !! "actual_account_id" = Some actual_account_id →
  load_transactions_into_actual session changed reconcile_transaction
    strptime strftime (Some rows) mapping_entry actual now
  = Ok (<["actual_synced_datetime" :=
            VStr (strftime now "%Y-%m-%dT%H:%M:%SZ")]> mapping_entry,
        actual, []).
Proof.
  intros Hclosed Hrows Hid. unfold load_transactions_into_actual.
  destruct rows as [|row rows]; [done|]. rewrite Hid.
  by rewrite reconcile_rows_without_session.
Qed.

End import_errors.

Section tracking_errors.
Import akahu_to_budget.

Context {ledger session_t account_t : Type}.
Variable session : ledger → result session_t.
Variable enter : session_t → result session_t.
Variable get_account : session_t → value → result (option account_t).
Variable balance_current : account_t → option Z.
Variable create_transaction :
  ledger → session_t → create_call → ledger * result ().
Variable isoformat : datetime → string.
Variable str_div100 : Z → result string.

(** The balance reconciliation of an entry that names its accounts never
    raises: it issues at most one [create_transaction] call, leaves the
    ledger as it was when it issues none, and issues none when the entry
    has no number as its source balance or when no target balance can be
    read. *)
Theorem tracking_errors_contained (mapping_entry : entry) (actual : ledger)
    (now_date now_id : datetime) :
  (∀ k, k ∈ ["akahu_id"; "actual_account_id"; "akahu_name";
             "actual_account_name"] → is_Some (mapping_entry !! k)) →
  ∃ l calls actual_account_id,
    handle_tracking_account_actual session enter get_account balance_current
      create_transaction isoformat str_div100 mapping_entry actual now_date
      now_id
    = Ok (l, calls)
    ∧ mapping_entry !! "actual_account_id" = Some actual_account_id
    ∧ (length calls ≤ 1)%nat
    ∧ (calls = [] → l = actual)
    ∧ ((∀ x, mapping_entry !! "akahu_balance" ≠ Some (VNum x)) → calls = [])
    ∧ (get_actual_balance session enter get_account balance_current actual
         actual_account_id = None → calls = []).
Proof.
  intros Hkeys.
  destruct (Hkeys "akahu_id") as [v1 H1]; [set_solver|].
  destruct (Hkeys "actual_account_id") as [v2 H2]; [set_solver|].
  destruct (Hkeys "akahu_name") as [v3 H3]; [set_solver|].
  destruct (Hkeys "actual_account_name") as [v4 H4]; [set_solver|].
  unfold handle_tracking_account_actual, item.
  rewrite H1, H2, H3, H4. cbn [mbind result_bind].
  set (done := adjust_balance session enter get_account balance_current
                 create_transaction isoformat str_div100 mapping_entry v2
                 actual now_date now_id).
  exists done.1, done.2, v2. split; [by destruct done|]. split; [done|].
  subst done. unfold adjust_balance, akahu_balance_of, item.
  destruct (mapping_entry !! "akahu_balance") as [[[|s|x]|d]|] eqn:Hbalance;
    cbn [mbind result_bind]; try (split_and!; by auto).
  destruct (round_number (times x 100)) as [akahu_balance|];
    [|split_and!; by auto].
  destruct (get_actual_balance _ _ _ _ _ _) as [actual_balance|];
    [|split_and!; by auto].
  case_bool_decide; [|split_and!; by auto].
  destruct (str_div100 actual_balance); [|split_and!; by auto].
  destruct (str_div100 akahu_balance); [|split_and!; by auto].
  destruct (session actual); [|split_and!; by auto].
  split_and!; [simpl; lia|done| |done].
  intros Hnone. by destruct (Hnone x).
Qed.

End tracking_errors.

Lemma import_without_session_sets_checkpoint_witness :
  akahu_to_budget.load_transactions_into_actual closed_session id
    accepting_ledger ref_strptime ref_strftime
    (Some [txn_coffee; txn_salary]) entry_a1_t1 0%nat noon_15_june
  = Ok (<["actual_synced_datetime" := VStr "2024-06-15T12:00:00Z"]> entry_a1_t1,
        0%nat, []).
Proof.
  apply (import_without_session_sets_checkpoint closed_session id
           accepting_ledger ref_strptime ref_strftime
           [txn_coffee; txn_salary] entry_a1_t1 0%nat noon_15_june (VStr "t1")).
  - intros l. by exists TypeError.
  - discriminate.
  - reflexivity.
Defined.

Lemma tracking_errors_contained_witness :
  ∃ l calls,
    akahu_to_budget.handle_tracking_account_actual open_session entered
      account_t1 Some accepting_create ref_isoformat ref_str_div100
      entry_a1_t1 0%nat noon_15_june noon_15_june
    = Ok (l, calls)
    ∧ calls = [].
Proof.
  destruct (tracking_errors_contained open_session entered account_t1 Some
              accepting_create ref_isoformat ref_str_div100 entry_a1_t1
              0%nat noon_15_june noon_15_june)
    as (l & calls & v & Hrun & _ & _ & _ & Hnone & _).
  - intros k Hk. repeat (apply elem_of_cons in Hk as [->|Hk]; [by eexists|]).
    by apply elem_of_nil in Hk.
  - exists l, calls. split; [exact Hrun|]. apply Hnone. intros x. discriminate.
Defined.

(** ** What the webhook answers *)

Section webhook_answers.
Import akahu_to_budget.

Context {public_key_t : Type}.
Variable load_pem_public_key : string → result public_key_t.
Variable b64decode_str : string → result string.
Variable verify : public_key_t → string → string → result ().
Variable get_json : string → result (option webhook_body).
Variable open_budget : result ().

(** The webhook never imports and never answers "success". A response is
    either 400 "invalid signature", exactly when verification raised
    [InvalidSignature], or 200 "ignored", for a verified request that is
    not a TRANSACTION_CREATED event; a verified TRANSACTION_CREATED event
    ends in an exception that leaves the view. *)
Theorem webhook_never_succeeds (public_key : string)
    (signature : option string) (request_body : string) :
  let answer :=
    receive_transaction load_pem_public_key b64decode_str verify get_json
      open_budget public_key signature request_body in
  let verified :=
    verify_signature load_pem_public_key b64decode_str verify public_key
      signature request_body in
  answer.2 = false
  ∧ (∀ code status,
       answer.1 = Responded code status →
       (code = 400 ∧ status = "invalid signature"
        ∧ verified = Raise InvalidSignature)
       ∨ (code = 200 ∧ status = "ignored" ∧ verified = Ok ()
          ∧ ∀ data, get_json request_body = Ok (Some data) →
                    wh_type data ≠ Some (AStr "TRANSACTION_CREATED")))
  ∧ (∀ data,
       verified = Ok () →
       get_json request_body = Ok (Some data) →
       wh_type data = Some (AStr "TRANSACTION_CREATED") →
       ∃ e, answer.1 = Unhandled e).
Proof.
  intros answer verified. subst answer. unfold receive_transaction.
  fold verified. destruct verified as [[]|e].
  - destruct (get_json request_body) as [[data|]|e].
    + case_bool_decide as Htype.
      * split_and!; [by destruct open_budget|by destruct open_budget|].
        intros data' _ [= <-] _. destruct open_budget; eauto.
      * split_and!; [done| |].
        -- intros code status [= <- <-]. right. split_and!; try done.
           by intros data' [= <-].
        -- intros data' _ [= <-] Hcreated. done.
    + split_and!; [done| |done].
      intros code status [= <- <-]. right. split_and!; try done.
    + split_and!; done.
  - destruct e; split_and!; try done.
    intros code status [= <- <-]. by left.
Qed.

End webhook_answers.

Lemma webhook_never_succeeds_witness :
  (akahu_to_budget.receive_transaction toy_load_key toy_b64decode toy_verify
     (λ _, Ok (Some (akahu_to_budget.mk_webhook_body
                       (Some (AStr "TRANSACTION_CREATED")) (Some txn_coffee))))
     (Ok ()) "akahu-public-key" (Some "[{}]") "{}").1
  = akahu_to_budget.Unhandled (NameError "mapping").
Proof.
  destruct (webhook_never_succeeds toy_load_key toy_b64decode toy_verify
              (λ _, Ok (Some (akahu_to_budget.mk_webhook_body
                                (Some (AStr "TRANSACTION_CREATED"))
                                (Some txn_coffee))))
              (Ok ()) "akahu-public-key" (Some "[{}]") "{}")
    as (_ & _ & Hcreated).
  destruct (Hcreated (akahu_to_budget.mk_webhook_body
                        (Some (AStr "TRANSACTION_CREATED")) (Some txn_coffee)))
    as [e He]; [reflexivity..|].
  rewrite He. f_equal. revert He. by intros [= <-].
Defined.

(** The first run of the synchronisation, with no mapping file: the loop
    has nothing to do and the state cannot be saved. *)
Lemma main_loop_without_file_witness :
  akahu_to_budget.main_loop open_session entered account_t1 Some
    accepting_create ref_isoformat ref_str_div100 (λ _, second_page_fails)
    (λ _, unreachable_ynab) (λ _, (noon_15_june, noon_15_june))
    (λ _, "") (λ _, "") 5
    (akahu_to_budget.mk_globals [] [] [] (MappingList [])) 0%nat
  = Some (0%nat, akahu_to_budget.no_effects, Raise AttributeError).
Proof.
  apply (main_loop_without_file open_session entered account_t1 Some
           accepting_create ref_isoformat ref_str_div100
           (λ _, second_page_fails) (λ _, unreachable_ynab)
           (λ _, (noon_15_june, noon_15_june)) (λ _, "") (λ _, "") 5).
  reflexivity.
Defined.
